(** * gpt-computer-agent: activity classifier and aggregator, tool registry,
      agent loop

    A shallow embedding of

    - [src/aideck/services/activity_tracker.py]
    - [src/aideck/services/improved_activity_tracker.py]
    - [src/aideck/services/activity_tools.py]
    - [src/aideck/core/tools.py]
    - [src/gpt_computer_agent/core/agent.py]

    Python [int] is [Z]; Python [float] is the kernel's binary64
    ([PrimFloat.float]), so that [/], [*], [<] and [int(...)] round exactly as
    CPython does; [str] is [string]; a [dict] whose order is visible is an
    association list, the tool registry is a [gmap]. *)

From Stdlib Require Import PrimFloat.
From Stdlib Require FloatOps SpecFloat Uint63.
From Stdlib Require Import ZArith Ascii DecimalString Lia.
From stdpp Require Import gmap strings list.

Local Open Scope Z_scope.
#[local] Set Warnings "-inexact-float,-register-all".

Abbreviation float := PrimFloat.float.

(** ** Python primitives *)

Module Py.

(** Exceptions that the modelled code lets escape. *)
Inductive Exception :=
| KeyError (key : string)
| ValueError (msg : string)
| TypeError (msg : string)
| IndexError
| JSONDecodeError
| FileNotFoundError (filename : string)
| AttributeError (attr : string)
| ToolError (msg : string)
| APIError (msg : string).

(** [float(z)] for an [int]; exact for [|z| < 2^53], which covers every
    count and duration below. *)
Definition float_of_int (z : Z) : float :=
  if z <? 0 then PrimFloat.opp (PrimFloat.of_uint63 (Uint63.of_Z (- z)))
  else PrimFloat.of_uint63 (Uint63.of_Z z).

(** [a / b] on two [int]s (true division, correctly rounded). *)
Definition true_div (a b : Z) : float :=
  PrimFloat.div (float_of_int a) (float_of_int b).

(** [int(x)] on a [float]: truncation toward zero.  Python raises on
    infinities and NaN; the callers below only pass finite values, and the
    model answers [0] there. *)
Definition int_of_float (x : float) : Z :=
  match FloatOps.Prim2SF x with
  | SpecFloat.S754_finite s m e =>
      let mag := match e with
                 | Z0 => Zpos m
                 | Zpos p => Z.shiftl (Zpos m) (Zpos p)
                 | Zneg p => Z.shiftr (Zpos m) (Zpos p)
                 end in
      if s then - mag else mag
  | _ => 0
  end.

(** [needle in haystack] on [str]. *)
Fixpoint contains (needle haystack : string) : bool :=
  String.prefix needle haystack
  || match haystack with
     | EmptyString => false
     | String _ rest => contains needle rest
     end.

(** [str.lower] and [str.upper] on ASCII text. *)
Definition ascii_lower (c : ascii) : ascii :=
  let n := N_of_ascii c in
  if ((65 <=? n) && (n <=? 90))%N then ascii_of_N (n + 32) else c.

Definition ascii_upper (c : ascii) : ascii :=
  let n := N_of_ascii c in
  if ((97 <=? n) && (n <=? 122))%N then ascii_of_N (n - 32) else c.

Fixpoint map_string (f : ascii -> ascii) (s : string) : string :=
  match s with
  | EmptyString => EmptyString
  | String c rest => String (f c) (map_string f rest)
  end.

Definition lower : string -> string := map_string ascii_lower.
Definition upper : string -> string := map_string ascii_upper.

(** [len(l)] as an [int]. *)
Definition len {A} (l : list A) : Z := Z.of_nat (length l).

(** Insertion-ordered [dict] as an association list. *)
Fixpoint dict_get {K V} `{EqDecision K} (d : list (K * V)) (k : K) : option V :=
  match d with
  | [] => None
  | (k', v) :: rest => if decide (k' = k) then Some v else dict_get rest k
  end.

(** [d[k] = v]: replaces in place, else appends. *)
Fixpoint dict_set {K V} `{EqDecision K} (d : list (K * V)) (k : K) (v : V)
  : list (K * V) :=
  match d with
  | [] => [(k, v)]
  | (k', v') :: rest =>
      if decide (k' = k) then (k, v) :: rest else (k', v') :: dict_set rest k v
  end.

(** [max(d, key=d.get)]: the first key whose value is maximal; [None]
    stands for the [ValueError] on an empty dict. *)
Fixpoint max_from {K} (best : K * Z) (rest : list (K * Z)) : K * Z :=
  match rest with
  | [] => best
  | kv :: rest' => if snd best <? snd kv then max_from kv rest' else max_from best rest'
  end.

Definition max_key {K} (d : list (K * Z)) : option (K * Z) :=
  match d with
  | [] => None
  | kv :: rest => Some (max_from kv rest)
  end.

(** [str(z)] for an [int]. *)
Definition str_of_int (z : Z) : string := NilZero.string_of_int (Z.to_int z).

(** [max(l, key=key)]: the first element whose key is maximal. *)
Fixpoint max_by_from {A} (key : A -> Z) (best : A) (rest : list A) : A :=
  match rest with
  | [] => best
  | x :: rest' =>
      if key best <? key x then max_by_from key x rest' else max_by_from key best rest'
  end.

(** [str.strip] for ASCII white space. *)
Definition is_space (c : ascii) : bool :=
  let n := N_of_ascii c in
  ((n =? 32) || ((9 <=? n) && (n <=? 13)) || ((28 <=? n) && (n <=? 31)))%N.

Fixpoint lstrip (s : string) : string :=
  match s with
  | String c rest => if is_space c then lstrip rest else s
  | EmptyString => EmptyString
  end.

Fixpoint rstrip (s : string) : string :=
  match s with
  | EmptyString => EmptyString
  | String c rest =>
      match rstrip rest with
      | EmptyString => if is_space c then EmptyString else String c EmptyString
      | rest' => String c rest'
      end
  end.

Definition strip (s : string) : string := rstrip (lstrip s).

Definition newline : ascii := "010"%char.

(** [s.split(sep)] for a one-character separator. *)
Fixpoint split (sep : ascii) (s : string) : list string :=
  match s with
  | EmptyString => [EmptyString]
  | String c rest =>
      if decide (c = sep) then EmptyString :: split sep rest
      else match split sep rest with
           | [] => [String c EmptyString]
           | piece :: pieces => String c piece :: pieces
           end
  end.

(** [s.split(sep, 1)[1]]; [None] is the [IndexError] when [sep] is absent. *)
Fixpoint after_first (sep : ascii) (s : string) : option string :=
  match s with
  | EmptyString => None
  | String c rest => if decide (c = sep) then Some rest else after_first sep rest
  end.

(** [sep.join(pieces)] *)
Fixpoint join (sep : string) (pieces : list string) : string :=
  match pieces with
  | [] => EmptyString
  | [piece] => piece
  | piece :: rest => piece +:+ sep +:+ join sep rest
  end.

End Py.

(** ** Naive [datetime] values

    The instance of [datetime] used in the concrete examples: a naive
    timestamp with the text [isoformat] emits.  [fromisoformat] reads the two
    layouts that [isoformat] produces (any single character may separate date
    and time); CPython accepts further layouts, which this reader rejects. *)

Module Datetime.

Record t := mk {
  year : Z; month : Z; day : Z;
  hour : Z; minute : Z; second : Z; microsecond : Z
}.

Definition to_tuple (d : t) : list Z :=
  [year d; month d; day d; hour d; minute d; second d; microsecond d].

Fixpoint lex_le (a b : list Z) : bool :=
  match a, b with
  | x :: a', y :: b' => (x <? y) || ((x =? y) && lex_le a' b')
  | _, _ => true
  end.

(** [a <= b] *)
Definition le (a b : t) : bool := lex_le (to_tuple a) (to_tuple b).

Definition digit_char (d : Z) : ascii := ascii_of_N (48 + Z.to_N d).

(** [width] decimal digits of [z], zero padded. *)
Fixpoint digits (width : nat) (z : Z) (acc : string) : string :=
  match width with
  | O => acc
  | S w => digits w (z / 10) (String (digit_char (z mod 10)) acc)
  end.

Definition isoformat (d : t) : string :=
  digits 4 (year d) ("-" +:+ digits 2 (month d) ("-" +:+ digits 2 (day d)
    ("T" +:+ digits 2 (hour d) (":" +:+ digits 2 (minute d)
      (":" +:+ digits 2 (second d)
        (if microsecond d =? 0 then "" else "." +:+ digits 6 (microsecond d) "")))))).

Definition digit_value (c : ascii) : option Z :=
  let n := N_of_ascii c in
  if ((48 <=? n) && (n <=? 57))%N then Some (Z.of_N n - 48) else None.

Fixpoint read_digits (width : nat) (acc : Z) (s : string) : option (Z * string) :=
  match width, s with
  | O, _ => Some (acc, s)
  | S w, String c rest =>
      d ← digit_value c; read_digits w (10 * acc + d) rest
  | S _, EmptyString => None
  end.

Definition read_char (c : ascii) (s : string) : option string :=
  match s with
  | String c' rest => if decide (c = c') then Some rest else None
  | EmptyString => None
  end.

Definition read_any (s : string) : option string :=
  match s with
  | String _ rest => Some rest
  | EmptyString => None
  end.

Definition is_leap (y : Z) : bool :=
  ((y mod 4 =? 0) && negb (y mod 100 =? 0)) || (y mod 400 =? 0).

Definition days_in_month (y m : Z) : Z :=
  if m =? 2 then (if is_leap y then 29 else 28)
  else if (m =? 4) || (m =? 6) || (m =? 9) || (m =? 11) then 30
  else 31.

Definition valid (d : t) : bool :=
  (1 <=? year d) && (year d <=? 9999) && (1 <=? month d) && (month d <=? 12)
  && (1 <=? day d) && (day d <=? days_in_month (year d) (month d))
  && (0 <=? hour d) && (hour d <? 24) && (0 <=? minute d) && (minute d <? 60)
  && (0 <=? second d) && (second d <? 60)
  && (0 <=? microsecond d) && (microsecond d <? 1000000).

(** [None] is the [ValueError] of [datetime.fromisoformat]. *)
Definition fromisoformat (s : string) : option t :=
  '(y, s) ← read_digits 4 0 s; s ← read_char "-" s;
  '(mo, s) ← read_digits 2 0 s; s ← read_char "-" s;
  '(d, s) ← read_digits 2 0 s; s ← read_any s;
  '(h, s) ← read_digits 2 0 s; s ← read_char ":" s;
  '(mi, s) ← read_digits 2 0 s; s ← read_char ":" s;
  '(sec, s) ← read_digits 2 0 s;
  '(us, s) ← match s with
             | EmptyString => Some (0, s)
             | _ => s ← read_char "." s; read_digits 6 0 s
             end;
  let r := mk y mo d h mi sec us in
  match s with
  | EmptyString => if valid r then Some r else None
  | _ => None
  end.

End Datetime.

(** ** activity_tracker.py: categories and the keyword classifier *)

Inductive ActivityCategory := WORK | COMMUNICATION | BREAKS | UNCATEGORIZED.

#[global] Instance ActivityCategory_eq_dec : EqDecision ActivityCategory.
Proof. solve_decision. Defined.

(** [category.value] *)
Definition value (c : ActivityCategory) : string :=
  match c with
  | WORK => "work"
  | COMMUNICATION => "communication"
  | BREAKS => "breaks"
  | UNCATEGORIZED => "uncategorized"
  end.

(** Iteration order of [for category in ActivityCategory]. *)
Definition ActivityCategory_members : list ActivityCategory :=
  [WORK; COMMUNICATION; BREAKS; UNCATEGORIZED].

(** [ActivityCategory(s)]: lookup by value; [None] is the [ValueError]. *)
Definition ActivityCategory_of_value (s : string) : option ActivityCategory :=
  find (fun c => bool_decide (value c = s)) ActivityCategory_members.

Definition WORK_KEYWORDS : list string :=
  [ "coding"; "programming"; "development"; "writing"; "editing";
    "designing"; "analyzing"; "researching"; "planning"; "documenting";
    "debugging"; "testing"; "reviewing"; "spreadsheet"; "excel";
    "word"; "document"; "report"; "presentation"; "slide"; "data";
    "analysis"; "calculation"; "modeling"; "database"; "sql" ].

Definition COMMUNICATION_KEYWORDS : list string :=
  [ "meeting"; "call"; "video"; "conference"; "chat"; "message";
    "email"; "outlook"; "teams"; "slack"; "discord"; "zoom";
    "skype"; "webex"; "discussion"; "collaboration"; "review";
    "feedback"; "planning"; "standup"; "sync"; "1:1" ].

Definition BREAKS_KEYWORDS : list string :=
  [ "break"; "lunch"; "coffee"; "rest"; "relax"; "music"; "video";
    "youtube"; "netflix"; "game"; "social media"; "facebook";
    "twitter"; "instagram"; "tiktok"; "reddit"; "news"; "entertainment" ].

(** The threshold literal [0.3] (the binary64 nearest to 3/10). *)
Definition confidence_threshold : float := 0.3%float.

(** ** The persisted activity log

    [json.dump] and [json.load] belong to the Python runtime: a file is
    modelled by what [json.load] makes of it.  The document is typed as
    [save_to_file] writes it, each key possibly absent; JSON values of other
    types are outside this typed reading. *)

Record EntryData := {
  d_timestamp : option string;
  d_app_name : option string;
  d_window_title : option string;
  d_content_summary : option string;
  d_user_activity : option string;
  d_category : option string;
  d_confidence : option float
}.

(** [{"activities": [...]}], the key possibly absent. *)
Record LogData := { d_activities : option (list EntryData) }.

Inductive FileContent :=
| JsonFile (data : LogData)   (* a text that [json.load] decodes to [data] *)
| NotJson (raw : string).     (* a text that [json.load] rejects *)

Record AppUsage := { app : string; app_minutes : Z }.
Record TimeShare := { minutes : Z; percentage : Z }.

Definition SNAPSHOT_INTERVAL : Z := 10.

Section Tracker.

(** [datetime] values and [str.lower] belong to the Python runtime. *)
Variable datetime : Type.
Variable lower : string -> string.
(** [a <= b] on timestamps, [datetime.isoformat], [datetime.fromisoformat]
    ([None] is its [ValueError]) and today's date as
    [datetime.now().strftime("%Y-%m-%d")]. *)
Variable dt_le : datetime -> datetime -> bool.
Variable isoformat : datetime -> string.
Variable fromisoformat : string -> option datetime.
Variable today : string.

Record ActivityEntry := {
  timestamp : datetime;
  app_name : string;
  window_title : string;
  content_summary : string;
  user_activity : string;
  category : ActivityCategory;
  confidence : float
}.

Record ActivityTracker := {
  activity_log : list ActivityEntry;
  category_keywords : list (ActivityCategory * list string)
}.

(** [ActivityTracker.__init__] *)
Definition ActivityTracker__init__ : ActivityTracker :=
  {| activity_log := [];
     category_keywords :=
       [ (WORK, WORK_KEYWORDS);
         (COMMUNICATION, COMMUNICATION_KEYWORDS);
         (BREAKS, BREAKS_KEYWORDS) ] |}.

(** The inner loop of [_categorize_activity]:
    [score = 0; for keyword in keywords: if keyword in text: score += 1]. *)
Definition keyword_score (text : string) (keywords : list string) : Z :=
  fold_left (fun score keyword =>
               if Py.contains keyword text then score + 1 else score)
            keywords 0.

(** [ActivityTracker._categorize_activity] *)
Definition _categorize_activity (self : ActivityTracker) (entry : ActivityEntry)
  : ActivityCategory * float :=
  let text_to_analyze :=
    lower (user_activity entry +:+ " " +:+ content_summary entry
           +:+ " " +:+ window_title entry) in
  let category_scores :=
    map (fun ck => (fst ck, keyword_score text_to_analyze (snd ck)))
        (category_keywords self) in
  match Py.max_key category_scores with
  | None => (UNCATEGORIZED, 0%float)
  | Some (best_category, max_score) =>
      (* the key comes from [category_keywords] itself: the lookup cannot miss *)
      let max_possible_score :=
        Py.len (default [] (Py.dict_get (category_keywords self) best_category)) in
      let confidence :=
        if 0 <? max_possible_score
        then Py.true_div max_score max_possible_score
        else 0%float in
      if PrimFloat.ltb confidence confidence_threshold
      then (UNCATEGORIZED, confidence)
      else (best_category, confidence)
  end.

(** *** improved_activity_tracker.py *)

(** [sum(1 for keyword in KEYWORDS if keyword in text)] *)
Definition keyword_sum (text : string) (keywords : list string) : Z :=
  foldr Z.add 0 (map (fun _ => 1) (filter (fun keyword => Py.contains keyword text = true) keywords)).

(** [eval(f"{name}_KEYWORDS")] over the module's globals. *)
Definition eval_KEYWORDS (name : string) : option (list string) :=
  if decide (name = "WORK") then Some WORK_KEYWORDS
  else if decide (name = "COMMUNICATION") then Some COMMUNICATION_KEYWORDS
  else if decide (name = "BREAKS") then Some BREAKS_KEYWORDS
  else None.

(** [categorize_activity(user_activity, content_summary, window_title)] *)
Definition categorize_activity (user_activity content_summary window_title : string)
  : string * float :=
  let text_to_analyze :=
    lower (user_activity +:+ " " +:+ content_summary +:+ " " +:+ window_title) in
  let category_scores :=
    [ ("work", keyword_sum text_to_analyze WORK_KEYWORDS);
      ("communication", keyword_sum text_to_analyze COMMUNICATION_KEYWORDS);
      ("breaks", keyword_sum text_to_analyze BREAKS_KEYWORDS) ] in
  if forallb (fun kv => snd kv =? 0) category_scores
  then ("uncategorized", 0%float)
  else
    match Py.max_key category_scores with
    | None => ("uncategorized", 0%float)
    | Some (best_category, max_score) =>
        let max_possible_score :=
          Py.len (default [] (eval_KEYWORDS (Py.upper best_category))) in
        let confidence :=
          if 0 <? max_possible_score
          then Py.true_div max_score max_possible_score
          else 0%float in
        if PrimFloat.ltb confidence confidence_threshold
        then ("uncategorized", confidence)
        else (best_category, confidence)
    end.

(** *** The aggregator *)

Record ActivitySummary := {
  date : string;
  total_tracked_minutes : Z;
  apps_used : list AppUsage;
  time_distribution : list (string * TimeShare);
  categorized_activities : list (ActivityCategory * list ActivityEntry);
  total_activities : Z
}.

(** [ActivityTracker._filter_activities_by_time]; indexing an empty log
    raises [IndexError]. *)
Definition _filter_activities_by_time (self : ActivityTracker)
    (start_time end_time : option datetime) : Py.Exception + list ActivityEntry :=
  match (match start_time with
         | Some t => Some t
         | None => timestamp <$> head (activity_log self)
         end),
        (match end_time with
         | Some t => Some t
         | None => timestamp <$> last (activity_log self)
         end) with
  | Some start_time, Some end_time =>
      inr (filter (fun entry => dt_le start_time (timestamp entry) = true
                                /\ dt_le (timestamp entry) end_time = true)
                  (activity_log self))
  | _, _ => inl Py.IndexError
  end.

(** [ActivityTracker._calculate_total_minutes] *)
Definition _calculate_total_minutes (activities : list ActivityEntry) : Z :=
  match activities with
  | [] => 0
  | _ =>
      let estimated_minutes :=
        PrimFloat.mul (Py.float_of_int (Py.len activities))
                      (Py.true_div SNAPSHOT_INTERVAL 60) in
      Py.int_of_float estimated_minutes
  end.

(** [ActivityTracker._calculate_apps_used] *)
Definition _calculate_apps_used (activities : list ActivityEntry) : list AppUsage :=
  let app_times :=
    fold_left (fun app_times entry =>
                 Py.dict_set app_times (app_name entry)
                   (default 0 (Py.dict_get app_times (app_name entry))
                    + SNAPSHOT_INTERVAL))
              activities [] in
  map (fun ad => {| app := fst ad; app_minutes := snd ad / 60 |}) app_times.

(** [ActivityTracker._calculate_time_distribution] *)
Definition _calculate_time_distribution (activities : list ActivityEntry)
    (total_minutes : Z) : list (string * TimeShare) :=
  let category_times :=
    fold_left (fun category_times entry =>
                 (* every category is a key: the lookup cannot miss *)
                 Py.dict_set category_times (category entry)
                   (default 0 (Py.dict_get category_times (category entry))
                    + SNAPSHOT_INTERVAL))
              activities
              (map (fun c => (c, 0)) ActivityCategory_members) in
  fold_left (fun distribution cs =>
               let seconds := snd cs in
               let minutes := seconds / 60 in
               let percentage :=
                 if 0 <? total_minutes
                 then Py.int_of_float
                        (PrimFloat.mul (Py.true_div seconds (total_minutes * 60))
                                       (Py.float_of_int 100))
                 else 0 in
               Py.dict_set distribution (value (fst cs))
                 {| minutes := minutes; percentage := percentage |})
            category_times [].

(** [ActivityTracker._group_by_category] *)
Definition _group_by_category (activities : list ActivityEntry)
  : list (ActivityCategory * list ActivityEntry) :=
  fold_left (fun grouped entry =>
               Py.dict_set grouped (category entry)
                 (default [] (Py.dict_get grouped (category entry)) ++ [entry]))
            activities
            (map (fun c => (c, [])) ActivityCategory_members).

(** [ActivityTracker._create_empty_summary] *)
Definition _create_empty_summary : ActivitySummary :=
  {| date := today;
     total_tracked_minutes := 0;
     apps_used := [];
     time_distribution :=
       map (fun c => (value c, {| minutes := 0; percentage := 0 |}))
           ActivityCategory_members;
     categorized_activities := map (fun c => (c, [])) ActivityCategory_members;
     total_activities := 0 |}.

(** [ActivityTracker.get_summary] *)
Definition get_summary (self : ActivityTracker)
    (start_time end_time : option datetime) : Py.Exception + ActivitySummary :=
  match activity_log self with
  | [] => inr _create_empty_summary
  | _ =>
      match _filter_activities_by_time self start_time end_time with
      | inl e => inl e
      | inr [] => inr _create_empty_summary
      | inr filtered_activities =>
          let total_minutes := _calculate_total_minutes filtered_activities in
          inr {| date := today;
                 total_tracked_minutes := total_minutes;
                 apps_used := _calculate_apps_used filtered_activities;
                 time_distribution :=
                   _calculate_time_distribution filtered_activities total_minutes;
                 categorized_activities := _group_by_category filtered_activities;
                 total_activities := Py.len filtered_activities |}
      end
  end.

(** *** Persistence *)

(** The dict that [save_to_file] builds for one entry. *)
Definition entry_data (entry : ActivityEntry) : EntryData :=
  {| d_timestamp := Some (isoformat (timestamp entry));
     d_app_name := Some (app_name entry);
     d_window_title := Some (window_title entry);
     d_content_summary := Some (content_summary entry);
     d_user_activity := Some (user_activity entry);
     d_category := Some (value (category entry));
     d_confidence := Some (confidence entry) |}.

(** [ActivityTracker.save_to_file]: the file system after the write. *)
Definition save_to_file (self : ActivityTracker) (filename : string)
    (fs : gmap string FileContent) : gmap string FileContent :=
  let data := {| d_activities := Some (map entry_data (activity_log self)) |} in
  <[filename := JsonFile data]> fs.

(** [entry_data[key]]: a missing key raises [KeyError]. *)
Definition item (key : string) (field : option string) : Py.Exception + string :=
  match field with
  | Some v => inr v
  | None => inl (Py.KeyError key)
  end.

(** The [ActivityEntry(...)] call in the loop of [load_from_file]; its
    arguments are evaluated in the order written. *)
Definition load_entry (entry_data : EntryData) : Py.Exception + ActivityEntry :=
  match item "timestamp" (d_timestamp entry_data) with
  | inl e => inl e
  | inr ts_text =>
  match fromisoformat ts_text with
  | None => inl (Py.ValueError "Invalid isoformat string")
  | Some ts =>
  match item "app_name" (d_app_name entry_data) with
  | inl e => inl e
  | inr app_name =>
  match item "window_title" (d_window_title entry_data) with
  | inl e => inl e
  | inr window_title =>
  match item "content_summary" (d_content_summary entry_data) with
  | inl e => inl e
  | inr content_summary =>
  match item "user_activity" (d_user_activity entry_data) with
  | inl e => inl e
  | inr user_activity =>
  match item "category" (d_category entry_data) with
  | inl e => inl e
  | inr category_text =>
  match ActivityCategory_of_value category_text with
  | None => inl (Py.ValueError "not a valid ActivityCategory")
  | Some category =>
      inr {| timestamp := ts; app_name := app_name; window_title := window_title;
             content_summary := content_summary; user_activity := user_activity;
             category := category;
             confidence := default 0%float (d_confidence entry_data) |}
  end end end end end end end end.

(** The loop of [load_from_file]: entries are appended one at a time, and an
    exception leaves the log as it stands. *)
Fixpoint load_entries (entries : list EntryData) (self : ActivityTracker)
  : ActivityTracker * option Py.Exception :=
  match entries with
  | [] => (self, None)
  | entry_data :: rest =>
      match load_entry entry_data with
      | inl e => (self, Some e)
      | inr entry =>
          load_entries rest
            {| activity_log := activity_log self ++ [entry];
               category_keywords := category_keywords self |}
      end
  end.

(** [ActivityTracker.load_from_file]: the tracker after the call, and the
    exception that escaped, if any. *)
Definition load_from_file (self : ActivityTracker) (filename : string)
    (fs : gmap string FileContent) : ActivityTracker * option Py.Exception :=
  match fs !! filename with
  | None => (self, Some (Py.FileNotFoundError filename))
  | Some (NotJson _) => (self, Some Py.JSONDecodeError)
  | Some (JsonFile data) =>
      load_entries (default [] (d_activities data))
        {| activity_log := []; category_keywords := category_keywords self |}
  end.

(** *** activity_tools.py: productivity insights *)

Inductive InsightsResult :=
| NoData (message : string)
| Insights (productivity_score : Z) (insights : list string)
           (recommendations : list string).

Definition share_minutes (summary : ActivitySummary) (key : string) : Z :=
  default 0 (minutes <$> Py.dict_get (time_distribution summary) key).

(** The body of [get_productivity_insights] once the summary is taken. *)
Definition insights_of_summary (summary : ActivitySummary) : InsightsResult :=
  if total_tracked_minutes summary =? 0
  then NoData "No activity data available for insights"
  else
    let work_time := share_minutes summary "work" in
    let communication_time := share_minutes summary "communication" in
    let break_time := share_minutes summary "breaks" in
    let productivity_score :=
      if 0 <? total_tracked_minutes summary
      then
        let productive_time := work_time + communication_time in
        Py.int_of_float
          (PrimFloat.mul (Py.true_div productive_time (total_tracked_minutes summary))
                         (Py.float_of_int 100))
      else 0 in
    let insights1 :=
      if 80 <? productivity_score
      then ["Excellent productivity! You're making great use of your time."]
      else if 60 <? productivity_score
      then ["Good productivity. Consider taking more focused work sessions."]
      else if 40 <? productivity_score
      then ["Moderate productivity. Try to minimize distractions."]
      else ["Low productivity detected. Consider setting specific goals and taking regular breaks."] in
    let insights2 :=
      match apps_used summary with
      | [] => insights1
      | a :: rest =>
          let top_app := Py.max_by_from app_minutes a rest in
          insights1 ++ ["Your most used app is " +:+ app top_app +:+ " ("
                        +:+ Py.str_of_int (app_minutes top_app) +:+ " minutes)"]
      end in
    let insights3 :=
      if 0 <? break_time
      then
        let break_frequency :=
          PrimFloat.div (Py.float_of_int break_time)
                        (Py.true_div (total_tracked_minutes summary) 60) in
        if PrimFloat.ltb break_frequency (Py.float_of_int 1)
        then insights2 ++ ["Consider taking more frequent short breaks to maintain focus."]
        else if PrimFloat.ltb (Py.float_of_int 3) break_frequency
        then insights2 ++ ["You seem to be taking many breaks. Try consolidating them."]
        else insights2
      else insights2 in
    Insights productivity_score insights3
      [ "Use the Pomodoro technique: 25 minutes focused work + 5 minute break";
        "Schedule important tasks during your peak energy hours";
        "Minimize context switching between different types of work";
        "Take regular breaks to maintain long-term productivity" ].

(** [get_productivity_insights()] over the tracker it reads. *)
Definition get_productivity_insights (activity_tracker : ActivityTracker)
  : Py.Exception + InsightsResult :=
  match get_summary activity_tracker None None with
  | inl e => inl e
  | inr summary => inr (insights_of_summary summary)
  end.

(** *** improved_activity_tracker.py: the summary over a raw log *)

(** An entry of the raw log (a dict with these keys). *)
Record ActivityRecord := {
  r_timestamp : string;
  r_app_name : string;
  r_window_title : string;
  r_content_summary : string;
  r_user_activity : string
}.

Record ImprovedSummary := {
  i_date : string;
  i_total_tracked_minutes : Z;
  i_apps_used : list AppUsage;
  i_time_distribution : list (string * TimeShare);
  i_categorized_activities_count : list (string * Z)
}.

(** [generate_activity_summary]; [inl] is the [{"error": ..}] answer.  Of
    [categorized_activities] only the lengths are returned: the model keeps
    the counts. *)
Definition generate_activity_summary (activity_log : list ActivityRecord)
  : string + ImprovedSummary :=
  match activity_log with
  | [] => inl "No activity data available"
  | _ =>
      let total_minutes :=
        PrimFloat.mul (Py.float_of_int (Py.len activity_log))
                      (Py.true_div SNAPSHOT_INTERVAL 60) in
      let time_spent :=
        fold_left (fun time_spent entry =>
                     Py.dict_set time_spent (r_app_name entry)
                       (default 0 (Py.dict_get time_spent (r_app_name entry))
                        + SNAPSHOT_INTERVAL))
                  activity_log [] in
      let categorized :=
        fold_left (fun acc entry =>
                     let '(category_times, categorized_activities) := acc in
                     let category :=
                       fst (categorize_activity (r_user_activity entry)
                              (r_content_summary entry) (r_window_title entry)) in
                     (Py.dict_set category_times category
                        (default 0 (Py.dict_get category_times category)
                         + SNAPSHOT_INTERVAL),
                      Py.dict_set categorized_activities category
                        (default 0 (Py.dict_get categorized_activities category) + 1)))
                  activity_log
                  ([("work", 0); ("communication", 0); ("breaks", 0); ("uncategorized", 0)],
                   [("work", 0); ("communication", 0); ("breaks", 0); ("uncategorized", 0)]) in
      let time_distribution :=
        fold_left (fun distribution cs =>
                     let seconds := snd cs in
                     let minutes := seconds / 60 in
                     let percentage :=
                       if PrimFloat.ltb (Py.float_of_int 0) total_minutes
                       then Py.int_of_float
                              (PrimFloat.mul
                                 (PrimFloat.div (Py.float_of_int seconds)
                                    (PrimFloat.mul total_minutes (Py.float_of_int 60)))
                                 (Py.float_of_int 100))
                       else 0 in
                     Py.dict_set distribution (fst cs)
                       {| minutes := minutes; percentage := percentage |})
                  (fst categorized) [] in
      inr {| i_date := today;
             i_total_tracked_minutes := Py.int_of_float total_minutes;
             i_apps_used :=
               map (fun ad => {| app := fst ad; app_minutes := snd ad / 60 |}) time_spent;
             i_time_distribution := time_distribution;
             i_categorized_activities_count := snd categorized |}
  end.

End Tracker.

Arguments timestamp {datetime} _.
Arguments app_name {datetime} _.
Arguments window_title {datetime} _.
Arguments content_summary {datetime} _.
Arguments user_activity {datetime} _.
Arguments category {datetime} _.
Arguments confidence {datetime} _.
Arguments activity_log {datetime} _.
Arguments category_keywords {datetime} _.
Arguments ActivityTracker__init__ {datetime}.
Arguments _categorize_activity {datetime} lower self entry.
Arguments date {datetime} _.
Arguments total_tracked_minutes {datetime} _.
Arguments apps_used {datetime} _.
Arguments time_distribution {datetime} _.
Arguments categorized_activities {datetime} _.
Arguments total_activities {datetime} _.
Arguments _filter_activities_by_time {datetime} dt_le self start_time end_time.
Arguments _calculate_total_minutes {datetime} activities.
Arguments _calculate_apps_used {datetime} activities.
Arguments _calculate_time_distribution {datetime} activities total_minutes.
Arguments _group_by_category {datetime} activities.
Arguments _create_empty_summary {datetime} today.
Arguments get_summary {datetime} dt_le today self start_time end_time.
Arguments entry_data {datetime} isoformat entry.
Arguments save_to_file {datetime} isoformat self filename fs.
Arguments load_entry {datetime} fromisoformat entry_data.
Arguments load_entries {datetime} fromisoformat entries self.
Arguments load_from_file {datetime} fromisoformat self filename fs.
Arguments share_minutes {datetime} summary key.
Arguments insights_of_summary {datetime} summary.
Arguments get_productivity_insights {datetime} dt_le today activity_tracker.


(** ** JSON values and texts

    [json.loads] and [json.dumps] belong to the Python runtime: a JSON text is
    modelled by the value it decodes to, or as a text the decoder rejects. *)

Inductive Json :=
| JNull
| JBool (b : bool)
| JInt (z : Z)
| JFloat (x : float)
| JStr (s : string)
| JList (items : list Json)
| JDict (items : list (string * Json)).

Inductive JsonText :=
| Encoded (v : Json)
| Malformed (raw : string).

(** What a handler returns: a value [json.dumps] accepts, or one it rejects. *)
Inductive PyResult :=
| Serialisable (v : Json)
| Unserialisable (repr : string).

Definition json_loads (text : JsonText) : Py.Exception + Json :=
  match text with
  | Encoded v => inr v
  | Malformed _ => inl Py.JSONDecodeError
  end.

Definition json_dumps (v : PyResult) : Py.Exception + JsonText :=
  match v with
  | Serialisable j => inr (Encoded j)
  | Unserialisable r => inl (Py.TypeError ("Object " +:+ r +:+ " is not JSON serializable"))
  end.

(** ** core/tools.py *)

(** A type annotation as the schema builder observes it. *)
Inductive Origin := OriginUnion | OriginList | OriginDict | OriginOther (name : string).

Inductive TypeHint := MkTypeHint {
  hint_name : option string;            (* [t.__name__], when present *)
  hint_str : string;                    (* [str(t)] *)
  hint_format : string;                 (* [inspect.formatannotation(t)] *)
  hint_origin : option Origin;          (* [t.__origin__], when present *)
  hint_args : option (list TypeHint);   (* [t.__args__], when present *)
  hint_is_NoneType : bool               (* [t is type(None)] *)
}.

Definition class_hint (name : string) : TypeHint :=
  MkTypeHint (Some name) ("<class '" +:+ name +:+ "'>") name None None false.

Definition py_str : TypeHint := class_hint "str".
Definition py_int : TypeHint := class_hint "int".
Definition py_float : TypeHint := class_hint "float".
Definition py_bool : TypeHint := class_hint "bool".
Definition py_list : TypeHint := class_hint "list".
Definition py_dict : TypeHint := class_hint "dict".

(** [inspect.Parameter.empty] *)
Definition Parameter_empty : TypeHint :=
  MkTypeHint (Some "_empty") "<class 'inspect._empty'>" "inspect._empty" None None false.

Inductive ParamKind :=
| POSITIONAL_ONLY | POSITIONAL_OR_KEYWORD | VAR_POSITIONAL | KEYWORD_ONLY | VAR_KEYWORD.

#[global] Instance ParamKind_eq_dec : EqDecision ParamKind.
Proof. solve_decision. Defined.

(** [inspect.Parameter]; [None] stands for [Parameter.empty], and a default
    value is kept as its [repr]. *)
Record Param := {
  p_name : string;
  p_kind : ParamKind;
  p_annotation : option TypeHint;
  p_default : option string
}.

Record Signature := {
  sig_parameters : list Param;
  sig_return : option TypeHint
}.

(** [str(param)] *)
Definition Param_str (p : Param) : string :=
  let formatted := p_name p in
  let formatted :=
    match p_annotation p with
    | Some a => formatted +:+ ": " +:+ hint_format a
    | None => formatted
    end in
  let formatted :=
    match p_default p with
    | Some d =>
        match p_annotation p with
        | Some _ => formatted +:+ " = " +:+ d
        | None => formatted +:+ "=" +:+ d
        end
    | None => formatted
    end in
  match p_kind p with
  | VAR_POSITIONAL => "*" +:+ formatted
  | VAR_KEYWORD => "**" +:+ formatted
  | _ => formatted
  end.

(** The loop of [Signature.__str__]: the rendered parameters with the [/] and
    [*] markers. *)
Fixpoint render_params (ps : list Param) (pos_only_sep kw_only_sep : bool) : list string :=
  match ps with
  | [] => if pos_only_sep then ["/"] else []
  | p :: rest =>
      let is_pos_only := bool_decide (p_kind p = POSITIONAL_ONLY) in
      let slash := if negb is_pos_only && pos_only_sep then ["/"] else [] in
      let pos_only_sep' := is_pos_only in
      let star :=
        if bool_decide (p_kind p = KEYWORD_ONLY) && kw_only_sep then ["*"] else [] in
      let kw_only_sep' :=
        if bool_decide (p_kind p = VAR_POSITIONAL) then false
        else if bool_decide (p_kind p = KEYWORD_ONLY) then false
        else kw_only_sep in
      slash ++ star ++ [Param_str p] ++ render_params rest pos_only_sep' kw_only_sep'
  end.

(** [str(sig)] *)
Definition Signature_str (sig : Signature) : string :=
  let rendered := "(" +:+ Py.join ", " (render_params (sig_parameters sig) false true) +:+ ")" in
  match sig_return sig with
  | Some a => rendered +:+ " -> " +:+ hint_format a
  | None => rendered
  end.

(** A JSON-schema fragment for one parameter. *)
Inductive ParamSchema := MkParamSchema {
  ps_type : string;
  ps_items : option ParamSchema;
  ps_additionalProperties : option ParamSchema;
  ps_description : option string
}.

Definition schema_of_type (t : string) : ParamSchema := MkParamSchema t None None None.

(** The [parameters] dict of a tool, each key possibly absent. *)
Record Schema := {
  schema_type : option string;
  properties : option (list (string * ParamSchema));
  required : option (list string)
}.

(** A Python callable: its name, raw docstring, signature and behaviour
    (an exception is kept as its message). *)
Record Callable := {
  fn_name : string;
  fn_doc : option string;
  fn_signature : Signature;
  fn_call : list (string * Json) -> string + PyResult
}.

Record Tool := {
  name : string;
  description : string;
  parameters : Schema;
  func : Callable
}.

(** The export of [Tool.to_dict]. *)
Record ToolDescriptor := {
  td_type : string;
  td_name : string;
  td_description : string;
  td_parameters : Schema
}.

Definition type_mapping : list (string * ParamSchema) :=
  [ ("str", schema_of_type "string");
    ("int", schema_of_type "integer");
    ("float", schema_of_type "number");
    ("bool", schema_of_type "boolean");
    ("list", MkParamSchema "array" (Some (schema_of_type "string")) None None);
    ("dict", schema_of_type "object") ].

Section Tools.

(** [inspect.cleandoc] belongs to the Python runtime. *)
Variable cleandoc : string -> string.

Definition param_names (sig : Signature) : gset string :=
  list_to_set (map p_name (sig_parameters sig)).

Definition schema_params (parameters : Schema) : gset string :=
  list_to_set (map fst (default [] (properties parameters))).

(** [Tool._validate_signature]: [None] when it returns normally. *)
Definition _validate_signature (self : Tool) : option Py.Exception :=
  let sig := fn_signature (func self) in
  let missing := schema_params (parameters self) ∖ param_names sig in
  if bool_decide (missing ≠ ∅)
  then Some (Py.ToolError ("Function '" +:+ name self +:+ "' is missing parameters: "
                            +:+ Py.join ", " (elements missing)))
  else
    let extra := param_names sig ∖ schema_params (parameters self) in
    if bool_decide (extra ≠ ∅) && negb (Py.contains "**" (Signature_str sig))
    then Some (Py.ToolError ("Function '" +:+ name self
                              +:+ "' has extra parameters not in schema: "
                              +:+ Py.join ", " (elements extra)))
    else None.

(** [Tool(name, description, parameters, func)]: the dataclass constructor,
    [__post_init__] included. *)
Definition Tool__init__ (name description : string) (parameters : Schema)
    (func : Callable) : Py.Exception + Tool :=
  let self := {| name := name; description := description;
                 parameters := parameters; func := func |} in
  match _validate_signature self with
  | Some e => inl e
  | None => inr self
  end.

(** [getattr(t, "__name__", str(t))] *)
Definition type_name (t : TypeHint) : string := default (hint_str t) (hint_name t).

(** The body of the loop of [_parameters_from_type_hints] that chooses the
    schema of one annotation. *)
Definition schema_of_hint (param_type : TypeHint) : Py.Exception + ParamSchema :=
  let param_type_name := type_name param_type in
  (* Optional[T] = Union[T, None] *)
  match (match hint_origin param_type with
         | Some OriginUnion =>
             match hint_args param_type with
             | None => inl (Py.AttributeError "__args__")
             | Some args =>
                 match filter (fun t => hint_is_NoneType t = false) args with
                 | [t] => inr (t, type_name t)
                 | _ => inr (param_type, param_type_name)
                 end
             end
         | _ => inr (param_type, param_type_name)
         end) with
  | inl e => inl e
  | inr (param_type, param_type_name) =>
      match Py.dict_get type_mapping param_type_name with
      | Some schema => inr schema
      | None =>
          match hint_origin param_type with
          | Some origin =>
              match origin, hint_args param_type with
              | OriginList, Some args =>
                  match args with
                  | [] => inl Py.IndexError
                  | item_type :: _ =>
                      inr (MkParamSchema "array"
                             (Some (default (schema_of_type "string")
                                      (Py.dict_get type_mapping (type_name item_type))))
                             None None)
                  end
              | OriginDict, Some args =>
                  match args with
                  | [key_type; value_type] =>
                      inr (MkParamSchema "object" None
                             (Some (default (schema_of_type "string")
                                      (Py.dict_get type_mapping (type_name value_type))))
                             None)
                  | _ => inl (Py.ValueError "unpack")
                  end
              | _, _ => inr (schema_of_type "string")
              end
          | None => inr (schema_of_type "string")
          end
      end
  end.

(** The docstring scan: the last line starting with ["<name>:"] gives the
    description; [None] is the [IndexError] of [split(':', 1)[1]]. *)
Definition describe (doc_lines : list string) (name : string) (schema : ParamSchema)
  : Py.Exception + ParamSchema :=
  fold_left (fun acc line =>
               match acc with
               | inl e => inl e
               | inr schema =>
                   if String.prefix (name +:+ ":") (Py.strip line)
                   then match Py.after_first ":" line with
                        | Some rest =>
                            inr (MkParamSchema (ps_type schema) (ps_items schema)
                                   (ps_additionalProperties schema)
                                   (Some (Py.strip rest)))
                        | None => inl Py.IndexError
                        end
                   else inr schema
               end)
            doc_lines (inr schema).

Definition truthy_doc (doc : option string) : option string :=
  match doc with
  | Some EmptyString => None
  | d => d
  end.

(** The loop of [Tool._parameters_from_type_hints]. *)
Fixpoint parameters_loop (doc : option string) (ps : list Param)
    (props : list (string * ParamSchema)) (req : list string)
  : Py.Exception + Schema :=
  match ps with
  | [] => inr {| schema_type := Some "object"; properties := Some props;
                 required := Some req |}
  | param :: rest =>
      if decide (p_name param = "self") then parameters_loop doc rest props req
      else
        match schema_of_hint (default Parameter_empty (p_annotation param)) with
        | inl e => inl e
        | inr param_schema =>
            match (match truthy_doc doc with
                   | Some d => describe (Py.split Py.newline (cleandoc d)) (p_name param) param_schema
                   | None => inr param_schema
                   end) with
            | inl e => inl e
            | inr param_schema =>
                parameters_loop doc rest
                  (Py.dict_set props (p_name param) param_schema)
                  (match p_default param with
                   | None => req ++ [p_name param]
                   | Some _ => req
                   end)
            end
        end
  end.

(** [Tool._parameters_from_type_hints] *)
Definition _parameters_from_type_hints (func : Callable) : Py.Exception + Schema :=
  parameters_loop (fn_doc func) (sig_parameters (fn_signature func)) [] [].

(** [Tool.from_function] *)
Definition from_function (func : Callable) (name description : option string)
    (parameters : option Schema) : Py.Exception + Tool :=
  let name := default (fn_name func) name in
  let description := default (default "" (truthy_doc (fn_doc func))) description in
  match (match parameters with
         | Some p => inr p
         | None => _parameters_from_type_hints func
         end) with
  | inl e => inl e
  | inr parameters => Tool__init__ name description parameters func
  end.

(** A keyword argument named [self] collides with the first parameter of
    [run(self, **kwargs)]. *)
Definition binds_self (kwargs : list (string * Json)) : bool :=
  bool_decide (is_Some (Py.dict_get kwargs "self")).

(** The call of [tool.run] with keyword arguments.  With a keyword named
    [self] the call itself raises [TypeError], before the body and outside
    its [try]; otherwise [Tool.run] runs, and any exception of the handler
    becomes a [ToolError]. *)
Definition Tool_run (self : Tool) (kwargs : list (string * Json)) : Py.Exception + PyResult :=
  if binds_self kwargs
  then inl (Py.TypeError "Tool.run() got multiple values for argument 'self'")
  else
    match fn_call (func self) kwargs with
    | inr v => inr v
    | inl e => inl (Py.ToolError ("Error running tool '" +:+ name self +:+ "': " +:+ e))
    end.

(** [Tool.to_dict] *)
Definition to_dict (self : Tool) : ToolDescriptor :=
  {| td_type := "function"; td_name := name self;
     td_description := description self; td_parameters := parameters self |}.

(** [ToolRegistry.register]: [tool] is a [Tool] or a raw callable with the
    keyword arguments of [from_function].  Logging is not modelled. *)
Definition register (tools : gmap string Tool)
    (tool : Tool + (Callable * option string * option string * option Schema))
  : Py.Exception + gmap string Tool :=
  match (match tool with
         | inl t => inr t
         | inr (f, n, d, p) => from_function f n d p
         end) with
  | inl e => inl e
  | inr tool => inr (<[name tool := tool]> tools)
  end.

(** [ToolRegistry.get_tool] *)
Definition get_tool (tools : gmap string Tool) (name : string) : option Tool :=
  tools !! name.

(** [ToolRegistry.list_tools] *)
Definition list_tools (tools : gmap string Tool) : list ToolDescriptor :=
  map (fun kv => to_dict (snd kv)) (map_to_list tools).

End Tools.

(** ** core/agent.py: the chat agent

    The agent imports [Tool] and [ToolRegistry]; the registry modelled here is
    the one of core/tools.py. *)

(** One requested tool invocation of a completion response. *)
Record ToolCall := {
  tc_id : string;
  tc_function_name : string;
  tc_function_arguments : JsonText
}.

(** [response.choices[i].message] *)
Record ChatCompletionMessage := {
  msg_content : option string;
  msg_tool_calls : option (list ToolCall)
}.

(** A completion response, by the messages of its choices. *)
Record ChatCompletion := { choices : list ChatCompletionMessage }.

(** The entries of [self.messages]. *)
Inductive Message :=
| UserMessage (content : string)
    (* [{"role": "user", "content": message}] *)
| ResponseMessage (m : ChatCompletionMessage)
    (* the response message object, appended as it is *)
| AgentToolCalls (tool_calls : list ToolCall)
    (* [{"role": "agent", "content": None, "tool_calls": tool_calls}] *)
| ToolResult (tool_call_id name : string) (content : JsonText).
    (* [{"tool_call_id": .., "role": "tool", "name": .., "content": ..}] *)

(** The keyword arguments of [client.chat.completions.create]. *)
Record Request := {
  req_model : string;
  req_messages : list Message;
  req_temperature : option float;
  req_max_tokens : option Z;
  req_tools : option (list ToolDescriptor);
  req_tool_choice : option string
}.

(** What a turn does towards the outside, in order. *)
Inductive Event :=
| Completion (request : Request)
| ToolRun (tool : string) (kwargs : list (string * Json)).

Record GPTChatAgent := {
  config_temperature : float;
  tool_registry : gmap string Tool;
  messages : list Message
}.

Definition is_Completion (e : Event) : bool :=
  match e with Completion _ => true | ToolRun _ _ => false end.

Definition is_ToolResult (m : Message) : bool :=
  match m with ToolResult _ _ _ => true | _ => false end.

Section Agent.

(** The external completion capability: any state machine. *)
Variable Client : Type.
Variable create : Client -> Request -> Client * (Py.Exception + ChatCompletion).

(** [response.choices[0].message] *)
Definition first_choice (response : ChatCompletion) : Py.Exception + ChatCompletionMessage :=
  match choices response with
  | m :: _ => inr m
  | [] => inl Py.IndexError
  end.

(** The [for tool_call in tool_calls] loop of [run]: the history and the
    events after it, and the exception that broke it, if any. *)
Fixpoint dispatch (tools : gmap string Tool) (tool_calls : list ToolCall)
    (messages : list Message) (trace : list Event)
  : list Message * list Event * option Py.Exception :=
  match tool_calls with
  | [] => (messages, trace, None)
  | tool_call :: rest =>
      let function_name := tc_function_name tool_call in
      match json_loads (tc_function_arguments tool_call) with
      | inl e => (messages, trace, Some e)
      | inr function_args =>
          match get_tool tools function_name with
          | None => dispatch tools rest messages trace
          | Some tool =>
              match function_args with
              | JDict kwargs =>
                  (* the handler is entered unless the call itself fails *)
                  let trace :=
                    if binds_self kwargs then trace
                    else trace ++ [ToolRun function_name kwargs] in
                  match Tool_run tool kwargs with
                  | inl e => (messages, trace, Some e)
                  | inr function_response =>
                      match json_dumps function_response with
                      | inl e => (messages, trace, Some e)
                      | inr content =>
                          dispatch tools rest
                            (messages ++ [ToolResult (tc_id tool_call) function_name content])
                            trace
                      end
                  end
              | _ =>
                  (messages, trace,
                   Some (Py.TypeError "argument after ** must be a mapping"))
              end
          end
      end
  end.

(** [GPTChatAgent.run]: the agent and the client after the turn, the events
    of the turn, and the returned content or the exception re-raised. *)
Definition run (self : GPTChatAgent) (client : Client) (message : string)
  : GPTChatAgent * Client * list Event * (Py.Exception + option string) :=
  let with_messages ms :=
    {| config_temperature := config_temperature self;
       tool_registry := tool_registry self; messages := ms |} in
  let messages := messages self ++ [UserMessage message] in
  let request :=
    {| req_model := "gpt-4"; req_messages := messages;
       req_temperature := Some (config_temperature self);
       req_max_tokens := Some 1000;
       req_tools := Some (list_tools (tool_registry self));
       req_tool_choice := Some "auto" |} in
  let trace := [Completion request] in
  match create client request with
  | (client, inl e) => (with_messages messages, client, trace, inl e)
  | (client, inr response) =>
      match first_choice response with
      | inl e => (with_messages messages, client, trace, inl e)
      | inr response_message =>
          let messages := messages ++ [ResponseMessage response_message] in
          match msg_tool_calls response_message with
          | Some (tc :: tcs) =>
              let tool_calls := tc :: tcs in
              let messages := messages ++ [AgentToolCalls tool_calls] in
              match dispatch (tool_registry self) tool_calls messages trace with
              | (messages, trace, Some e) =>
                  (with_messages messages, client, trace, inl e)
              | (messages, trace, None) =>
                  let request :=
                    {| req_model := "gpt-4"; req_messages := messages;
                       req_temperature := None; req_max_tokens := None;
                       req_tools := None; req_tool_choice := None |} in
                  let trace := trace ++ [Completion request] in
                  match create client request with
                  | (client, inl e) => (with_messages messages, client, trace, inl e)
                  | (client, inr second_response) =>
                      match first_choice second_response with
                      | inl e => (with_messages messages, client, trace, inl e)
                      | inr response_message =>
                          (with_messages (messages ++ [ResponseMessage response_message]),
                           client, trace, inr (msg_content response_message))
                      end
                  end
              end
          | _ =>
              (with_messages messages, client, trace,
               inr (msg_content response_message))
          end
      end
  end.

End Agent.

Arguments run {Client} create self client message.

(** A scripted client: it answers the requests with the given outcomes in
    order, and fails once the script is used up. *)
Definition scripted (script : list (Py.Exception + ChatCompletion)) (_ : Request)
  : list (Py.Exception + ChatCompletion) * (Py.Exception + ChatCompletion) :=
  match script with
  | [] => ([], inl (Py.APIError "no response"))
  | r :: rest => (rest, r)
  end.

(** ** Auxiliary definitions used in the statements below *)

(** What both classifiers do once the three scores are known. *)
Definition decide_by_scores (sw sc sb : Z) : ActivityCategory * float :=
  let '(best, n, size) :=
    if sw <? sc
    then (if sc <? sb then (BREAKS, sb, 18) else (COMMUNICATION, sc, 22))
    else (if sw <? sb then (BREAKS, sb, 18) else (WORK, sw, 26)) in
  let confidence := Py.true_div n size in
  if PrimFloat.ltb confidence confidence_threshold
  then (UNCATEGORIZED, confidence) else (best, confidence).

(** The components of what [run] returns. *)
Definition turn_agent {Client} (r : GPTChatAgent * Client * list Event * (Py.Exception + option string))
  : GPTChatAgent := r.1.1.1.
Definition turn_trace {Client} (r : GPTChatAgent * Client * list Event * (Py.Exception + option string))
  : list Event := r.1.2.
Definition turn_result {Client} (r : GPTChatAgent * Client * list Event * (Py.Exception + option string))
  : Py.Exception + option string := r.2.

(** The number of completion requests in a trace. *)
Definition completion_requests (trace : list Event) : nat :=
  length (filter (fun e => is_Completion e = true) trace).

(** A trace is single-hop when it is one completion request, then tool runs
    only, then at most one more completion request and nothing after it. *)
Fixpoint runs_then_at_most_one_request (trace : list Event) : bool :=
  match trace with
  | [] => true
  | ToolRun _ _ :: rest => runs_then_at_most_one_request rest
  | Completion _ :: rest => match rest with [] => true | _ => false end
  end.

Definition single_hop (trace : list Event) : bool :=
  match trace with
  | Completion _ :: rest => runs_then_at_most_one_request rest
  | _ => false
  end.

(** The tool runs of a trace, as (name, keyword arguments). *)
Definition tool_runs (trace : list Event) : list (string * list (string * Json)) :=
  omap (fun e => match e with ToolRun n kw => Some (n, kw) | Completion _ => None end) trace.

(** The invocation that a tool call requests, when its arguments decode to an
    object. *)
Definition requested_run (tc : ToolCall) : option (string * list (string * Json)) :=
  match tc_function_arguments tc with
  | Encoded (JDict kwargs) => Some (tc_function_name tc, kwargs)
  | _ => None
  end.

(** The first request of a turn. *)
Definition initial_request (self : GPTChatAgent) (message : string) : Request :=
  {| req_model := "gpt-4";
     req_messages := messages self ++ [UserMessage message];
     req_temperature := Some (config_temperature self);
     req_max_tokens := Some 1000;
     req_tools := Some (list_tools (tool_registry self));
     req_tool_choice := Some "auto" |}.

(** The tool calls that the first response of a turn requests. *)
Definition first_tool_calls {Client}
    (create : Client -> Request -> Client * (Py.Exception + ChatCompletion))
    (self : GPTChatAgent) (client : Client) (message : string) : list ToolCall :=
  match (create client (initial_request self message)).2 with
  | inr response =>
      match first_choice response with
      | inr m => default [] (msg_tool_calls m)
      | inl _ => []
      end
  | inl _ => []
  end.

(** The result message that dispatching one tool call appends, when the call
    goes through: nothing for an unregistered name. *)
Definition dispatched (tools : gmap string Tool) (tc : ToolCall)
  : option (list Message) :=
  match json_loads (tc_function_arguments tc) with
  | inl _ => None
  | inr function_args =>
      match get_tool tools (tc_function_name tc) with
      | None => Some []
      | Some tool =>
          match function_args with
          | JDict kwargs =>
              match Tool_run tool kwargs with
              | inr (Serialisable v) =>
                  Some [ToolResult (tc_id tc) (tc_function_name tc) (Encoded v)]
              | _ => None
              end
          | _ => None
          end
      end
  end.

(** The value that [json.loads] returns, when it returns. *)
Definition json_loads_ok (text : JsonText) : option Json :=
  match json_loads text with
  | inr v => Some v
  | inl _ => None
  end.

(** ** Concrete values for the examples *)

(** [def echo(text: str): return {"text": text}] (it returns its keyword
    arguments as a dict). *)
Definition echo : Callable :=
  {| fn_name := "echo"; fn_doc := None;
     fn_signature :=
       {| sig_parameters :=
            [ {| p_name := "text"; p_kind := POSITIONAL_OR_KEYWORD;
                 p_annotation := Some py_str; p_default := None |} ];
          sig_return := None |};
     fn_call := fun kwargs => inr (Serialisable (JDict kwargs)) |}.

Definition echo_tool : Tool :=
  {| name := "echo"; description := "";
     parameters :=
       {| schema_type := Some "object";
          properties := Some [("text", schema_of_type "string")];
          required := Some ["text"] |};
     func := echo |}.

(** An agent whose registry holds [echo] only. *)
Definition example_agent : GPTChatAgent :=
  {| config_temperature := 0.7%float;
     tool_registry := {[ "echo" := echo_tool ]};
     messages := [] |}.

Definition call_echo : ToolCall :=
  {| tc_id := "call_1"; tc_function_name := "echo";
     tc_function_arguments := Encoded (JDict [("text", JStr "hi")]) |}.

(** A call to [echo] whose arguments object has a key ["self"]. *)
Definition call_echo_self : ToolCall :=
  {| tc_id := "call_1"; tc_function_name := "echo";
     tc_function_arguments := Encoded (JDict [("self", JInt 1)]) |}.

(** A call to a tool that is not registered, with well-formed arguments. *)
Definition call_ghost : ToolCall :=
  {| tc_id := "call_2"; tc_function_name := "ghost";
     tc_function_arguments := Encoded (JDict []) |}.

(** A call to a tool that is not registered, whose arguments text is the
    single character "{". *)
Definition call_ghost_malformed : ToolCall :=
  {| tc_id := "call_2"; tc_function_name := "ghost";
     tc_function_arguments := Malformed "{" |}.

Definition asks_for (tool_calls : list ToolCall) : ChatCompletionMessage :=
  {| msg_content := None; msg_tool_calls := Some tool_calls |}.

Definition says (text : string) : ChatCompletionMessage :=
  {| msg_content := Some text; msg_tool_calls := None |}.

Definition reply (m : ChatCompletionMessage) : Py.Exception + ChatCompletion :=
  inr {| choices := [m] |}.

(** A schema with another [required] list. *)
Definition with_required (p : Schema) (req : option (list string)) : Schema :=
  {| schema_type := schema_type p; properties := properties p; required := req |}.

(** [def pad(a, b='**'): ...] *)
Definition pad : Callable :=
  {| fn_name := "pad"; fn_doc := None;
     fn_signature :=
       {| sig_parameters :=
            [ {| p_name := "a"; p_kind := POSITIONAL_OR_KEYWORD;
                 p_annotation := None; p_default := None |};
              {| p_name := "b"; p_kind := POSITIONAL_OR_KEYWORD;
                 p_annotation := None; p_default := Some "'**'" |} ];
          sig_return := None |};
     fn_call := fun _ => inr (Serialisable JNull) |}.

(** [echo]'s schema with [text] declared optional. *)
Definition echo_schema_all_optional : Schema :=
  {| schema_type := Some "object";
     properties := Some [("text", schema_of_type "string")];
     required := Some [] |}.

Definition schema_a_only : Schema :=
  {| schema_type := Some "object";
     properties := Some [("a", schema_of_type "string")];
     required := Some ["a"] |}.

(** A registry entry, or [None] when the registration raised. *)
Definition registered (r : Py.Exception + gmap string Tool) (name : string) : option Tool :=
  match r with
  | inr tools => tools !! name
  | inl _ => None
  end.

(** The mapping table for the basic annotations. *)
Definition basic_types : list (TypeHint * string) :=
  [ (py_str, "string"); (py_int, "integer"); (py_float, "number"); (py_bool, "boolean") ].

(** The names that the schema builder keeps: all but [self]. *)
Definition schema_names (ps : list Param) : list string :=
  filter (fun n => n ≠ "self") (map p_name ps).

(** A positional-or-keyword parameter. *)
Definition param (name : string) (annotation : option TypeHint) (default : option string)
  : Param :=
  {| p_name := name; p_kind := POSITIONAL_OR_KEYWORD;
     p_annotation := annotation; p_default := default |}.

Definition def (name : string) (ps : list Param) : Callable :=
  {| fn_name := name; fn_doc := None;
     fn_signature := {| sig_parameters := ps; sig_return := None |};
     fn_call := fun _ => inr (Serialisable JNull) |}.

(** [def four(a: str, b: int, c: float, d: bool): ...] *)
Definition four : Callable :=
  def "four" [ param "a" (Some py_str) None; param "b" (Some py_int) None;
               param "c" (Some py_float) None; param "d" (Some py_bool) None ].

(** [def method(self: str, x: int): ...], a plain function. *)
Definition method : Callable :=
  def "method" [ param "self" (Some py_str) None; param "x" (Some py_int) None ].

(** [typing.Annotated[dict, 'm']] as Python 3.11 shows it. *)
Definition Annotated_dict : TypeHint :=
  MkTypeHint (Some "Annotated") "typing.Annotated[dict, 'm']" "Annotated[dict, 'm']"
             (Some OriginDict) (Some [py_dict]) false.

(** [def tagged(x: Annotated[dict, 'm']): ...] *)
Definition tagged : Callable := def "tagged" [ param "x" (Some Annotated_dict) None ].

(** An entry is well formed when its six required keys are present, its
    timestamp reads as ISO-8601 and its category is one of the four values;
    [confidence] may be absent. *)
Definition well_formed_entry {datetime} (fromisoformat : string -> option datetime)
    (d : EntryData) : bool :=
  match d_timestamp d, d_app_name d, d_window_title d, d_content_summary d,
        d_user_activity d, d_category d with
  | Some ts, Some _, Some _, Some _, Some _, Some c =>
      bool_decide (is_Some (fromisoformat ts))
      && bool_decide (is_Some (ActivityCategory_of_value c))
  | _, _, _, _, _, _ => false
  end.

Definition at_9 (mi s : Z) : Datetime.t := Datetime.mk 2024 1 15 9 mi s 0.

(** An entry of the given category, as the tracker holds it. *)
Definition sample (ts : Datetime.t) (c : ActivityCategory) : ActivityEntry Datetime.t :=
  {| timestamp := ts; app_name := "Code"; window_title := "main.py";
     content_summary := "editing"; user_activity := "coding";
     category := c; confidence := 0.5%float |}.

(** The text of eight work keywords: it classifies as work (8/26 >= 0.3). *)
Definition busy_text : string :=
  "coding programming development writing editing designing analyzing researching".

Definition busy_entry (ts : Datetime.t) : ActivityEntry Datetime.t :=
  {| timestamp := ts; app_name := "Code"; window_title := "";
     content_summary := ""; user_activity := busy_text;
     category := WORK; confidence := Py.true_div 8 26 |}.

Definition busy_record : ActivityRecord :=
  {| r_timestamp := "2024-01-15 09:00:00"; r_app_name := "Code";
     r_window_title := ""; r_content_summary := ""; r_user_activity := busy_text |}.

(** The percentage as the specification words it:
    [floor(100 * category_seconds / total_seconds)], and 0 for no time. *)
Definition claimed_percentage (category_seconds total_seconds : Z) : Z :=
  if 0 <? total_seconds then 100 * category_seconds / total_seconds else 0.

(** The work share of a time distribution. *)
Definition work_share (distribution : list (string * TimeShare)) : option TimeShare :=
  Py.dict_get distribution "work".

Definition improved_work_share (r : string + ImprovedSummary) : option TimeShare :=
  match r with
  | inr summary => work_share (i_time_distribution summary)
  | inl _ => None
  end.

(** A tracker that already holds one entry. *)
Definition old_tracker : ActivityTracker Datetime.t :=
  {| activity_log := [sample (at_9 0 0) UNCATEGORIZED];
     category_keywords := category_keywords (@ActivityTracker__init__ Datetime.t) |}.

(** An entry of a file without its ["app_name"] key. *)
Definition no_app_name : EntryData :=
  {| d_timestamp := Some "2024-01-15T09:01:10"; d_app_name := None;
     d_window_title := Some "main.py"; d_content_summary := Some "editing";
     d_user_activity := Some "coding"; d_category := Some "work";
     d_confidence := Some 0.5%float |}.

(** A file of three entries, the second one malformed. *)
Definition broken_file : FileContent :=
  JsonFile {| d_activities :=
                Some [ entry_data Datetime.isoformat (sample (at_9 1 0) WORK);
                       no_app_name;
                       entry_data Datetime.isoformat (sample (at_9 1 20) BREAKS) ] |}.

(** The score expression of [get_productivity_insights]:
    [int((part / whole) * 100)] in binary64. *)
Definition float_percentage (part whole : Z) : Z :=
  Py.int_of_float (PrimFloat.mul (Py.true_div part whole) (Py.float_of_int 100)).

(** The exact percentages at which [(part / whole) * 100] falls just below
    the integer: 29, 57 and 58. *)
Definition rounds_down (part whole : Z) : bool :=
  (100 * part =? 29 * whole) || (100 * part =? 57 * whole) || (100 * part =? 58 * whole).

(** The score as the specification words it. *)
Definition claimed_productivity_score (work communication total_categorized : Z) : Z :=
  if 0 <? total_categorized
  then 100 * (work + communication) / total_categorized
  else 0.

Definition productivity_score_of (r : InsightsResult) : option Z :=
  match r with
  | Insights score _ _ => Some score
  | NoData _ => None
  end.

(** [f lo && f (lo + 1) && ... ] over [n] consecutive integers. *)
Fixpoint all_from (f : Z -> bool) (lo : Z) (n : nat) : bool :=
  match n with
  | O => true
  | S n' => f lo && all_from f (lo + 1) n'
  end.

(** A log of [nw] work, [nc] communication and [nb] break entries. *)
Definition mixed_log (nw nc nb : nat) : ActivityTracker Datetime.t :=
  {| activity_log := replicate nw (sample (at_9 0 0) WORK)
                     ++ replicate nc (sample (at_9 0 0) COMMUNICATION)
                     ++ replicate nb (sample (at_9 0 0) BREAKS);
     category_keywords := category_keywords (@ActivityTracker__init__ Datetime.t) |}.

Definition insights_score (r : Py.Exception + InsightsResult) : option Z :=
  match r with
  | inr i => productivity_score_of i
  | inl _ => None
  end.

(** Work, communication, break and uncategorized minutes of a summary, and
    its total tracked minutes. *)
Definition summary_minutes {datetime} (r : Py.Exception + ActivitySummary datetime)
  : option (Z * Z * Z * Z * Z) :=
  match r with
  | inr s => Some (share_minutes s "work", share_minutes s "communication",
                   share_minutes s "breaks", share_minutes s "uncategorized",
                   total_tracked_minutes s)
  | inl _ => None
  end.

(** The summary of twelve entries: six work, three communication, three
    breaks. *)
Definition twelve_summary : ActivitySummary Datetime.t :=
  {| date := "2024-01-15";
     total_tracked_minutes := 2;
     apps_used := [ {| app := "Code"; app_minutes := 2 |} ];
     time_distribution :=
       [ ("work", {| minutes := 1; percentage := 50 |});
         ("communication", {| minutes := 0; percentage := 25 |});
         ("breaks", {| minutes := 0; percentage := 25 |});
         ("uncategorized", {| minutes := 0; percentage := 0 |}) ];
     categorized_activities := _group_by_category (activity_log (mixed_log 6 3 3));
     total_activities := 12 |}.

(** ** More of activity_tracker.py and activity_tools.py *)

Section TrackerOperations.

Variable datetime : Type.
Variable lower : string -> string.

(** [ActivityTracker.add_activity]; [now] is what [datetime.now()] returns.
    The tracker after the call, and the entry returned. *)
Definition add_activity (self : ActivityTracker datetime) (now : datetime)
    (app_name' window_title' content_summary' user_activity' : string)
  : ActivityTracker datetime * ActivityEntry datetime :=
  let entry :=
    {| timestamp := now; app_name := app_name'; window_title := window_title';
       content_summary := content_summary'; user_activity := user_activity';
       category := UNCATEGORIZED; confidence := 0%float |} in
  let '(category', confidence') := _categorize_activity lower self entry in
  let entry :=
    {| timestamp := now; app_name := app_name'; window_title := window_title';
       content_summary := content_summary'; user_activity := user_activity';
       category := category'; confidence := confidence' |} in
  ({| activity_log := activity_log self ++ [entry];
      category_keywords := category_keywords self |}, entry).

(** The answer of [categorize_activities_interactive]. *)
Record Recategorization := {
  rc_message : string;
  rc_total_uncategorized : option Z;
  rc_categorized : Z
}.

(** The loop body of [categorize_activities_interactive] on one entry of the
    log: an uncategorized entry is classified again and updated in place when
    the new confidence is greater; the flag tells whether it was. *)
Definition recategorize (self : ActivityTracker datetime) (entry : ActivityEntry datetime)
  : ActivityEntry datetime * bool :=
  if decide (category entry = UNCATEGORIZED)
  then
    let '(category', confidence') := _categorize_activity lower self entry in
    if PrimFloat.ltb (confidence entry) confidence'
    then ({| timestamp := timestamp entry; app_name := app_name entry;
             window_title := window_title entry;
             content_summary := content_summary entry;
             user_activity := user_activity entry;
             category := category'; confidence := confidence' |}, true)
    else (entry, false)
  else (entry, false).

(** [categorize_activities_interactive()] over the tracker it updates. *)
Definition categorize_activities_interactive (activity_tracker : ActivityTracker datetime)
  : ActivityTracker datetime * Recategorization :=
  let uncategorized :=
    filter (fun entry => category entry = UNCATEGORIZED) (activity_log activity_tracker) in
  match uncategorized with
  | [] => (activity_tracker,
           {| rc_message := "No uncategorized activities found";
              rc_total_uncategorized := None; rc_categorized := 0 |})
  | _ =>
      let updated := map (recategorize activity_tracker) (activity_log activity_tracker) in
      let categorized_count := Py.len (filter (fun r => snd r = true) updated) in
      ({| activity_log := map fst updated;
          category_keywords := category_keywords activity_tracker |},
       {| rc_message := "Recategorized " +:+ Py.str_of_int categorized_count +:+ " activities";
          rc_total_uncategorized := Some (Py.len uncategorized);
          rc_categorized := categorized_count |})
  end.

End TrackerOperations.

Arguments add_activity {datetime} lower self now _ _ _ _.
Arguments recategorize {datetime} lower self entry.
Arguments categorize_activities_interactive {datetime} lower activity_tracker.

(** ** More of core/tools.py: the registry *)

(** [ToolRegistry.clear] *)
Definition clear (tools : gmap string Tool) : gmap string Tool := ∅.

(** [ToolRegistry.__len__] *)
Definition ToolRegistry__len__ (tools : gmap string Tool) : Z := Z.of_nat (size tools).

(** [ToolRegistry.__contains__] *)
Definition ToolRegistry__contains__ (tools : gmap string Tool) (name : string) : bool :=
  bool_decide (is_Some (tools !! name)).

(** What the classifier promises for one triple of scores (work,
    communication, breaks): a confidence within [0, 1] that is not below
    itself, the threshold rule, the least number of matches of a winner, and
    the order in which ties are broken. *)
Definition decision_ok (sw sc sb : Z) : bool :=
  let r := decide_by_scores sw sc sb in
  let below := PrimFloat.ltb (snd r) confidence_threshold in
  PrimFloat.leb 0%float (snd r) && PrimFloat.leb (snd r) 1%float
  && negb (PrimFloat.ltb (snd r) (snd r))
  && match fst r with
     | UNCATEGORIZED => below
     | WORK => negb below && (8 <=? sw) && (sc <=? sw) && (sb <=? sw)
     | COMMUNICATION => negb below && (7 <=? sc) && (sw <? sc) && (sb <=? sc)
     | BREAKS => negb below && (6 <=? sb) && (sw <? sb) && (sc <? sb)
     end.

(** A dict with one value per category, in the order of the enum. *)
Definition by_category {V} (f : ActivityCategory -> V) : list (ActivityCategory * V) :=
  map (fun c => (c, f c)) ActivityCategory_members.

(** The entries of one category, and of one application. *)
Definition of_category {datetime} (c : ActivityCategory)
    (activities : list (ActivityEntry datetime)) : list (ActivityEntry datetime) :=
  filter (fun entry => category entry = c) activities.

Definition of_app {datetime} (a : string)
    (activities : list (ActivityEntry datetime)) : list (ActivityEntry datetime) :=
  filter (fun entry => app_name entry = a) activities.


(** A run of [add_activity] calls on one tracker, each call given as
    (now, app_name, window_title, content_summary, user_activity). *)
Definition add_activities {datetime} (lower : string -> string)
    (self : ActivityTracker datetime)
    (calls : list (datetime * string * string * string * string))
  : ActivityTracker datetime :=
  fold_left (fun tracker call =>
               let '(now, app_name', window_title', content_summary', user_activity') := call in
               fst (add_activity lower tracker now app_name' window_title'
                                 content_summary' user_activity'))
            calls self.

(** The fields of an entry that classification never touches. *)
Definition observation {datetime} (entry : ActivityEntry datetime)
  : datetime * string * string * string * string :=
  (timestamp entry, app_name entry, window_title entry, content_summary entry,
   user_activity entry).

(** Every tool of the registry is stored under its own name. *)
Definition keyed_by_name (tools : gmap string Tool) : Prop :=
  forall key tool, tools !! key = Some tool -> name tool = key.

(** The signature has a [**kwargs] parameter. *)
Definition has_var_keyword (sig : Signature) : bool :=
  existsb (fun p => bool_decide (p_kind p = VAR_KEYWORD)) (sig_parameters sig).

(** The [tool_call_id] of a tool-result message. *)
Definition result_id (m : Message) : option string :=
  match m with
  | ToolResult tool_call_id _ _ => Some tool_call_id
  | _ => None
  end.

(** The tool calls whose name is registered. *)
Definition answered (tools : gmap string Tool) (tool_calls : list ToolCall) : list ToolCall :=
  filter (fun tc => is_Some (get_tool tools (tc_function_name tc))) tool_calls.

(** [def configure(a, **options): ...] *)
Definition configure : Callable :=
  def "configure"
      [ param "a" None None;
        {| p_name := "options"; p_kind := VAR_KEYWORD;
           p_annotation := None; p_default := None |} ].

(** [type(None)] and [typing.Optional[int]] as Python 3.11 shows them. *)
Definition NoneType_hint : TypeHint :=
  MkTypeHint (Some "NoneType") "<class 'NoneType'>" "NoneType" None None true.

Definition Optional_int : TypeHint :=
  MkTypeHint (Some "Optional") "typing.Optional[int]" "Optional[int]"
             (Some OriginUnion) (Some [py_int; NoneType_hint]) false.

(** The raw-log record of an entry of the tracker; [stamp] writes the
    timestamp. *)
Definition as_record {datetime} (stamp : datetime -> string)
    (entry : ActivityEntry datetime) : ActivityRecord :=
  {| r_timestamp := stamp (timestamp entry);
     r_app_name := app_name entry;
     r_window_title := window_title entry;
     r_content_summary := content_summary entry;
     r_user_activity := user_activity entry |}.

(** A dict with one value per category, keyed by the category's string
    value, in the order of the enum. *)
Definition by_value {V} (f : ActivityCategory -> V) : list (string * V) :=
  map (fun c => (value c, f c)) ActivityCategory_members.
(** * Properties *)

(** ** The keyword classifier *)

Section ClassifierFacts.

Context {datetime : Type} (lower : string -> string).

(** The accumulating loop counts exactly what the generator sum counts. *)
Lemma keyword_score_acc text keywords acc :
  fold_left (fun score keyword =>
               if Py.contains keyword text then score + 1 else score)
            keywords acc
  = acc + keyword_sum text keywords.
Proof.
  revert acc. induction keywords as [|kw kws IH]; intros acc; cbn [fold_left].
  - unfold keyword_sum; cbn. lia.
  - rewrite IH. unfold keyword_sum. rewrite filter_cons.
    destruct (Py.contains kw text) eqn:E.
    + rewrite decide_True by done. cbn [map foldr]. lia.
    + rewrite decide_False by done. lia.
Qed.

Lemma keyword_score_sum text keywords :
  keyword_score text keywords = keyword_sum text keywords.
Proof. unfold keyword_score. rewrite keyword_score_acc. lia. Qed.

Lemma keyword_sum_nonneg text keywords : 0 <= keyword_sum text keywords.
Proof.
  unfold keyword_sum. induction (filter _ keywords); cbn; lia.
Qed.

End ClassifierFacts.

Lemma tracker_by_scores {datetime} lower (log : list (ActivityEntry datetime)) entry :
  let text := lower (user_activity entry +:+ " " +:+ content_summary entry
                     +:+ " " +:+ window_title entry) in
  _categorize_activity lower
    {| activity_log := log;
       category_keywords := category_keywords (@ActivityTracker__init__ datetime) |} entry
  = decide_by_scores (keyword_sum text WORK_KEYWORDS)
                     (keyword_sum text COMMUNICATION_KEYWORDS)
                     (keyword_sum text BREAKS_KEYWORDS).
Proof.
  intros text. unfold _categorize_activity, decide_by_scores.
  cbn [category_keywords ActivityTracker__init__ map fst snd Py.max_key Py.max_from].
  fold text. rewrite !keyword_score_sum.
  set (sw := keyword_sum text WORK_KEYWORDS).
  set (sc := keyword_sum text COMMUNICATION_KEYWORDS).
  set (sb := keyword_sum text BREAKS_KEYWORDS).
  destruct (sw <? sc); [destruct (sc <? sb) | destruct (sw <? sb)]; reflexivity.
Qed.

Lemma len_eval_WORK : Py.len (default [] (eval_KEYWORDS (Py.upper "work"))) = 26.
Proof. vm_compute. reflexivity. Qed.

Lemma len_eval_COMMUNICATION :
  Py.len (default [] (eval_KEYWORDS (Py.upper "communication"))) = 22.
Proof. vm_compute. reflexivity. Qed.

Lemma len_eval_BREAKS : Py.len (default [] (eval_KEYWORDS (Py.upper "breaks"))) = 18.
Proof. vm_compute. reflexivity. Qed.

Lemma improved_by_scores lower ua cs wt :
  let text := lower (ua +:+ " " +:+ cs +:+ " " +:+ wt) in
  let r := decide_by_scores (keyword_sum text WORK_KEYWORDS)
                            (keyword_sum text COMMUNICATION_KEYWORDS)
                            (keyword_sum text BREAKS_KEYWORDS) in
  categorize_activity lower ua cs wt = (value (fst r), snd r).
Proof.
  intros text. unfold categorize_activity, decide_by_scores. fold text.
  generalize (keyword_sum text WORK_KEYWORDS)
             (keyword_sum text COMMUNICATION_KEYWORDS)
             (keyword_sum text BREAKS_KEYWORDS).
  intros sw sc sb. cbn [forallb snd fst Py.max_key Py.max_from].
  destruct ((sw =? 0) && ((sc =? 0) && ((sb =? 0) && true))) eqn:Hall.
  - (* no keyword matched: the early return agrees with 0/26 < 0.3 *)
    apply andb_true_iff in Hall as [Hw Hall].
    apply andb_true_iff in Hall as [Hc Hall].
    apply andb_true_iff in Hall as [Hb _].
    apply Z.eqb_eq in Hw, Hc, Hb. subst sw sc sb.
    vm_compute. reflexivity.
  - destruct (sw <? sc); [destruct (sc <? sb) | destruct (sw <? sb)];
      cbv beta iota;
      rewrite ?len_eval_WORK, ?len_eval_COMMUNICATION, ?len_eval_BREAKS;
      match goal with |- context [0 <? ?k] => change (0 <? k) with true end;
      cbv beta iota;
      destruct (PrimFloat.ltb _ confidence_threshold); reflexivity.
Qed.

(** C10. For every triple of texts, the standalone
    [categorize_activity] of improved_activity_tracker.py returns the same
    category (as the enum's string value) and the same confidence as
    [ActivityTracker._categorize_activity] on an entry carrying those three
    texts, for a tracker with the keyword table that [__init__] installs,
    whatever its activity log and whatever [str.lower] does. *)
Theorem C10_classifiers_agree (datetime : Type) (lower : string -> string)
    (log : list (ActivityEntry datetime)) (entry : ActivityEntry datetime) :
  let self := {| activity_log := log;
                 category_keywords :=
                   category_keywords (@ActivityTracker__init__ datetime) |} in
  let r := _categorize_activity lower self entry in
  categorize_activity lower (user_activity entry) (content_summary entry)
                      (window_title entry)
  = (value (fst r), snd r).
Proof.
  intros self r. subst r self.
  rewrite tracker_by_scores. apply improved_by_scores.
Qed.

(** The entry of the regression example: the activity text is
    "coding and debugging", summary and title are empty. *)
Lemma coding_and_debugging_score :
  keyword_score (Py.lower "coding and debugging  ") WORK_KEYWORDS = 2
  /\ keyword_score (Py.lower "coding and debugging  ") COMMUNICATION_KEYWORDS = 0
  /\ keyword_score (Py.lower "coding and debugging  ") BREAKS_KEYWORDS = 0.
Proof. vm_compute. auto. Qed.

(** C5 (as the code has it). The work keyword table has 26 entries, so
    the entry "coding and debugging" scores 2 work matches and gets confidence
    2/26 (about 0.0769, not 2/25 = 0.08); that is below 0.3, so the category
    is [UNCATEGORIZED] and the confidence is returned unmodified. *)
Theorem C5_coding_and_debugging (datetime : Type)
    (log : list (ActivityEntry datetime)) (ts : datetime) (app : string)
    (cat : ActivityCategory) (conf : float) :
  let self := {| activity_log := log;
                 category_keywords :=
                   category_keywords (@ActivityTracker__init__ datetime) |} in
  let entry := {| timestamp := ts; app_name := app; window_title := "";
                  content_summary := ""; user_activity := "coding and debugging";
                  category := cat; confidence := conf |} in
  keyword_score (Py.lower "coding and debugging  ") WORK_KEYWORDS = 2
  /\ Py.len WORK_KEYWORDS = 26
  /\ _categorize_activity Py.lower self entry = (UNCATEGORIZED, Py.true_div 2 26)
  /\ PrimFloat.ltb (Py.true_div 2 26) confidence_threshold = true
  /\ PrimFloat.ltb 0.0769%float (Py.true_div 2 26) = true
  /\ PrimFloat.ltb (Py.true_div 2 26) 0.0770%float = true.
Proof.
  intros self entry. repeat split; try (vm_compute; reflexivity).
Qed.

(** C5, the claim as written fails: the confidence returned for
    "coding and debugging" is 2/26, which differs from 2/25 = 0.08. *)
Lemma C5_confidence_is_not_0_08 :
  let entry := {| timestamp := Datetime.mk 2024 1 15 9 0 0 0;
                  app_name := "Visual Studio Code"; window_title := "";
                  content_summary := ""; user_activity := "coding and debugging";
                  category := UNCATEGORIZED; confidence := 0%float |} in
  _categorize_activity Py.lower ActivityTracker__init__ entry
  = (UNCATEGORIZED, Py.true_div 2 26)
  /\ PrimFloat.eqb (Py.true_div 2 26) (Py.true_div 2 25) = false
  /\ PrimFloat.eqb (Py.true_div 2 26) 0.08%float = false
  /\ PrimFloat.eqb (Py.true_div 2 25) 0.08%float = true.
Proof. vm_compute. auto. Qed.

(** ** The agent loop *)

Section AgentFacts.

Context {Client : Type}.
Variable create : Client -> Request -> Client * (Py.Exception + ChatCompletion).

(** A call of [run] that returns was given no keyword named [self]. *)
Lemma Tool_run_inr tool kwargs r :
  Tool_run tool kwargs = inr r -> binds_self kwargs = false.
Proof. unfold Tool_run. destruct (binds_self kwargs); [discriminate | reflexivity]. Qed.

(** The dispatch loop only appends tool runs to the trace, each one requested
    by one of the tool calls it is given. *)
Lemma dispatch_trace tools tool_calls ms tr :
  exists runs,
    (dispatch tools tool_calls ms tr).1.2 = tr ++ runs
    /\ Forall (fun e => is_Completion e = false) runs
    /\ Forall (fun r => In (Some r) (map requested_run tool_calls)) (tool_runs runs).
Proof.
  revert ms tr. induction tool_calls as [|tc tcs IH]; intros ms tr; cbn [dispatch].
  - exists []. cbn. rewrite app_nil_r. repeat split; constructor.
  - assert (Hweak : forall runs,
               Forall (fun r => In (Some r) (map requested_run tcs)) (tool_runs runs) ->
               Forall (fun r => In (Some r) (map requested_run (tc :: tcs)))
                      (tool_runs runs)).
    { intros runs H. eapply Forall_impl; [exact H|]. intros r Hr. now right. }
    destruct (json_loads (tc_function_arguments tc)) as [e|v] eqn:Hl.
    { exists []. cbn. rewrite app_nil_r. repeat split; constructor. }
    destruct (get_tool tools (tc_function_name tc)) as [tool|].
    2:{ destruct (IH ms tr) as (runs & H1 & H2 & H3). exists runs. auto. }
    destruct v as [ | | | | | |kwargs];
      try (exists []; cbn; rewrite app_nil_r; repeat split; constructor).
    assert (Hreq : requested_run tc = Some (tc_function_name tc, kwargs)).
    { unfold requested_run. destruct (tc_function_arguments tc); cbn in Hl;
        [injection Hl as ->; reflexivity | discriminate]. }
    assert (Hone : Forall (fun r => In (Some r) (map requested_run (tc :: tcs)))
                          (tool_runs [ToolRun (tc_function_name tc) kwargs])).
    { cbn. constructor; [left; exact Hreq | constructor]. }
    destruct (binds_self kwargs) eqn:Hself.
    { unfold Tool_run. rewrite Hself.
      exists []. cbn. rewrite app_nil_r. repeat split; constructor. }
    destruct (Tool_run tool kwargs) as [e|resp].
    { exists [ToolRun (tc_function_name tc) kwargs]. repeat split; auto. }
    destruct (json_dumps resp) as [e|content].
    { exists [ToolRun (tc_function_name tc) kwargs]. repeat split; auto. }
    destruct (IH (ms ++ [ToolResult (tc_id tc) (tc_function_name tc) content])
                 (tr ++ [ToolRun (tc_function_name tc) kwargs]))
      as (runs & H1 & H2 & H3).
    exists (ToolRun (tc_function_name tc) kwargs :: runs). repeat split.
    + rewrite H1, <- app_assoc. reflexivity.
    + constructor; auto.
    + cbn. constructor; [left; exact Hreq | apply (Hweak _ H3)].
Qed.


Lemma runs_then_skip runs tail :
  Forall (fun e => is_Completion e = false) runs ->
  runs_then_at_most_one_request (runs ++ tail) = runs_then_at_most_one_request tail.
Proof.
  induction 1 as [|e runs He _ IH]; [reflexivity|].
  destruct e; [discriminate He | exact IH].
Qed.

Lemma completion_requests_app t1 t2 :
  completion_requests (t1 ++ t2) = (completion_requests t1 + completion_requests t2)%nat.
Proof. unfold completion_requests. now rewrite filter_app, length_app. Qed.

Lemma completion_requests_runs runs :
  Forall (fun e => is_Completion e = false) runs -> completion_requests runs = 0%nat.
Proof.
  unfold completion_requests. induction 1 as [|e runs He _ IH]; [reflexivity|].
  rewrite filter_cons, decide_False; [exact IH | congruence].
Qed.

Lemma completion_requests_request request t :
  completion_requests (Completion request :: t) = S (completion_requests t).
Proof. reflexivity. Qed.

Lemma tool_runs_app t1 t2 : tool_runs (t1 ++ t2) = tool_runs t1 ++ tool_runs t2.
Proof. apply omap_app. Qed.

(** C1. Whatever the completion capability answers, one call of [run]
    issues one completion request, then only tool runs, then at most one
    follow-up request and nothing after it: between one and two requests per
    turn, and every tool that is run was requested by the first response (a
    second response asking for tools is returned as it is). *)
Theorem C1_single_hop (self : GPTChatAgent) (client : Client) (message : string) :
  let r := run create self client message in
  single_hop (turn_trace r) = true
  /\ (1 <= completion_requests (turn_trace r) <= 2)%nat
  /\ Forall (fun rn => In (Some rn)
                          (map requested_run (first_tool_calls create self client message)))
            (tool_runs (turn_trace r)).
Proof.
  intros r. subst r. unfold run, first_tool_calls. fold (initial_request self message).
  set (request := initial_request self message).
  destruct (create client request) as [client1 [e|response]];
    [cbn; repeat split; auto; constructor|].
  cbn [snd].
  destruct (first_choice response) as [e|m]; [cbn; repeat split; auto; constructor|].
  destruct (msg_tool_calls m) as [[|tc tcs]|]; try (cbn; repeat split; auto; constructor).
  cbn [default].
  set (ms := (messages self ++ [UserMessage message]) ++ [ResponseMessage m]).
  destruct (dispatch_trace (tool_registry self) (tc :: tcs)
              (ms ++ [AgentToolCalls (tc :: tcs)]) [Completion request])
    as (runs & Htr & Hruns & Hreq).
  destruct (dispatch (tool_registry self) (tc :: tcs) _ _) as [[ms' tr'] [e|]];
    cbn [fst snd] in Htr; subst tr'.
  - unfold turn_trace. cbn [fst snd]. unfold id.
    change ([Completion request] ++ runs) with (Completion request :: runs).
    pose proof (runs_then_skip runs [] Hruns) as Hskip. rewrite app_nil_r in Hskip.
    cbn [single_hop]. rewrite Hskip.
    rewrite completion_requests_request, completion_requests_runs by assumption.
    repeat split; auto.
  - unfold id.
    assert (Hshape : forall request2,
               single_hop (([Completion request] ++ runs) ++ [Completion request2]) = true
               /\ (1 <= completion_requests
                          (([Completion request] ++ runs) ++ [Completion request2]) <= 2)%nat
               /\ Forall (fun rn => In (Some rn) (map requested_run (tc :: tcs)))
                         (tool_runs (([Completion request] ++ runs) ++ [Completion request2]))).
    { intros request2.
      change (([Completion request] ++ runs) ++ [Completion request2])
        with (Completion request :: (runs ++ [Completion request2])).
      cbn [single_hop]. rewrite runs_then_skip by assumption.
      rewrite completion_requests_request, completion_requests_app,
        completion_requests_runs by assumption.
      change (tool_runs (Completion request :: (runs ++ [Completion request2])))
        with (tool_runs (runs ++ [Completion request2])).
      rewrite tool_runs_app, app_nil_r. repeat split; auto. }
    destruct (create client1 _) as [client2 [e|second]]; [apply Hshape|].
    destruct (first_choice second) as [e|m2]; apply Hshape.
Qed.


Lemma tool_runs_length runs :
  Forall (fun e => is_Completion e = false) runs ->
  length (tool_runs runs) = length runs.
Proof.
  induction 1 as [|e runs He _ IH]; [reflexivity|].
  destruct e; [discriminate He | cbn; now rewrite <- IH].
Qed.

(** One iteration of the dispatch loop for a call that goes through. *)
Lemma dispatch_step tools tc out :
  dispatched tools tc = Some out ->
  exists runs,
    length runs = length out
    /\ Forall (fun e => is_Completion e = false) runs
    /\ forall rest ms tr,
         dispatch tools (tc :: rest) ms tr = dispatch tools rest (ms ++ out) (tr ++ runs).
Proof.
  unfold dispatched. intros H.
  destruct (json_loads (tc_function_arguments tc)) as [e|v] eqn:Hl; [discriminate|].
  destruct (get_tool tools (tc_function_name tc)) as [tool|] eqn:Hg.
  - destruct v as [ | | | | | |kwargs]; try discriminate.
    destruct (Tool_run tool kwargs) as [e|[v|r]] eqn:Hr; try discriminate.
    injection H as <-.
    exists [ToolRun (tc_function_name tc) kwargs]. repeat split.
    + repeat constructor.
    + intros rest ms tr. cbn [dispatch].
      rewrite Hl, Hg, Hr, (Tool_run_inr _ _ _ Hr). reflexivity.
  - injection H as <-. exists []. repeat split; [constructor|].
    intros rest ms tr. cbn [dispatch]. rewrite Hl, Hg, !app_nil_r. reflexivity.
Qed.

Lemma dispatched_unregistered tools tc :
  get_tool tools (tc_function_name tc) = None ->
  is_Some (dispatched tools tc) -> dispatched tools tc = Some [].
Proof.
  unfold dispatched. intros Hg [out H].
  destruct (json_loads _); [discriminate|]. rewrite Hg in *. reflexivity.
Qed.

Lemma dispatched_registered tools tc tool :
  get_tool tools (tc_function_name tc) = Some tool ->
  is_Some (dispatched tools tc) ->
  exists v, dispatched tools tc
            = Some [ToolResult (tc_id tc) (tc_function_name tc) (Encoded v)].
Proof.
  unfold dispatched. intros Hg [out H].
  destruct (json_loads _); [discriminate|]. rewrite Hg in *.
  destruct j; try discriminate.
  destruct (Tool_run tool items) as [e|[v|r]]; try discriminate. eauto.
Qed.

(** C2 (as the code has it). A requested invocation whose name is not
    registered, and whose arguments text decodes, appends no message and
    raises nothing.  Hence, when the first response holds exactly two tool
    calls, one naming a registered tool and one naming an unregistered tool,
    and both go through (the arguments decode; the call of the registered
    tool's [run] with the decoded object as keyword arguments returns, and
    its result serialises), the turn issues its two
    requests with one tool run between them, and the history sent with the
    follow-up request is the history of the first request plus the response,
    the tool-call entry and exactly one tool-result message. *)
Theorem C2_unregistered_tool_is_skipped (self : GPTChatAgent) (client client1 : Client)
    (message : string) (response : ChatCompletion) (m : ChatCompletionMessage)
    (tc_a tc_b : ToolCall) :
  create client (initial_request self message) = (client1, inr response) ->
  first_choice response = inr m ->
  msg_tool_calls m = Some [tc_a; tc_b] ->
  (is_Some (get_tool (tool_registry self) (tc_function_name tc_a))
   /\ get_tool (tool_registry self) (tc_function_name tc_b) = None)
  \/ (get_tool (tool_registry self) (tc_function_name tc_a) = None
      /\ is_Some (get_tool (tool_registry self) (tc_function_name tc_b))) ->
  is_Some (dispatched (tool_registry self) tc_a) ->
  is_Some (dispatched (tool_registry self) tc_b) ->
  (forall tc rest ms tr,
      get_tool (tool_registry self) (tc_function_name tc) = None ->
      is_Some (json_loads_ok (tc_function_arguments tc)) ->
      dispatch (tool_registry self) (tc :: rest) ms tr
      = dispatch (tool_registry self) rest ms tr)
  /\ exists result request2,
       is_ToolResult result = true
       /\ completion_requests (turn_trace (run create self client message)) = 2%nat
       /\ length (tool_runs (turn_trace (run create self client message))) = 1%nat
       /\ last (turn_trace (run create self client message)) = Some (Completion request2)
       /\ req_messages request2
          = req_messages (initial_request self message)
            ++ [ResponseMessage m; AgentToolCalls [tc_a; tc_b]; result].
Proof.
  intros Hc Hf Htc Hreg Ha Hb. split.
  { intros tc rest ms tr Hg [v Hv]. cbn [dispatch]. unfold json_loads_ok in Hv.
    destruct (json_loads (tc_function_arguments tc)); [discriminate|].
    rewrite Hg. reflexivity. }
  assert (exists result out_a out_b,
             dispatched (tool_registry self) tc_a = Some out_a
             /\ dispatched (tool_registry self) tc_b = Some out_b
             /\ out_a ++ out_b = [result] /\ is_ToolResult result = true)
    as (result & out_a & out_b & Hda & Hdb & Hout & Hres).
  { destruct Hreg as [[[tool Hg] Hn] | [Hn [tool Hg]]].
    - destruct (dispatched_registered _ _ _ Hg Ha) as [v Hv].
      exists (ToolResult (tc_id tc_a) (tc_function_name tc_a) (Encoded v)),
        [ToolResult (tc_id tc_a) (tc_function_name tc_a) (Encoded v)], [].
      rewrite (dispatched_unregistered _ _ Hn Hb). auto.
    - destruct (dispatched_registered _ _ _ Hg Hb) as [v Hv].
      exists (ToolResult (tc_id tc_b) (tc_function_name tc_b) (Encoded v)),
        [], [ToolResult (tc_id tc_b) (tc_function_name tc_b) (Encoded v)].
      rewrite (dispatched_unregistered _ _ Hn Ha). auto. }
  destruct (dispatch_step _ _ _ Hda) as (runs_a & Hla & Hra & Hsa).
  destruct (dispatch_step _ _ _ Hdb) as (runs_b & Hlb & Hrb & Hsb).
  assert (Hlen : length (runs_a ++ runs_b) = 1%nat).
  { rewrite length_app, Hla, Hlb, <- length_app, Hout. reflexivity. }
  assert (Hruns : Forall (fun e => is_Completion e = false) (runs_a ++ runs_b)).
  { apply Forall_app; auto. }
  set (request2 :=
         {| req_model := "gpt-4";
            req_messages :=
              req_messages (initial_request self message)
              ++ [ResponseMessage m; AgentToolCalls [tc_a; tc_b]; result];
            req_temperature := None; req_max_tokens := None;
            req_tools := None; req_tool_choice := None |}).
  exists result, request2. split; [exact Hres|].
  assert (Hrun : turn_trace (run create self client message)
                 = Completion (initial_request self message)
                     :: ((runs_a ++ runs_b) ++ [Completion request2])).
  { unfold run. fold (initial_request self message). rewrite Hc, Hf, Htc.
    rewrite Hsa, Hsb. cbn [dispatch].
    replace (((((messages self ++ [UserMessage message]) ++ [ResponseMessage m])
                ++ [AgentToolCalls [tc_a; tc_b]]) ++ out_a) ++ out_b)
      with (req_messages request2).
    2:{ cbn [req_messages initial_request request2]. rewrite <- !app_assoc.
        rewrite Hout. reflexivity. }
    change {| req_model := "gpt-4"; req_messages := req_messages request2;
              req_temperature := None; req_max_tokens := None;
              req_tools := None; req_tool_choice := None |} with request2.
    destruct (create client1 request2) as [client2 [e|second]];
      [|destruct (first_choice second)];
      unfold turn_trace; cbn [fst snd]; rewrite <- !app_assoc; reflexivity. }
  rewrite Hrun. repeat split.
  - rewrite completion_requests_request, completion_requests_app,
      completion_requests_runs by assumption. reflexivity.
  - change (tool_runs (Completion (initial_request self message)
                         :: ((runs_a ++ runs_b) ++ [Completion request2])))
      with (tool_runs ((runs_a ++ runs_b) ++ [Completion request2])).
    rewrite tool_runs_app, app_nil_r, tool_runs_length by assumption. exact Hlen.
  - rewrite app_comm_cons. apply last_snoc.
Qed.

End AgentFacts.


(** C2, an instance: the first response asks for [echo] (registered) and
    for [ghost] (not registered), both with well-formed arguments. *)
Lemma C2_witness :
  exists result request2,
    is_ToolResult result = true
    /\ completion_requests
         (turn_trace (run scripted example_agent
                          [reply (asks_for [call_echo; call_ghost]); reply (says "done")]
                          "hi")) = 2%nat
    /\ length (tool_runs
         (turn_trace (run scripted example_agent
                          [reply (asks_for [call_echo; call_ghost]); reply (says "done")]
                          "hi"))) = 1%nat
    /\ last (turn_trace (run scripted example_agent
                          [reply (asks_for [call_echo; call_ghost]); reply (says "done")]
                          "hi")) = Some (Completion request2)
    /\ req_messages request2
       = req_messages (initial_request example_agent "hi")
         ++ [ResponseMessage (asks_for [call_echo; call_ghost]);
             AgentToolCalls [call_echo; call_ghost]; result].
Proof.
  refine (proj2 (C2_unregistered_tool_is_skipped scripted example_agent
                   [reply (asks_for [call_echo; call_ghost]); reply (says "done")]
                   [reply (says "done")] "hi"
                   {| choices := [asks_for [call_echo; call_ghost]] |}
                   (asks_for [call_echo; call_ghost]) call_echo call_ghost
                   _ _ _ _ _ _)).
  - reflexivity.
  - reflexivity.
  - reflexivity.
  - left. split; [eexists|]; vm_compute; reflexivity.
  - eexists; vm_compute; reflexivity.
  - eexists; vm_compute; reflexivity.
Defined.

(** C2, the claim as written fails: the arguments of a tool call are
    decoded before the registry is consulted, so a call to an unregistered
    tool whose arguments text is malformed raises [JSONDecodeError]; after
    [echo] has run, the turn ends in that error and no follow-up request is
    issued. *)
Lemma C2_malformed_arguments_raise :
  get_tool (tool_registry example_agent) "ghost" = None
  /\ turn_result (run scripted example_agent
                      [reply (asks_for [call_echo; call_ghost_malformed]);
                       reply (says "done")] "hi")
     = inl Py.JSONDecodeError
  /\ completion_requests
       (turn_trace (run scripted example_agent
                        [reply (asks_for [call_echo; call_ghost_malformed]);
                         reply (says "done")] "hi")) = 1%nat
  /\ turn_result (run scripted example_agent
                      [reply (asks_for [call_ghost_malformed]); reply (says "done")] "hi")
     = inl Py.JSONDecodeError.
Proof. vm_compute. auto. Qed.

(** A keyword named [self] in the arguments of a registered tool: the call
    of [tool.run] with the decoded arguments raises [TypeError] before
    [echo] is entered, no result is appended and no follow-up request is
    issued. *)
Example self_key_collides :
  dispatched (tool_registry example_agent) call_echo_self = None
  /\ turn_result (run scripted example_agent
                      [reply (asks_for [call_echo_self; call_ghost]); reply (says "done")]
                      "hi")
     = inl (Py.TypeError "Tool.run() got multiple values for argument 'self'")
  /\ turn_trace (run scripted example_agent
                     [reply (asks_for [call_echo_self; call_ghost]); reply (says "done")]
                     "hi")
     = [Completion (initial_request example_agent "hi")].
Proof. vm_compute. auto. Qed.

(** ** Tool construction and registration *)

Section ToolFacts.

Variable cleandoc : string -> string.

Lemma prefix_app_r (n a b : string) :
  String.prefix n a = true -> String.prefix n (a +:+ b) = true.
Proof.
  revert a. induction n as [|c n IH]; intros a; [destruct (a +:+ b); reflexivity|].
  destruct a as [|c' a]; [discriminate|].
  change (String c' a +:+ b) with (String c' (a +:+ b)). cbn [String.prefix].
  destruct (Ascii.ascii_dec c c'); [apply IH | discriminate].
Qed.

Lemma contains_app_l n a b : Py.contains n a = true -> Py.contains n (a +:+ b) = true.
Proof.
  induction a as [|c a IH].
  - cbn [Py.contains]. rewrite orb_false_r. intros H.
    destruct n; [destruct b; reflexivity | discriminate].
  - cbn [Py.contains]. intros H. apply orb_true_iff in H as [H|H].
    + pose proof (prefix_app_r _ (String c a) b H) as Hp.
      change (String c a +:+ b) with (String c (a +:+ b)) in *.
      cbn [Py.contains]. rewrite Hp. reflexivity.
    + change (String c a +:+ b) with (String c (a +:+ b)).
      cbn [Py.contains]. rewrite (IH H). apply orb_true_r.
Qed.

Lemma contains_app_r n a b : Py.contains n b = true -> Py.contains n (a +:+ b) = true.
Proof.
  intros H. induction a as [|c a IH]; [exact H|].
  change (String c a +:+ b) with (String c (a +:+ b)).
  cbn [Py.contains]. rewrite IH. apply orb_true_r.
Qed.

Lemma contains_join n sep piece pieces :
  In piece pieces -> Py.contains n piece = true ->
  Py.contains n (Py.join sep pieces) = true.
Proof.
  intros Hin Hc. induction pieces as [|p ps IH]; [destruct Hin|].
  cbn [Py.join]. destruct Hin as [->|Hin].
  - destruct ps; [exact Hc | now apply contains_app_l].
  - destruct ps as [|q qs]; [destruct Hin|].
    apply contains_app_r, contains_app_r, IH, Hin.
Qed.

Lemma render_params_In p ps : forall pos kw,
  In p ps -> In (Param_str p) (render_params ps pos kw).
Proof.
  induction ps as [|q ps IH]; intros pos kw Hin; [destruct Hin|].
  cbn [render_params]. rewrite !in_app_iff.
  destruct Hin as [->|Hin].
  - right. right. left. now left.
  - right. right. right. now apply IH.
Qed.

(** The text of a signature with a [**kwargs] parameter holds ["**"]. *)
Lemma var_keyword_stars (sig : Signature) :
  has_var_keyword sig = true -> Py.contains "**" (Signature_str sig) = true.
Proof.
  unfold has_var_keyword. rewrite existsb_exists. intros (p & Hin & Hk).
  apply bool_decide_eq_true in Hk.
  assert (Hp : Py.contains "**" (Param_str p) = true).
  { unfold Param_str. rewrite Hk.
    match goal with |- Py.contains _ ("**" +:+ ?s) = true => generalize s end.
    intros s. destruct s; reflexivity. }
  assert (H : Py.contains "**"
                ("(" +:+ Py.join ", " (render_params (sig_parameters sig) false true) +:+ ")")
              = true).
  { apply contains_app_r, contains_app_l.
    apply (contains_join _ _ (Param_str p)); [now apply render_params_In | exact Hp]. }
  unfold Signature_str. destruct (sig_return sig); [now apply contains_app_l | exact H].
Qed.

Lemma validate_signature_spec (self : Tool) :
  let sig := fn_signature (func self) in
  is_Some (_validate_signature self)
  <-> (~ schema_params (parameters self) ⊆ param_names sig
       \/ (~ param_names sig ⊆ schema_params (parameters self)
           /\ Py.contains "**" (Signature_str sig) = false)).
Proof.
  intros sig. unfold _validate_signature. fold sig.
  generalize (schema_params (parameters self)) (param_names sig). intros sp pn.
  destruct (decide (sp ∖ pn = ∅)) as [Hm|Hm].
  - rewrite bool_decide_eq_false_2 by (intros H; apply H, Hm).
    assert (Hsub : sp ⊆ pn) by (apply empty_difference_subseteq_L, Hm).
    destruct (decide (pn ∖ sp = ∅)) as [He|He].
    + rewrite bool_decide_eq_false_2 by (intros H; apply H, He). cbn.
      split; [intros [? H]; discriminate|].
      intros [H|[H _]]; [contradiction|]. exfalso.
      apply H, empty_difference_subseteq_L, He.
    + rewrite bool_decide_eq_true_2 by exact He. cbn [andb].
      destruct (Py.contains "**" (Signature_str sig)); cbn.
      * split; [intros [? H]; discriminate|].
        intros [H|[_ H]]; [contradiction|discriminate].
      * split; [|eauto]. intros _. right. split; [|reflexivity].
        intros H. apply He, subseteq_empty_difference_L, H.
  - rewrite bool_decide_eq_true_2 by exact Hm.
    split; [|eauto]. intros _. left. intros H.
    apply Hm, subseteq_empty_difference_L, H.
Qed.

(** C7 (as the code has it). Constructing a [Tool] raises exactly when
    some schema property is not a declared parameter, or some declared
    parameter is not a schema property and the handler has no [**kwargs]
    parameter.  The [required] list plays no part.  Registering a raw
    callable constructs the tool first, so a failed construction yields no
    registry, and a registry that comes out holds a tool that passed the
    validation; an already constructed [Tool] is stored without any check.
    Stated for handlers whose signature text shows "**" only through a
    [**kwargs] parameter. *)
Theorem C7_tool_construction (nm descr : string) (params : Schema) (f : Callable) :
  (has_var_keyword (fn_signature f) = false ->
   Py.contains "**" (Signature_str (fn_signature f)) = false) ->
  ((exists e, Tool__init__ nm descr params f = inl e)
   <-> (~ schema_params params ⊆ param_names (fn_signature f)
        \/ (~ param_names (fn_signature f) ⊆ schema_params params
            /\ has_var_keyword (fn_signature f) = false)))
  /\ (forall req,
        _validate_signature {| name := nm; description := descr;
                               parameters := with_required params req; func := f |}
        = _validate_signature {| name := nm; description := descr;
                                 parameters := params; func := f |})
  /\ (forall tools n d p e,
        from_function cleandoc f n d p = inl e ->
        register cleandoc tools (inr (f, n, d, p)) = inl e)
  /\ (forall tools n d p tools',
        register cleandoc tools (inr (f, n, d, p)) = inr tools' ->
        exists tool, tools' = <[name tool := tool]> tools
                     /\ _validate_signature tool = None)
  /\ (forall tools tool,
        register cleandoc tools (inl tool) = inr (<[name tool := tool]> tools)).
Proof.
  intros Hstars.
  assert (Hkw : Py.contains "**" (Signature_str (fn_signature f)) = false
                <-> has_var_keyword (fn_signature f) = false).
  { split; [|exact Hstars]. intros Hc.
    destruct (has_var_keyword (fn_signature f)) eqn:Hk; [|reflexivity].
    rewrite (var_keyword_stars _ Hk) in Hc. discriminate. }
  repeat split.
  - intros [e He]. unfold Tool__init__ in He. rewrite <- Hkw.
    apply (validate_signature_spec
             {| name := nm; description := descr; parameters := params; func := f |}).
    destruct (_validate_signature _); [eauto | discriminate].
  - intros H. rewrite <- Hkw in H.
    apply (validate_signature_spec
             {| name := nm; description := descr; parameters := params; func := f |})
      in H as [e He].
    exists e. unfold Tool__init__. rewrite He. reflexivity.
  - intros tools n d p e H. unfold register. rewrite H. reflexivity.
  - intros tools n d p tools' H. unfold register in H.
    destruct (from_function cleandoc f n d p) as [e|tool] eqn:Hf; [discriminate|].
    injection H as <-. exists tool. split; [reflexivity|].
    unfold from_function in Hf.
    destruct (match p with Some p0 => inr p0 | None => _ end) as [e|ps]; [discriminate|].
    unfold Tool__init__ in Hf.
    destruct (_validate_signature _) eqn:Hv; [discriminate|].
    injection Hf as <-. exact Hv.
Qed.


Lemma dict_get_set_eq {K V} `{EqDecision K} (d : list (K * V)) k v :
  Py.dict_get (Py.dict_set d k v) k = Some v.
Proof.
  induction d as [|[k' v'] d IH]; cbn.
  - now rewrite decide_True.
  - destruct (decide (k' = k)) as [->|Hne]; cbn.
    + now rewrite decide_True.
    + now rewrite decide_False.
Qed.

Lemma dict_get_set_ne {K V} `{EqDecision K} (d : list (K * V)) k k' v :
  k ≠ k' -> Py.dict_get (Py.dict_set d k v) k' = Py.dict_get d k'.
Proof.
  intros Hne. induction d as [|[k0 v0] d IH]; cbn.
  - now rewrite decide_False.
  - destruct (decide (k0 = k)) as [->|Hk]; cbn.
    + now rewrite !decide_False.
    + destruct (decide (k0 = k')); [reflexivity | exact IH].
Qed.

Lemma dict_set_keys_fresh {K V} `{EqDecision K} (d : list (K * V)) k v :
  Py.dict_get d k = None -> map fst (Py.dict_set d k v) = map fst d ++ [k].
Proof.
  induction d as [|[k' v'] d IH]; cbn; [reflexivity|].
  destruct (decide (k' = k)); [discriminate|]. intros H. cbn. now rewrite IH.
Qed.

Lemma dict_get_None_keys {K V} `{EqDecision K} (d : list (K * V)) k :
  Py.dict_get d k = None <-> ~ In k (map fst d).
Proof.
  induction d as [|[k' v'] d IH]; cbn; [tauto|].
  destruct (decide (k' = k)) as [->|Hne].
  - split; [discriminate | intros H; exfalso; apply H; now left].
  - rewrite IH. tauto.
Qed.

(** A line whose stripped text starts with ["<name>:"] holds a colon, so the
    [split(':', 1)[1]] of the docstring scan cannot fail. *)
Lemma after_first_prefix name s :
  String.prefix (name +:+ ":") s = true -> is_Some (Py.after_first ":" s).
Proof.
  revert s. induction name as [|c name IH]; intros s.
  - change ("" +:+ ":") with ":".
    destruct s as [|c' s]; cbn [String.prefix Py.after_first]; [intros; discriminate|].
    destruct (Ascii.ascii_dec ":" c') as [<-|]; [|intros; discriminate].
    intros _. case_decide; [eauto | contradiction].
  - change (String c name +:+ ":") with (String c (name +:+ ":")).
    destruct s as [|c' s]; cbn [String.prefix Py.after_first]; [intros; discriminate|].
    destruct (Ascii.ascii_dec c c') as [<-|]; [|intros; discriminate].
    intros H. case_decide; eauto.
Qed.

Lemma after_first_lstrip s :
  is_Some (Py.after_first ":" (Py.lstrip s)) -> is_Some (Py.after_first ":" s).
Proof.
  induction s as [|c s IH]; cbn [Py.lstrip]; [auto|].
  destruct (Py.is_space c); [|auto].
  intros H. cbn [Py.after_first]. case_decide; eauto.
Qed.

Lemma after_first_rstrip s :
  is_Some (Py.after_first ":" (Py.rstrip s)) -> is_Some (Py.after_first ":" s).
Proof.
  induction s as [|c s IH]; cbn [Py.rstrip]; [auto|].
  destruct (Py.rstrip s) as [|c' r] eqn:Hr.
  - destruct (Py.is_space c); cbn [Py.after_first]; repeat case_decide; eauto;
      intros [? H]; discriminate.
  - cbn [Py.after_first]. case_decide; eauto.
Qed.

Lemma describe_ok lines name schema :
  exists d, describe lines name schema
            = inr (MkParamSchema (ps_type schema) (ps_items schema)
                     (ps_additionalProperties schema) d).
Proof.
  unfold describe. revert schema.
  induction lines as [|line lines IH]; intros [t i a d]; cbn [fold_left].
  - eauto.
  - destruct (String.prefix (name +:+ ":") (Py.strip line)) eqn:Hp.
    + apply after_first_prefix in Hp. unfold Py.strip in Hp.
      apply after_first_rstrip, after_first_lstrip in Hp as [rest ->].
      cbn [ps_type ps_items ps_additionalProperties].
      apply (IH (MkParamSchema t i a (Some (Py.strip rest)))).
    + apply (IH (MkParamSchema t i a d)).
Qed.

Lemma schema_of_basic t json :
  In (t, json) basic_types -> schema_of_hint t = inr (schema_of_type json).
Proof.
  cbn. intros [H|[H|[H|[H|[]]]]]; injection H as <- <-; reflexivity.
Qed.


Lemma schema_names_cons_self p ps :
  p_name p = "self" -> schema_names (p :: ps) = schema_names ps.
Proof.
  intros H. unfold schema_names. cbn [map]. rewrite filter_cons, decide_False; auto.
Qed.

Lemma schema_names_cons_other p ps :
  p_name p ≠ "self" -> schema_names (p :: ps) = p_name p :: schema_names ps.
Proof.
  intros H. unfold schema_names. cbn [map]. rewrite filter_cons, decide_True; auto.
Qed.

Lemma schema_names_In k ps : In k (schema_names ps) -> In k (map p_name ps).
Proof.
  unfold schema_names. rewrite <- !list_elem_of_In, list_elem_of_filter. tauto.
Qed.

(** The loop of the schema builder on parameters that are all annotated with
    basic types and have no default. *)
Lemma parameters_loop_basic doc ps :
  forall props req,
    NoDup (map p_name ps) ->
    Forall (fun p => p_default p = None
                     /\ exists t json, p_annotation p = Some t /\ In (t, json) basic_types) ps ->
    (forall k, In k (schema_names ps) -> Py.dict_get props k = None) ->
    exists props',
      parameters_loop cleandoc doc ps props req
      = inr {| schema_type := Some "object"; properties := Some props';
               required := Some (req ++ schema_names ps) |}
      /\ map fst props' = map fst props ++ schema_names ps
      /\ (forall k, ~ In k (schema_names ps) -> Py.dict_get props' k = Py.dict_get props k)
      /\ Forall (fun p =>
                   p_name p ≠ "self" ->
                   forall t json, p_annotation p = Some t -> In (t, json) basic_types ->
                   exists d, Py.dict_get props' (p_name p)
                             = Some (MkParamSchema json None None d)) ps.
Proof.
  induction ps as [|p ps IH]; intros props req Hnd Hall Hfresh.
  - exists props. cbn [parameters_loop]. unfold schema_names. cbn.
    rewrite !app_nil_r. repeat split; auto.
  - apply NoDup_cons in Hnd as [Hp Hnd]. apply Forall_cons in Hall as [Hbasic Hall].
    cbn [parameters_loop]. destruct (decide (p_name p = "self")) as [Hself|Hself].
    + rewrite (schema_names_cons_self _ _ Hself) in *.
      destruct (IH props req Hnd Hall Hfresh) as (props' & H1 & H2 & H3 & H4).
      exists props'. repeat split; auto. constructor; [contradiction | exact H4].
    + rewrite (schema_names_cons_other _ _ Hself) in *.
      destruct Hbasic as (Hdef & t0 & json0 & Hann & Hin).
      rewrite Hann. change (default Parameter_empty (Some t0)) with t0.
      rewrite (schema_of_basic _ _ Hin).
      assert (exists d,
                 match truthy_doc doc with
                 | Some d => describe (Py.split Py.newline (cleandoc d)) (p_name p)
                                      (schema_of_type json0)
                 | None => inr (schema_of_type json0)
                 end = inr (MkParamSchema json0 None None d)) as [d ->].
      { destruct (truthy_doc doc); [apply describe_ok | eauto]. }
      rewrite Hdef.
      set (schema := MkParamSchema json0 None None d).
      assert (Hnew : Py.dict_get props (p_name p) = None) by (apply Hfresh; now left).
      destruct (IH (Py.dict_set props (p_name p) schema) (req ++ [p_name p]) Hnd Hall)
        as (props' & H1 & H2 & H3 & H4).
      { intros k Hk. rewrite dict_get_set_ne.
        - apply Hfresh. now right.
        - intros E. apply Hp. rewrite E, list_elem_of_In.
          exact (schema_names_In _ _ Hk). }
      exists props'. split; [|split; [|split]].
      * rewrite H1, <- app_assoc. reflexivity.
      * rewrite H2, (dict_set_keys_fresh _ _ _ Hnew), <- app_assoc. reflexivity.
      * intros k Hk. rewrite H3 by (intros H; apply Hk; now right).
        apply dict_get_set_ne. intros E. apply Hk. now left.
      * constructor; [|exact H4].
        intros _ t json Ht Hin'. exists d.
        rewrite H3, dict_get_set_eq.
        2:{ intros H. apply Hp. rewrite list_elem_of_In. exact (schema_names_In _ _ H). }
        rewrite Hann in Ht. injection Ht as <-.
        pose proof (schema_of_basic _ _ Hin) as E1.
        pose proof (schema_of_basic _ _ Hin') as E2.
        rewrite E1 in E2. injection E2 as ->. reflexivity.
Qed.

(** Whenever the schema builder returns, [required] lists, in order, the
    parameters other than [self] that have no default. *)
Lemma parameters_loop_required doc ps :
  forall props req schema,
    parameters_loop cleandoc doc ps props req = inr schema ->
    required schema
    = Some (req ++ map p_name
                     (filter (fun p => p_name p ≠ "self" /\ p_default p = None) ps)).
Proof.
  induction ps as [|p ps IH]; intros props req schema; cbn [parameters_loop].
  - intros H. injection H as <-. cbn. now rewrite app_nil_r.
  - rewrite filter_cons. destruct (decide (p_name p = "self")) as [Hself|Hself].
    + rewrite decide_False by tauto. apply IH.
    + destruct (schema_of_hint _) as [e|s]; [discriminate|].
      destruct (match truthy_doc doc with Some _ => _ | None => _ end) as [e|s'];
        [discriminate|].
      intros H. apply IH in H. rewrite H.
      destruct (p_default p) as [d|].
      * rewrite decide_False by (intros [_ ?]; discriminate). reflexivity.
      * rewrite decide_True by tauto. cbn [map]. rewrite <- app_assoc. reflexivity.
Qed.



End ToolFacts.



(** C7, an instance: [echo(text)] with a schema for [a] alone. *)
Lemma C7_witness :
  (exists e, Tool__init__ "echo" "" schema_a_only echo = inl e)
  <-> (~ schema_params schema_a_only ⊆ param_names (fn_signature echo)
       \/ (~ param_names (fn_signature echo) ⊆ schema_params schema_a_only
           /\ has_var_keyword (fn_signature echo) = false)).
Proof.
  refine (proj1 (C7_tool_construction id "echo" "" schema_a_only echo _)).
  intros _. vm_compute. reflexivity.
Defined.

(** C7, the claim as written fails: [echo] has no default for [text],
    yet a schema that lists [text] as optional constructs and registers. *)
Lemma C7_required_split_is_not_checked :
  Tool__init__ "echo" "" echo_schema_all_optional echo
  = inr {| name := "echo"; description := "";
           parameters := echo_schema_all_optional; func := echo |}
  /\ map p_default (sig_parameters (fn_signature echo)) = [None]
  /\ required echo_schema_all_optional = Some []
  /\ registered (register id ∅ (inr (echo, None, None, Some echo_schema_all_optional)))
                "echo"
     = Some {| name := "echo"; description := "";
               parameters := echo_schema_all_optional; func := echo |}.
Proof. vm_compute. repeat split. Qed.

(** The text of the signature of [def pad(a, b='**')]. *)
Example pad_signature_text : Signature_str (fn_signature pad) = "(a, b='**')".
Proof. reflexivity. Qed.


(** ** The aggregator *)

Example busy_is_work :
  _categorize_activity Py.lower ActivityTracker__init__ (busy_entry (at_9 0 0))
  = (WORK, Py.true_div 8 26)
  /\ categorize_activity Py.lower busy_text "" "" = ("work", Py.true_div 8 26).
Proof. vm_compute. auto. Qed.

(** C3, at the failing input: seven entries, all of category work.  The
    tracker divides by the floored minutes (1 minute = 60 s) instead of the 70
    seconds tracked and reports 116 percent, where the claimed formula gives
    100; the sibling [generate_activity_summary], which keeps the unfloored
    total, reports 100 for the same log.  With five entries the floored total
    is 0 and the tracker reports 0 percent, where the claim gives 100. *)
Theorem C3_percentage_of_seven_work_entries :
  let seven := replicate 7 (busy_entry (at_9 0 0)) in
  let five := replicate 5 (busy_entry (at_9 0 0)) in
  _calculate_total_minutes seven = 1
  /\ work_share (_calculate_time_distribution seven (_calculate_total_minutes seven))
     = Some {| minutes := 1; percentage := 116 |}
  /\ claimed_percentage (10 * 7) (10 * 7) = 100
  /\ improved_work_share
       (generate_activity_summary Py.lower "2024-01-15" (replicate 7 busy_record))
     = Some {| minutes := 1; percentage := 100 |}
  /\ work_share (_calculate_time_distribution five (_calculate_total_minutes five))
     = Some {| minutes := 0; percentage := 0 |}
  /\ claimed_percentage (10 * 5) (10 * 5) = 100.
Proof. vm_compute. repeat split. Qed.

(** ** Persistence *)

Section PersistenceFacts.

Context {datetime : Type}.
Variable isoformat : datetime -> string.
Variable fromisoformat : string -> option datetime.

Lemma ActivityCategory_of_value_value c : ActivityCategory_of_value (value c) = Some c.
Proof. destruct c; reflexivity. Qed.

Lemma load_entry_entry_data (e : ActivityEntry datetime) :
  fromisoformat (isoformat (timestamp e)) = Some (timestamp e) ->
  load_entry fromisoformat (entry_data isoformat e) = inr e.
Proof.
  intros H. unfold load_entry, entry_data, item.
  cbn [d_timestamp d_app_name d_window_title d_content_summary d_user_activity
       d_category d_confidence].
  rewrite H, ActivityCategory_of_value_value. destruct e; reflexivity.
Qed.

Lemma load_entries_app entries (loaded : list (ActivityEntry datetime)) acc kw rest :
  Forall2 (fun d e => load_entry fromisoformat d = inr e) entries loaded ->
  load_entries fromisoformat (entries ++ rest)
    {| activity_log := acc; category_keywords := kw |}
  = load_entries fromisoformat rest
      {| activity_log := acc ++ loaded; category_keywords := kw |}.
Proof.
  intros H. revert acc. induction H as [|d e ds es Hd _ IH]; intros acc.
  - now rewrite app_nil_r.
  - rewrite <- app_comm_cons. cbn [load_entries]. rewrite Hd.
    cbn [activity_log category_keywords]. rewrite IH, <- app_assoc. reflexivity.
Qed.

(** C9. Saving a log and loading the file again gives back the same
    entries in the same order, field by field, provided each timestamp
    survives [isoformat] followed by [fromisoformat]. *)
Theorem C9_save_load_roundtrip (saver loader : ActivityTracker datetime)
    (filename : string) (fs : gmap string FileContent) :
  Forall (fun e => fromisoformat (isoformat (timestamp e)) = Some (timestamp e))
         (activity_log saver) ->
  load_from_file fromisoformat loader filename (save_to_file isoformat saver filename fs)
  = ({| activity_log := activity_log saver;
        category_keywords := category_keywords loader |}, None).
Proof.
  intros H. unfold load_from_file, save_to_file. rewrite lookup_insert_eq.
  cbn [d_activities default]. unfold id.
  rewrite <- (app_nil_r (map _ _)).
  rewrite (load_entries_app _ (activity_log saver) [] _ []).
  - reflexivity.
  - induction H as [|e es He _ IH]; constructor; auto using load_entry_entry_data.
Qed.


Lemma load_entry_well_formed (d : EntryData) :
  well_formed_entry fromisoformat d = true
  <-> exists e, load_entry fromisoformat d = inr e.
Proof.
  unfold well_formed_entry, load_entry, item.
  destruct (d_timestamp d) as [ts|]; [|split; [discriminate | intros [? ?]; discriminate]].
  destruct (fromisoformat ts) as [t|] eqn:Hts.
  2:{ split; [|intros [? ?]; discriminate]. intros H. exfalso.
      destruct (d_app_name d), (d_window_title d), (d_content_summary d),
        (d_user_activity d), (d_category d); discriminate H. }
  destruct (d_app_name d); [|split; [discriminate | intros [? ?]; discriminate]].
  destruct (d_window_title d); [|split; [discriminate | intros [? ?]; discriminate]].
  destruct (d_content_summary d); [|split; [discriminate | intros [? ?]; discriminate]].
  destruct (d_user_activity d); [|split; [discriminate | intros [? ?]; discriminate]].
  destruct (d_category d) as [c|]; [|split; [discriminate | intros [? ?]; discriminate]].
  rewrite bool_decide_eq_true_2 by eauto. cbn [andb].
  destruct (ActivityCategory_of_value c) as [cat|].
  - rewrite bool_decide_eq_true_2 by eauto. split; eauto.
  - rewrite bool_decide_eq_false_2 by (intros [? ?]; discriminate).
    split; [discriminate | intros [? ?]; discriminate].
Qed.

Lemma load_well_formed_prefix (entries : list EntryData) :
  Forall (fun d => well_formed_entry fromisoformat d = true) entries ->
  exists loaded, Forall2 (fun d e => load_entry fromisoformat d = inr e) entries loaded.
Proof.
  induction 1 as [|d ds Hd _ [loaded IH]]; [exists []; constructor|].
  apply load_entry_well_formed in Hd as [e He]. exists (e :: loaded). now constructor.
Qed.

(** C6 (as the code has it). When the entries of a file are well formed
    up to an entry that is malformed (a required key missing, a timestamp
    that does not read, or a category that is none of the four values),
    loading raises at that entry; the previous log is gone and the log holds
    exactly the entries that precede the malformed one.  A file whose entries
    are all well formed loads them all and raises nothing. *)
Theorem C6_load_stops_at_first_malformed (loader : ActivityTracker datetime)
    (filename : string) (fs : gmap string FileContent)
    (before after : list EntryData) (bad : EntryData) :
  fs !! filename = Some (JsonFile {| d_activities := Some (before ++ bad :: after) |}) ->
  Forall (fun d => well_formed_entry fromisoformat d = true) before ->
  well_formed_entry fromisoformat bad = false ->
  (exists exn loaded,
      load_from_file fromisoformat loader filename fs
      = ({| activity_log := loaded; category_keywords := category_keywords loader |},
         Some exn)
      /\ Forall2 (fun d e => load_entry fromisoformat d = inr e) before loaded)
  /\ (forall entries,
        Forall (fun d => well_formed_entry fromisoformat d = true) entries ->
        exists loaded,
          load_from_file fromisoformat loader filename
            (<[filename := JsonFile {| d_activities := Some entries |}]> fs)
          = ({| activity_log := loaded; category_keywords := category_keywords loader |},
             None)
          /\ Forall2 (fun d e => load_entry fromisoformat d = inr e) entries loaded).
Proof.
  intros Hfile Hbefore Hbad. split.
  - destruct (load_well_formed_prefix before Hbefore) as [loaded Hloaded].
    destruct (load_entry fromisoformat bad) as [exn|e] eqn:Hb.
    2:{ assert (well_formed_entry fromisoformat bad = true)
          by (apply load_entry_well_formed; eauto). congruence. }
    exists exn, loaded. split; [|exact Hloaded].
    unfold load_from_file. rewrite Hfile. cbn [d_activities default]. unfold id.
    rewrite (load_entries_app _ loaded [] _ _ Hloaded).
    cbn [load_entries app]. rewrite Hb. reflexivity.
  - intros entries Hall.
    destruct (load_well_formed_prefix entries Hall) as [loaded Hloaded].
    exists loaded. split; [|exact Hloaded].
    unfold load_from_file. rewrite lookup_insert_eq. cbn [d_activities default]. unfold id.
    rewrite <- (app_nil_r entries).
    rewrite (load_entries_app _ loaded [] _ [] Hloaded). reflexivity.
Qed.

End PersistenceFacts.


(** C9, an instance: a log of two entries with naive timestamps. *)
Lemma C9_witness :
  load_from_file Datetime.fromisoformat old_tracker "log.json"
    (save_to_file Datetime.isoformat
       {| activity_log := [sample (at_9 0 0) WORK; sample (at_9 0 10) BREAKS];
          category_keywords := [] |}
       "log.json" ∅)
  = ({| activity_log := [sample (at_9 0 0) WORK; sample (at_9 0 10) BREAKS];
        category_keywords := category_keywords old_tracker |}, None).
Proof.
  apply (C9_save_load_roundtrip Datetime.isoformat Datetime.fromisoformat).
  repeat (constructor; [vm_compute; reflexivity|]). constructor.
Defined.

(** C6, an instance: the second of three entries lacks ["app_name"]. *)
Lemma C6_witness :
  exists exn loaded,
    load_from_file Datetime.fromisoformat old_tracker "log.json"
      {[ "log.json" := broken_file ]}
    = ({| activity_log := loaded;
          category_keywords := category_keywords old_tracker |}, Some exn)
    /\ Forall2 (fun d e => load_entry Datetime.fromisoformat d = inr e)
               [entry_data Datetime.isoformat (sample (at_9 1 0) WORK)] loaded.
Proof.
  refine (proj1 (C6_load_stops_at_first_malformed Datetime.fromisoformat old_tracker
                   "log.json" {[ "log.json" := broken_file ]}
                   [entry_data Datetime.isoformat (sample (at_9 1 0) WORK)]
                   [entry_data Datetime.isoformat (sample (at_9 1 20) BREAKS)]
                   no_app_name _ _ _)).
  - vm_compute. reflexivity.
  - repeat (constructor; [vm_compute; reflexivity|]). constructor.
  - vm_compute. reflexivity.
Defined.

(** C6, the claim as written fails: loading a file whose second entry
    lacks ["app_name"] raises [KeyError], and the tracker, which held one
    entry before, is left holding the first entry of the file and no other: a
    partial subset of the file's three entries. *)
Lemma C6_partial_log_after_failed_load :
  load_from_file Datetime.fromisoformat old_tracker "log.json"
    {[ "log.json" := broken_file ]}
  = ({| activity_log := [sample (at_9 1 0) WORK];
        category_keywords := category_keywords old_tracker |},
     Some (Py.KeyError "app_name")).
Proof. vm_compute. reflexivity. Qed.

(** ** The productivity score *)

Lemma all_from_spec f n : forall lo,
  all_from f lo n = true -> forall z, lo <= z < lo + Z.of_nat n -> f z = true.
Proof.
  induction n as [|n IH]; intros lo H z Hz; [lia|].
  cbn [all_from] in H. apply andb_true_iff in H as [H0 H1].
  destruct (Z.eq_dec z lo) as [->|Hne]; [exact H0|].
  apply (IH (lo + 1) H1). lia.
Qed.

(** Every pair [0 <= part <= whole], [1 <= whole <= 1440] gets the floored
    percentage, one less at the three percentages of [rounds_down]: checked by
    evaluation. *)
Lemma float_percentage_1440 :
  all_from (fun whole =>
              all_from (fun part =>
                          float_percentage part whole
                          =? 100 * part / whole - (if rounds_down part whole then 1 else 0))
                       0 (Z.to_nat (whole + 1)))
           1 1440 = true.
Proof. vm_compute. reflexivity. Qed.

Lemma float_percentage_bounded part whole :
  0 < whole <= 1440 -> 0 <= part <= whole ->
  float_percentage part whole
  = 100 * part / whole - (if rounds_down part whole then 1 else 0).
Proof.
  intros Hw Hp.
  pose proof (all_from_spec _ _ _ float_percentage_1440 whole ltac:(lia)) as H1.
  pose proof (all_from_spec _ _ _ H1 part ltac:(lia)) as H2.
  apply Z.eqb_eq, H2.
Qed.

Example twelve_summary_is_the_summary :
  get_summary Datetime.le "2024-01-15" (mixed_log 6 3 3) None None = inr twelve_summary.
Proof. vm_compute. reflexivity. Qed.


(** * Further properties of the modelled code *)

#[local] Set Warnings "-clear-no-such-hyp".

(** ** The classifier *)

Ltac unpack_bools :=
  repeat match goal with
         | E : _ && _ = true |- _ => apply andb_true_iff in E as [? ?]
         | E : negb _ = true |- _ => apply negb_true_iff in E
         | E : (_ <=? _) = true |- _ => apply Z.leb_le in E
         | E : (_ <? _) = true |- _ => apply Z.ltb_lt in E
         end.

Lemma keyword_sum_le text keywords : keyword_sum text keywords <= Py.len keywords.
Proof.
  unfold keyword_sum, Py.len. induction keywords as [|kw kws IH]; [cbn; lia|].
  rewrite filter_cons. destruct (decide (Py.contains kw text = true)); cbn [map foldr length];
    lia.
Qed.

(** All score triples that the three keyword tables allow, checked by
    evaluation. *)
Lemma decision_ok_all :
  all_from (fun sw => all_from (fun sc => all_from (fun sb => decision_ok sw sc sb) 0 19)
                               0 23) 0 27 = true.
Proof. vm_compute. reflexivity. Qed.

Lemma decision_ok_scores text :
  decision_ok (keyword_sum text WORK_KEYWORDS) (keyword_sum text COMMUNICATION_KEYWORDS)
              (keyword_sum text BREAKS_KEYWORDS) = true.
Proof.
  pose proof (keyword_sum_nonneg text WORK_KEYWORDS) as Hw0.
  pose proof (keyword_sum_nonneg text COMMUNICATION_KEYWORDS) as Hc0.
  pose proof (keyword_sum_nonneg text BREAKS_KEYWORDS) as Hb0.
  pose proof (keyword_sum_le text WORK_KEYWORDS) as Hw.
  pose proof (keyword_sum_le text COMMUNICATION_KEYWORDS) as Hc.
  pose proof (keyword_sum_le text BREAKS_KEYWORDS) as Hb.
  change (Py.len WORK_KEYWORDS) with 26 in Hw.
  change (Py.len COMMUNICATION_KEYWORDS) with 22 in Hc.
  change (Py.len BREAKS_KEYWORDS) with 18 in Hb.
  pose proof (all_from_spec _ _ _ decision_ok_all (keyword_sum text WORK_KEYWORDS)
                ltac:(lia)) as A1.
  pose proof (all_from_spec _ _ _ A1 (keyword_sum text COMMUNICATION_KEYWORDS)
                ltac:(lia)) as A2.
  exact (all_from_spec _ _ _ A2 (keyword_sum text BREAKS_KEYWORDS) ltac:(lia)).
Qed.

(** X1. For a tracker with the keyword table of [__init__], the
    classifier returns a confidence between 0.0 and 1.0; the category is
    uncategorized exactly when that confidence is below 0.3; and a category
    is assigned only from enough matches: at least 8 work keywords, 7
    communication keywords or 6 break keywords. *)
Theorem X1_confidence_range_and_threshold (datetime : Type) (lower : string -> string)
    (log : list (ActivityEntry datetime)) (entry : ActivityEntry datetime) :
  let self := {| activity_log := log;
                 category_keywords :=
                   category_keywords (@ActivityTracker__init__ datetime) |} in
  let text := lower (user_activity entry +:+ " " +:+ content_summary entry
                     +:+ " " +:+ window_title entry) in
  let r := _categorize_activity lower self entry in
  PrimFloat.leb 0%float (snd r) = true
  /\ PrimFloat.leb (snd r) 1%float = true
  /\ (fst r = UNCATEGORIZED <-> PrimFloat.ltb (snd r) confidence_threshold = true)
  /\ (fst r = WORK -> 8 <= keyword_score text WORK_KEYWORDS)
  /\ (fst r = COMMUNICATION -> 7 <= keyword_score text COMMUNICATION_KEYWORDS)
  /\ (fst r = BREAKS -> 6 <= keyword_score text BREAKS_KEYWORDS).
Proof.
  intros self text r. subst r self. rewrite tracker_by_scores. fold text.
  rewrite !keyword_score_sum.
  pose proof (decision_ok_scores text) as H. unfold decision_ok in H.
  destruct (decide_by_scores _ _ _) as [c conf]. cbn [fst snd] in *.
  destruct c; unpack_bools; repeat split; intros; try congruence; try discriminate;
    try lia; auto.
Qed.

(** X2. The category that wins has the highest score, and ties go to the
    category listed first (work, then communication, then breaks); a text
    that holds no keyword at all is uncategorized with confidence 0.0. *)
Theorem X2_winner_and_ties (datetime : Type) (lower : string -> string)
    (log : list (ActivityEntry datetime)) (entry : ActivityEntry datetime) :
  let self := {| activity_log := log;
                 category_keywords :=
                   category_keywords (@ActivityTracker__init__ datetime) |} in
  let text := lower (user_activity entry +:+ " " +:+ content_summary entry
                     +:+ " " +:+ window_title entry) in
  let sw := keyword_score text WORK_KEYWORDS in
  let sc := keyword_score text COMMUNICATION_KEYWORDS in
  let sb := keyword_score text BREAKS_KEYWORDS in
  let r := _categorize_activity lower self entry in
  (fst r = WORK -> sc <= sw /\ sb <= sw)
  /\ (fst r = COMMUNICATION -> sw < sc /\ sb <= sc)
  /\ (fst r = BREAKS -> sw < sb /\ sc < sb)
  /\ (sw = 0 -> sc = 0 -> sb = 0 -> r = (UNCATEGORIZED, 0%float)).
Proof.
  intros self text sw sc sb r. subst r self sw sc sb. rewrite tracker_by_scores. fold text.
  rewrite !keyword_score_sum.
  pose proof (decision_ok_scores text) as H. unfold decision_ok in H.
  split; [|split; [|split]].
  4:{ intros -> -> ->. vm_compute. reflexivity. }
  all: destruct (decide_by_scores _ _ _) as [c conf]; cbn [fst snd] in *;
    destruct c; unpack_bools; intros; try discriminate; lia.
Qed.

(** ** The aggregator *)

Lemma total_minutes_checked :
  all_from (fun n =>
              Py.int_of_float (PrimFloat.mul (Py.float_of_int n)
                                             (Py.true_div SNAPSHOT_INTERVAL 60))
              =? n / 6)
           0 (Z.to_nat 100001) = true.
Proof. vm_compute. reflexivity. Qed.

(** X3. For a list of up to 100000 entries the total tracked minutes,
    computed in floating point as [int(len * (10 / 60))], are exactly
    [floor(len * 10 / 60)], that is [len // 6]. *)
Theorem X3_total_minutes {datetime : Type} (activities : list (ActivityEntry datetime)) :
  Py.len activities <= 100000 ->
  _calculate_total_minutes activities = Py.len activities * 10 / 60
  /\ _calculate_total_minutes activities = Py.len activities / 6.
Proof.
  intros Hn.
  assert (Hsix : Py.len activities * 10 / 60 = Py.len activities / 6).
  { replace 60 with (10 * 6) by reflexivity.
    rewrite (Z.mul_comm (Py.len activities)), Z.div_mul_cancel_l by lia. reflexivity. }
  rewrite Hsix. split; [|].
  all: unfold _calculate_total_minutes; destruct activities as [|e rest]; [reflexivity|];
    apply Z.eqb_eq;
    apply (all_from_spec _ _ _ total_minutes_checked (Py.len (e :: rest)));
    unfold Py.len in *; lia.
Qed.

Lemma by_category_get {V} (f : ActivityCategory -> V) k :
  Py.dict_get (by_category f) k = Some (f k).
Proof. destruct k; reflexivity. Qed.

Lemma by_category_set {V} (f : ActivityCategory -> V) k v :
  Py.dict_set (by_category f) k v = by_category (fun c => if decide (c = k) then v else f c).
Proof. destruct k; reflexivity. Qed.

Lemma by_category_ext {V} (f g : ActivityCategory -> V) :
  (forall c, f c = g c) -> by_category f = by_category g.
Proof. intros H. unfold by_category. cbn. now rewrite !H. Qed.

Lemma of_category_cons {datetime} c (e : ActivityEntry datetime) rest :
  of_category c (e :: rest)
  = if decide (category e = c) then e :: of_category c rest else of_category c rest.
Proof. unfold of_category. now rewrite filter_cons. Qed.

(** The first loop of [_calculate_time_distribution]: every entry adds ten
    seconds to its category. *)
Lemma category_times_fold {datetime} (activities : list (ActivityEntry datetime)) :
  forall f,
    fold_left (fun category_times entry =>
                 Py.dict_set category_times (category entry)
                   (default 0 (Py.dict_get category_times (category entry))
                    + SNAPSHOT_INTERVAL))
              activities (by_category f)
    = by_category (fun c => f c + 10 * Py.len (of_category c activities)).
Proof.
  induction activities as [|e rest IH]; intros f; cbn [fold_left].
  - apply by_category_ext. intros c. unfold of_category, Py.len. cbn. lia.
  - rewrite by_category_get, by_category_set, IH. apply by_category_ext. intros c.
    rewrite of_category_cons. unfold SNAPSHOT_INTERVAL, Py.len. cbn [default].
    destruct (decide (c = category e)) as [->|Hne].
    + rewrite decide_True by reflexivity. cbn [length]. unfold id. lia.
    + rewrite decide_False by congruence. lia.
Qed.

Lemma four_keys {V} (a b c d : V) :
  Py.dict_set (Py.dict_set (Py.dict_set (Py.dict_set [] "work" a) "communication" b)
                           "breaks" c) "uncategorized" d
  = [("work", a); ("communication", b); ("breaks", c); ("uncategorized", d)].
Proof. reflexivity. Qed.

(** X4. The time distribution always has the four category keys, in the
    order work, communication, breaks, uncategorized; the minutes of a
    category are [floor(10 * n / 60)] for its [n] entries; and when the total
    minutes passed in are 0 every percentage is 0. *)
Theorem X4_time_distribution_minutes {datetime : Type}
    (activities : list (ActivityEntry datetime)) (total_minutes : Z) :
  let distribution := _calculate_time_distribution activities total_minutes in
  map fst distribution = map value ActivityCategory_members
  /\ (forall c, minutes <$> Py.dict_get distribution (value c)
                = Some (10 * Py.len (of_category c activities) / 60))
  /\ (total_minutes <= 0 ->
      forall c, percentage <$> Py.dict_get distribution (value c) = Some 0).
Proof.
  intros distribution. subst distribution. unfold _calculate_time_distribution.
  change (map (fun c => (c, 0)) ActivityCategory_members)
    with (by_category (fun _ : ActivityCategory => 0)).
  rewrite category_times_fold.
  unfold by_category. cbn [map ActivityCategory_members fold_left fst snd value].
  rewrite four_keys. split; [reflexivity|]. split.
  - intros c. destruct c; reflexivity.
  - intros Hz c. replace (0 <? total_minutes) with false by (symmetry; apply Z.ltb_ge; lia).
    destruct c; reflexivity.
Qed.

(** X3, an instance: seven entries make one minute. *)
Lemma X3_witness :
  _calculate_total_minutes (replicate 7 (busy_entry (at_9 0 0)))
  = Py.len (replicate 7 (busy_entry (at_9 0 0))) / 6.
Proof.
  refine (proj2 (X3_total_minutes (replicate 7 (busy_entry (at_9 0 0))) _)).
  vm_compute. discriminate.
Defined.

(** X5. Each category's group is the sub-sequence of the entries of that
    category, in log order; together the four groups hold every entry once. *)
Theorem X5_group_by_category {datetime : Type} (activities : list (ActivityEntry datetime)) :
  map fst (_group_by_category activities) = ActivityCategory_members
  /\ (forall c, Py.dict_get (_group_by_category activities) c
                = Some (of_category c activities))
  /\ Py.len activities
     = Py.len (of_category WORK activities) + Py.len (of_category COMMUNICATION activities)
       + Py.len (of_category BREAKS activities)
       + Py.len (of_category UNCATEGORIZED activities).
Proof.
  assert (Hfold : forall acts f,
             fold_left (fun grouped (entry : ActivityEntry datetime) =>
                          Py.dict_set grouped (category entry)
                            (default [] (Py.dict_get grouped (category entry)) ++ [entry]))
                       acts (by_category f)
             = by_category (fun c => f c ++ of_category c acts)).
  { induction acts as [|e rest IH]; intros f; cbn [fold_left].
    - apply by_category_ext. intros c. unfold of_category. cbn. now rewrite app_nil_r.
    - rewrite by_category_get, by_category_set, IH. apply by_category_ext. intros c.
      rewrite of_category_cons. cbn [default]. unfold id.
      destruct (decide (c = category e)) as [->|Hne].
      + rewrite decide_True by reflexivity. now rewrite <- app_assoc.
      + rewrite decide_False by congruence. reflexivity. }
  unfold _group_by_category.
  change (map (fun c => (c, [])) ActivityCategory_members)
    with (by_category (fun _ : ActivityCategory => @nil (ActivityEntry datetime))).
  rewrite Hfold. split; [reflexivity|]. split.
  - intros c. rewrite by_category_get. reflexivity.
  - unfold Py.len. induction activities as [|e rest IH]; [reflexivity|].
    rewrite !of_category_cons.
    destruct (category e); repeat case_decide; try congruence; cbn [length] in *; lia.
Qed.

(** [get_summary] with both bounds given. *)
Lemma filter_with_bounds {datetime} dt_le (self : ActivityTracker datetime) s e :
  _filter_activities_by_time dt_le self (Some s) (Some e)
  = inr (filter (fun entry => dt_le s (timestamp entry) = true
                              /\ dt_le (timestamp entry) e = true)
                (activity_log self)).
Proof. reflexivity. Qed.

Lemma filter_never_raises {datetime} dt_le (self : ActivityTracker datetime) s e :
  activity_log self <> [] ->
  exists kept, _filter_activities_by_time dt_le self s e = inr kept.
Proof.
  intros Hne. unfold _filter_activities_by_time.
  destruct (activity_log self) as [|x l] eqn:Hlog; [contradiction|].
  assert (Hlast : exists y, last (x :: l) = Some y).
  { destruct (last (x :: l)) as [y|] eqn:Hl; [eauto|].
    apply last_None in Hl. discriminate. }
  destruct Hlast as [y Hy]. rewrite Hy. cbn [head fmap option_fmap option_map].
  destruct s, e; eauto.
Qed.


Lemma dict_set_keys_present {K V} `{EqDecision K} (d : list (K * V)) k v :
  In k (map fst d) -> map fst (Py.dict_set d k v) = map fst d.
Proof.
  induction d as [|[k' v'] d IH]; cbn; [tauto|].
  destruct (decide (k' = k)) as [->|Hne]; [reflexivity|].
  intros [H|H]; [contradiction|]. cbn. now rewrite IH.
Qed.

Lemma dict_set_NoDup {K V} `{EqDecision K} (d : list (K * V)) k v :
  NoDup (map fst d) -> NoDup (map fst (Py.dict_set d k v)).
Proof.
  intros Hnd. destruct (In_dec (fun a b => decide (a = b)) k (map fst d)) as [Hin|Hout].
  - now rewrite dict_set_keys_present.
  - rewrite dict_set_keys_fresh by now apply dict_get_None_keys.
    apply NoDup_app. repeat split; [exact Hnd | | apply NoDup_singleton].
    intros x Hx Hx'. apply list_elem_of_singleton in Hx'. subst x.
    apply Hout. now apply list_elem_of_In.
Qed.

Lemma dict_get_In {K V} `{EqDecision K} (d : list (K * V)) k v :
  NoDup (map fst d) -> In (k, v) d -> Py.dict_get d k = Some v.
Proof.
  induction d as [|[k' v'] d IH]; cbn; [tauto|].
  intros Hnd [H|H].
  - injection H as -> ->. now rewrite decide_True.
  - apply NoDup_cons in Hnd as [Hk Hnd].
    destruct (decide (k' = k)) as [->|Hne]; [|auto].
    exfalso. apply Hk. apply list_elem_of_In. change k with (fst (k, v)). now apply in_map.
Qed.

Lemma of_app_cons {datetime} a (e : ActivityEntry datetime) rest :
  of_app a (e :: rest)
  = if decide (app_name e = a) then e :: of_app a rest else of_app a rest.
Proof. unfold of_app. now rewrite filter_cons. Qed.

(** The loop of [_calculate_apps_used]: keys stay distinct, and every entry
    adds ten seconds to its application. *)
Lemma app_times_fold {datetime} (activities : list (ActivityEntry datetime)) :
  forall d,
    NoDup (map fst d) ->
    let d' := fold_left (fun app_times entry =>
                           Py.dict_set app_times (app_name entry)
                             (default 0 (Py.dict_get app_times (app_name entry))
                              + SNAPSHOT_INTERVAL))
                        activities d in
    NoDup (map fst d')
    /\ forall a, Py.dict_get d' a
                 = match of_app a activities with
                   | [] => Py.dict_get d a
                   | _ => Some (default 0 (Py.dict_get d a)
                                + 10 * Py.len (of_app a activities))
                   end.
Proof.
  induction activities as [|e rest IH]; intros d Hnd; cbn [fold_left].
  - split; [exact Hnd | reflexivity].
  - set (d1 := Py.dict_set d (app_name e) _).
    destruct (IH d1 (dict_set_NoDup _ _ _ Hnd)) as [H1 H2].
    split; [exact H1|]. intros a. rewrite H2, of_app_cons. unfold Py.len, SNAPSHOT_INTERVAL.
    destruct (decide (app_name e = a)) as [<-|Hne].
    + subst d1. rewrite dict_get_set_eq.
      destruct (of_app (app_name e) rest);
        unfold default, SNAPSHOT_INTERVAL; cbn [from_option length]; unfold id;
        destruct (Py.dict_get d (app_name e)); f_equal; lia.
    + subst d1. rewrite dict_get_set_ne by exact Hne. reflexivity.
Qed.

Lemma of_app_nil_iff {datetime} a (activities : list (ActivityEntry datetime)) :
  of_app a activities = [] <-> ~ In a (map app_name activities).
Proof.
  induction activities as [|e rest IH]; [cbn; tauto|].
  rewrite of_app_cons. cbn [map In].
  destruct (decide (app_name e = a)) as [E|E].
  - split; [discriminate | intros H; exfalso; apply H; now left].
  - rewrite IH. tauto.
Qed.

(** X7. [apps_used] lists every application of the entries exactly
    once, and nothing else; the minutes of an application are
    [floor(10 * n / 60)] for its [n] entries. *)
Theorem X7_apps_used {datetime : Type} (activities : list (ActivityEntry datetime)) :
  NoDup (map app (_calculate_apps_used activities))
  /\ (forall a, In a (map app (_calculate_apps_used activities))
                <-> In a (map app_name activities))
  /\ (forall u, In u (_calculate_apps_used activities) ->
                app_minutes u = 10 * Py.len (of_app (app u) activities) / 60).
Proof.
  unfold _calculate_apps_used.
  destruct (app_times_fold activities [] (NoDup_nil_2 : NoDup (map fst (@nil (string * Z)))))
    as [Hnd Hget].
  cbv zeta in Hnd, Hget.
  set (d' := fold_left _ activities []) in *.
  assert (Hkeys : map app (map (fun ad => {| app := fst ad; app_minutes := snd ad / 60 |}) d')
                  = map fst d').
  { rewrite map_map. reflexivity. }
  rewrite Hkeys. split; [exact Hnd|]. split.
  - intros a.
    destruct (In_dec (fun x y => decide (x = y)) a (map fst d')) as [Hin|Hout];
      destruct (In_dec (fun x y => decide (x = y)) a (map app_name activities))
        as [Hin'|Hout']; try tauto; exfalso.
    + apply of_app_nil_iff in Hout'. specialize (Hget a). rewrite Hout' in Hget.
      cbn in Hget. apply dict_get_None_keys in Hget. contradiction.
    + apply dict_get_None_keys in Hout. specialize (Hget a). rewrite Hout in Hget.
      destruct (of_app a activities) eqn:E; [|discriminate].
      apply of_app_nil_iff in E. contradiction.
  - intros u Hu. apply in_map_iff in Hu as [[a secs] [<- Hin]]. cbn [app app_minutes fst snd].
    pose proof (dict_get_In _ _ _ Hnd Hin) as Hg. rewrite Hget in Hg.
    destruct (of_app a activities) eqn:E.
    + cbn in Hg. discriminate.
    + cbn [Py.dict_get] in Hg. injection Hg as <-. reflexivity.
Qed.

(** ** Adding and recategorizing entries *)

Lemma recategorize_observation {datetime} lower (self : ActivityTracker datetime) e :
  observation (fst (recategorize lower self e)) = observation e
  /\ (category e <> UNCATEGORIZED -> recategorize lower self e = (e, false))
  /\ (snd (recategorize lower self e) = true -> category e = UNCATEGORIZED).
Proof.
  unfold recategorize. destruct (decide (category e = UNCATEGORIZED)) as [E|E].
  - destruct (_categorize_activity lower self e) as [c conf].
    destruct (PrimFloat.ltb (confidence e) conf); cbn; repeat split; auto; contradiction.
  - cbn. repeat split; auto; discriminate.
Qed.

Lemma recategorized_count {datetime} lower (self : ActivityTracker datetime) log :
  0 <= Py.len (filter (fun r => snd r = true) (map (recategorize lower self) log))
    <= Py.len (of_category UNCATEGORIZED log).
Proof.
  unfold Py.len. induction log as [|e rest IH]; [cbn; lia|].
  cbn [map]. rewrite filter_cons, of_category_cons.
  destruct (recategorize_observation lower self e) as (_ & _ & H).
  destruct (decide (snd (recategorize lower self e) = true)) as [Ht|Ht].
  - rewrite decide_True by auto. cbn [length]. lia.
  - destruct (decide (category e = UNCATEGORIZED)); cbn [length]; lia.
Qed.

(** X8. Recategorization keeps the log in place: the same number of
    entries in the same order, each with its timestamp, application and
    texts; an entry that already has a category is left as it is; the
    keyword table is untouched; and the count it reports is at most the
    number of uncategorized entries, which it reports only when there is
    one. *)
Theorem X8_recategorization_keeps_the_log {datetime : Type} (lower : string -> string)
    (tracker : ActivityTracker datetime) :
  let r := categorize_activities_interactive lower tracker in
  let uncategorized := Py.len (of_category UNCATEGORIZED (activity_log tracker)) in
  map observation (activity_log (fst r)) = map observation (activity_log tracker)
  /\ category_keywords (fst r) = category_keywords tracker
  /\ (forall i e, activity_log tracker !! i = Some e -> category e <> UNCATEGORIZED ->
                  activity_log (fst r) !! i = Some e)
  /\ 0 <= rc_categorized (snd r) <= uncategorized
  /\ rc_total_uncategorized (snd r)
     = (if uncategorized =? 0 then None else Some uncategorized).
Proof.
  intros r uncategorized. subst r uncategorized.
  unfold categorize_activities_interactive.
  change (filter (fun entry : ActivityEntry datetime => category entry = UNCATEGORIZED)
                 (activity_log tracker))
    with (of_category UNCATEGORIZED (activity_log tracker)).
  pose proof (recategorized_count lower tracker (activity_log tracker)) as Hcount.
  destruct (of_category UNCATEGORIZED (activity_log tracker)) as [|u us] eqn:Hu.
  - cbn. repeat split; auto; lia.
  - cbn [fst snd activity_log category_keywords rc_categorized rc_total_uncategorized].
    split; [|split; [reflexivity|split; [|split; [exact Hcount|]]]].
    + rewrite !map_map. apply map_ext. intros e.
      apply (recategorize_observation lower tracker e).
    + intros i e Hi Hc. rewrite !list_lookup_fmap, Hi. cbn.
      now rewrite (proj1 (proj2 (recategorize_observation lower tracker e)) Hc).
    + unfold Py.len. cbn [length]. reflexivity.
Qed.

Lemma categorize_keywords_only {datetime} lower (a b : ActivityTracker datetime) e :
  category_keywords a = category_keywords b ->
  _categorize_activity lower a e = _categorize_activity lower b e.
Proof. intros H. unfold _categorize_activity. now rewrite H. Qed.

Lemma categorize_text_only {datetime} lower (self : ActivityTracker datetime) e e' :
  user_activity e = user_activity e' -> content_summary e = content_summary e' ->
  window_title e = window_title e' ->
  _categorize_activity lower self e = _categorize_activity lower self e'.
Proof. intros H1 H2 H3. unfold _categorize_activity. now rewrite H1, H2, H3. Qed.

Lemma classify_init {datetime} lower (self : ActivityTracker datetime) e :
  category_keywords self = category_keywords (@ActivityTracker__init__ datetime) ->
  let text := lower (user_activity e +:+ " " +:+ content_summary e
                     +:+ " " +:+ window_title e) in
  _categorize_activity lower self e
  = decide_by_scores (keyword_sum text WORK_KEYWORDS)
                     (keyword_sum text COMMUNICATION_KEYWORDS)
                     (keyword_sum text BREAKS_KEYWORDS).
Proof.
  intros Hkw text.
  etransitivity; [|exact (tracker_by_scores lower (activity_log self) e)].
  apply categorize_keywords_only. exact Hkw.
Qed.

Lemma confidence_not_below_itself text :
  let r := decide_by_scores (keyword_sum text WORK_KEYWORDS)
                            (keyword_sum text COMMUNICATION_KEYWORDS)
                            (keyword_sum text BREAKS_KEYWORDS) in
  PrimFloat.ltb (snd r) (snd r) = false.
Proof.
  intros r. pose proof (decision_ok_scores text) as H. unfold decision_ok in H.
  apply andb_true_iff in H as [H _]. apply andb_true_iff in H as [_ H].
  apply negb_true_iff in H. exact H.
Qed.

(** An entry that holds what the classifier says about it is not updated. *)
Lemma recategorize_classified {datetime} lower (self : ActivityTracker datetime) e :
  category_keywords self = category_keywords (@ActivityTracker__init__ datetime) ->
  (category e, confidence e) = _categorize_activity lower self e ->
  recategorize lower self e = (e, false).
Proof.
  intros Hkw Hc. unfold recategorize.
  destruct (decide (category e = UNCATEGORIZED)); [|reflexivity].
  rewrite <- Hc.
  replace (PrimFloat.ltb (confidence e) (confidence e)) with false; [reflexivity|].
  rewrite (classify_init lower self e Hkw) in Hc. cbv zeta in Hc.
  pose proof (confidence_not_below_itself
                (lower (user_activity e +:+ " " +:+ content_summary e
                        +:+ " " +:+ window_title e))) as H.
  cbv zeta in H. rewrite <- Hc in H. cbn [snd] in H. now rewrite H.
Qed.

Lemma add_activities_log {datetime} lower
    (calls : list (datetime * string * string * string * string)) :
  forall self : ActivityTracker datetime,
    category_keywords self = category_keywords (@ActivityTracker__init__ datetime) ->
    Forall (fun e => (category e, confidence e) = _categorize_activity lower self e)
           (activity_log self) ->
    let tracker := add_activities lower self calls in
    category_keywords tracker = category_keywords (@ActivityTracker__init__ datetime)
    /\ map observation (activity_log tracker)
       = map observation (activity_log self) ++ calls
    /\ Forall (fun e => (category e, confidence e) = _categorize_activity lower tracker e)
              (activity_log tracker).
Proof.
  induction calls as [|[[[[now a] w] c] u] calls IH]; intros self Hkw Hall; cbn zeta.
  - cbn. rewrite app_nil_r. auto.
  - unfold add_activities. cbn [fold_left].
    set (next := fst (add_activity lower self now a w c u)).
    assert (Hnext : category_keywords next = category_keywords self
                    /\ exists e, activity_log next = activity_log self ++ [e]
                                 /\ observation e = (now, a, w, c, u)
                                 /\ (category e, confidence e)
                                    = _categorize_activity lower self e).
    { subst next. unfold add_activity.
      set (e0 := {| timestamp := now; app_name := a; window_title := w;
                    content_summary := c; user_activity := u;
                    category := UNCATEGORIZED; confidence := 0%float |}).
      destruct (_categorize_activity lower self e0) as [cat conf] eqn:Hc.
      cbn [fst category_keywords activity_log]. split; [reflexivity|].
      eexists. split; [reflexivity|]. split; [reflexivity|].
      cbn [category confidence]. rewrite <- Hc. now apply categorize_text_only. }
    destruct Hnext as [Hk (e & Hlog & Hobs & Hcls)].
    destruct (IH next) as (H1 & H2 & H3).
    + congruence.
    + rewrite Hlog. apply Forall_app. split.
      * eapply Forall_impl; [exact Hall|]. cbn. intros x Hx. rewrite Hx.
        now apply categorize_keywords_only.
      * constructor; [|constructor]. rewrite Hcls. now apply categorize_keywords_only.
    + fold (add_activities lower next calls). split; [exact H1|]. split; [|exact H3].
      rewrite H2, Hlog, map_app. cbn [map]. rewrite Hobs, <- app_assoc. reflexivity.
Qed.

(** X9. A tracker filled by [add_activity] alone records its calls in
    order, every entry holding the category and confidence the classifier
    gives it; recategorizing such a tracker changes nothing and reports 0
    recategorized entries, since no confidence is greater than itself. *)
Theorem X9_recategorization_after_add_activity {datetime : Type} (lower : string -> string)
    (calls : list (datetime * string * string * string * string)) :
  let tracker := add_activities lower (@ActivityTracker__init__ datetime) calls in
  map observation (activity_log tracker) = calls
  /\ Forall (fun e => (category e, confidence e) = _categorize_activity lower tracker e)
            (activity_log tracker)
  /\ fst (categorize_activities_interactive lower tracker) = tracker
  /\ rc_categorized (snd (categorize_activities_interactive lower tracker)) = 0.
Proof.
  intros tracker.
  destruct (add_activities_log lower calls (@ActivityTracker__init__ datetime)
              eq_refl (Forall_nil_2 _)) as (Hkw & Hobs & Hcls).
  fold tracker in Hkw, Hobs, Hcls. cbn [activity_log ActivityTracker__init__ map app] in Hobs.
  split; [exact Hobs|]. split; [exact Hcls|].
  assert (Hmap : map (recategorize lower tracker) (activity_log tracker)
                 = map (fun e => (e, false)) (activity_log tracker)).
  { apply Forall_fmap_ext_1. eapply Forall_impl; [exact Hcls|].
    intros e He. now apply recategorize_classified. }
  unfold categorize_activities_interactive. rewrite Hmap.
  destruct (filter _ (activity_log tracker)); [split; reflexivity|].
  cbn [fst snd rc_categorized]. split.
  - rewrite map_map. cbn [fst]. rewrite map_id. destruct tracker; reflexivity.
  - unfold Py.len. replace (filter _ _) with (@nil (ActivityEntry datetime * bool));
      [reflexivity|].
    symmetry. generalize (activity_log tracker). intros log.
    induction log as [|x log IH]; [reflexivity|]. cbn [map]. rewrite filter_cons.
    rewrite decide_False by (cbn; discriminate). exact IH.
Qed.

(** ** Minutes across the summary *)

Lemma total_minutes_floor {datetime} (activities : list (ActivityEntry datetime)) :
  Py.len activities <= 100000 ->
  _calculate_total_minutes activities = Py.len activities / 6.
Proof.
  intros Hn. unfold _calculate_total_minutes. destruct activities as [|e rest]; [reflexivity|].
  apply Z.eqb_eq.
  apply (all_from_spec _ _ _ total_minutes_checked (Py.len (e :: rest))).
  unfold Py.len in *. lia.
Qed.

Lemma of_category_partition {datetime} (activities : list (ActivityEntry datetime)) :
  Py.len activities
  = Py.len (of_category WORK activities) + Py.len (of_category COMMUNICATION activities)
    + Py.len (of_category BREAKS activities)
    + Py.len (of_category UNCATEGORIZED activities).
Proof.
  unfold Py.len. induction activities as [|e rest IH]; [reflexivity|].
  rewrite !of_category_cons.
  destruct (category e); repeat case_decide; try congruence; cbn [length] in *; lia.
Qed.

Lemma distribution_minutes {datetime} (activities : list (ActivityEntry datetime)) total :
  map (fun kv => (fst kv, minutes (snd kv))) (_calculate_time_distribution activities total)
  = map (fun c => (value c, 10 * Py.len (of_category c activities) / 60))
        ActivityCategory_members.
Proof.
  unfold _calculate_time_distribution.
  change (map (fun c => (c, 0)) ActivityCategory_members)
    with (by_category (fun _ : ActivityCategory => 0)).
  rewrite category_times_fold.
  unfold by_category. cbn [map ActivityCategory_members fold_left fst snd value].
  rewrite four_keys. reflexivity.
Qed.

Lemma distribution_get {datetime} (activities : list (ActivityEntry datetime)) total c :
  minutes <$> Py.dict_get (_calculate_time_distribution activities total) (value c)
  = Some (10 * Py.len (of_category c activities) / 60).
Proof.
  unfold _calculate_time_distribution.
  change (map (fun c => (c, 0)) ActivityCategory_members)
    with (by_category (fun _ : ActivityCategory => 0)).
  rewrite category_times_fold.
  unfold by_category. cbn [map ActivityCategory_members fold_left fst snd value].
  rewrite four_keys. destruct c; reflexivity.
Qed.

Lemma share_minutes_of_distribution {datetime} (summary : ActivitySummary datetime)
    (activities : list (ActivityEntry datetime)) total c :
  time_distribution summary = _calculate_time_distribution activities total ->
  share_minutes summary (value c) = 10 * Py.len (of_category c activities) / 60.
Proof.
  intros H. unfold share_minutes. rewrite H, distribution_get. reflexivity.
Qed.

Lemma sixth_of_ten n : 10 * n / 60 = n / 6.
Proof.
  replace 60 with (10 * 6) by reflexivity. rewrite Z.div_mul_cancel_l by lia. reflexivity.
Qed.

Lemma seconds_fold {datetime} (activities : list (ActivityEntry datetime)) :
  forall d,
    fold_right Z.add 0
      (map snd (fold_left (fun app_times entry =>
                             Py.dict_set app_times (app_name entry)
                               (default 0 (Py.dict_get app_times (app_name entry))
                                + SNAPSHOT_INTERVAL))
                          activities d))
    = fold_right Z.add 0 (map snd d) + 10 * Py.len activities.
Proof.
  assert (Hset : forall (d : list (string * Z)) k,
             fold_right Z.add 0 (map snd (Py.dict_set d k (default 0 (Py.dict_get d k) + 10)))
             = fold_right Z.add 0 (map snd d) + 10).
  { induction d as [|[k' v'] d IH]; intros k; cbn [Py.dict_set Py.dict_get].
    - cbn. lia.
    - destruct (decide (k' = k)); cbn [map snd fold_right default from_option].
      + unfold id. lia.
      + rewrite IH. lia. }
  unfold Py.len. induction activities as [|e rest IH]; intros d; cbn [fold_left].
  - cbn. lia.
  - rewrite IH. unfold SNAPSHOT_INTERVAL. rewrite Hset. cbn [length]. lia.
Qed.

Lemma floors_within (l : list Z) :
  Forall (fun s => 0 <= s) l ->
  fold_right Z.add 0 (map (fun s => s / 60) l) <= fold_right Z.add 0 l / 60.
Proof.
  intros H. apply Z.div_le_lower_bound; [lia|].
  induction H as [|s l Hs Hl IH]; cbn [map fold_right]; [lia|].
  pose proof (Z.mul_div_le s 60 ltac:(lia)). lia.
Qed.

Lemma seconds_nonneg {datetime} (activities : list (ActivityEntry datetime)) :
  forall d, Forall (fun s => 0 <= s) (map snd d) ->
    Forall (fun s => 0 <= s)
      (map snd (fold_left (fun app_times entry =>
                             Py.dict_set app_times (app_name entry)
                               (default 0 (Py.dict_get app_times (app_name entry))
                                + SNAPSHOT_INTERVAL))
                          activities d)).
Proof.
  assert (Hset : forall (d : list (string * Z)) k,
             Forall (fun s => 0 <= s) (map snd d) ->
             Forall (fun s => 0 <= s)
                    (map snd (Py.dict_set d k (default 0 (Py.dict_get d k) + 10)))).
  { induction d as [|[k' v'] d IH]; intros k Hd; cbn [Py.dict_set Py.dict_get].
    - repeat constructor. cbn. lia.
    - cbn [map snd] in Hd. apply Forall_cons in Hd as [Hv Hd].
      destruct (decide (k' = k)); cbn [map snd default from_option].
      + constructor; [unfold id; lia | exact Hd].
      + constructor; [exact Hv | now apply IH]. }
  induction activities as [|e rest IH]; intros d Hd; cbn [fold_left]; [exact Hd|].
  apply IH. unfold SNAPSHOT_INTERVAL. now apply Hset.
Qed.

(** X10. For up to 100000 entries, the minutes of the four categories
    add up to no more than the total tracked minutes, and so do the minutes
    of the applications: each is floored on its own, the total once. *)
Theorem X10_minutes_within_total {datetime : Type}
    (activities : list (ActivityEntry datetime)) :
  Py.len activities <= 100000 ->
  let total := _calculate_total_minutes activities in
  fold_right Z.add 0
    (map (fun kv => minutes (snd kv)) (_calculate_time_distribution activities total))
  <= total
  /\ fold_right Z.add 0 (map app_minutes (_calculate_apps_used activities)) <= total.
Proof.
  intros Hn total. subst total. rewrite total_minutes_floor by exact Hn. split.
  - pose proof (distribution_minutes activities (Py.len activities / 6)) as Hm.
    apply (f_equal (map snd)) in Hm. rewrite !map_map in Hm. cbn [snd] in Hm.
    rewrite Hm. cbn [map ActivityCategory_members fold_right].
    rewrite !sixth_of_ten. pose proof (of_category_partition activities) as Hp.
    apply Z.div_le_lower_bound; [lia|].
    pose proof (Z.mul_div_le (Py.len (of_category WORK activities)) 6 ltac:(lia)).
    pose proof (Z.mul_div_le (Py.len (of_category COMMUNICATION activities)) 6 ltac:(lia)).
    pose proof (Z.mul_div_le (Py.len (of_category BREAKS activities)) 6 ltac:(lia)).
    pose proof (Z.mul_div_le (Py.len (of_category UNCATEGORIZED activities)) 6 ltac:(lia)).
    lia.
  - unfold _calculate_apps_used. rewrite map_map. cbn [app_minutes].
    rewrite <- (map_map snd (fun s => s / 60)).
    etransitivity; [apply floors_within, seconds_nonneg; constructor|].
    rewrite seconds_fold. cbn [map fold_right]. rewrite Z.add_0_l, sixth_of_ten. lia.
Qed.

(** X10, an instance: seven entries of one application, one minute. *)
Lemma X10_witness :
  fold_right Z.add 0
    (map (fun kv => minutes (snd kv))
         (_calculate_time_distribution (replicate 7 (busy_entry (at_9 0 0)))
            (_calculate_total_minutes (replicate 7 (busy_entry (at_9 0 0))))))
  <= _calculate_total_minutes (replicate 7 (busy_entry (at_9 0 0)))
  /\ fold_right Z.add 0
       (map app_minutes (_calculate_apps_used (replicate 7 (busy_entry (at_9 0 0)))))
     <= _calculate_total_minutes (replicate 7 (busy_entry (at_9 0 0))).
Proof.
  refine (X10_minutes_within_total (replicate 7 (busy_entry (at_9 0 0))) _).
  vm_compute. discriminate.
Defined.

Lemma filter_keeps_no_more {datetime} dt_le (self : ActivityTracker datetime) s e kept :
  _filter_activities_by_time dt_le self s e = inr kept ->
  Py.len kept <= Py.len (activity_log self).
Proof.
  unfold _filter_activities_by_time, Py.len. intros H.
  repeat match type of H with
         | match ?x with _ => _ end = _ => destruct x; try discriminate
         end.
  injection H as <-. apply inj_le, length_filter.
Qed.

Lemma insights_of_summary_score {datetime} (summary : ActivitySummary datetime) :
  total_tracked_minutes summary <> 0 ->
  exists insights recommendations,
    insights_of_summary summary
    = Insights (if 0 <? total_tracked_minutes summary
                then float_percentage (share_minutes summary "work"
                                       + share_minutes summary "communication")
                                      (total_tracked_minutes summary)
                else 0)
               insights recommendations.
Proof.
  intros H. unfold insights_of_summary.
  rewrite (proj2 (Z.eqb_neq _ _) H). eexists. eexists. reflexivity.
Qed.

Lemma floored_percentage_range p t :
  0 < t -> 0 <= p <= t ->
  0 <= 100 * p / t - (if rounds_down p t then 1 else 0) <= 100.
Proof.
  intros Ht Hp.
  assert (Hq : 0 <= 100 * p / t <= 100).
  { split; [apply Z.div_pos; lia | apply Z.div_le_upper_bound; nia]. }
  unfold rounds_down.
  destruct (Z.eqb_spec (100 * p) (29 * t)) as [E|_];
    [|destruct (Z.eqb_spec (100 * p) (57 * t)) as [E|_];
      [|destruct (Z.eqb_spec (100 * p) (58 * t)) as [E|_]]];
    cbn [orb]; try lia.
  all: rewrite E, Z.div_mul by lia; lia.
Qed.



(** ** The registry *)

Section Registry.

Variable cleandoc : string -> string.

(** The tool that a call of [register] stores, when it returns. *)
Lemma register_inr tools tool tools' :
  register cleandoc tools tool = inr tools' ->
  exists t, tools' = <[name t := t]> tools
            /\ match tool with
               | inl t0 => t = t0
               | inr (f, n, d, p) => from_function cleandoc f n d p = inr t
               end.
Proof.
  unfold register. destruct tool as [t0|[[[f n] d] p]].
  - intros H. injection H as <-. eauto.
  - destruct (from_function cleandoc f n d p) as [e|t] eqn:Hf; [discriminate|].
    intros H. injection H as <-. eauto.
Qed.

Lemma from_function_name f n d p t :
  from_function cleandoc f n d p = inr t -> name t = default (fn_name f) n /\ func t = f.
Proof.
  unfold from_function, Tool__init__.
  destruct (match p with Some p0 => inr p0 | None => _ end) as [e|s]; [discriminate|].
  destruct (_validate_signature _); [discriminate|].
  intros H. injection H as <-. auto.
Qed.

(** X12. After a successful [register], the tool is found under its
    name ([tool.name], or for a raw callable the name given, else the
    function's name), [in] and [len] see it, every other name resolves as
    before, and registering under a name already taken replaces the tool
    without growing the registry. *)
Theorem X12_register_then_lookup tools tool tools' :
  register cleandoc tools tool = inr tools' ->
  exists t,
    get_tool tools' (name t) = Some t
    /\ name t = match tool with
                | inl t0 => name t0
                | inr (f, n, _, _) => default (fn_name f) n
                end
    /\ ToolRegistry__contains__ tools' (name t) = true
    /\ (forall other, other <> name t ->
                      get_tool tools' other = get_tool tools other
                      /\ ToolRegistry__contains__ tools' other
                         = ToolRegistry__contains__ tools other)
    /\ ToolRegistry__len__ tools'
       = ToolRegistry__len__ tools
         + (if ToolRegistry__contains__ tools (name t) then 0 else 1).
Proof.
  intros H. destruct (register_inr _ _ _ H) as (t & -> & Ht). exists t.
  unfold get_tool, ToolRegistry__contains__, ToolRegistry__len__.
  split; [apply lookup_insert_eq|]. split.
  { destruct tool as [t0|[[[f n] d] p]]; [now subst|].
    now apply from_function_name in Ht. }
  split; [rewrite lookup_insert_eq; now apply bool_decide_eq_true; eauto|]. split.
  - intros other Hne. rewrite lookup_insert_ne by congruence. auto.
  - destruct (tools !! name t) as [old|] eqn:Hold.
    + rewrite bool_decide_eq_true_2 by eauto.
      rewrite <- (insert_delete_id tools (name t) old Hold) at 2.
      rewrite <- insert_delete_eq, !map_size_insert_None by apply lookup_delete_eq. lia.
    + rewrite bool_decide_eq_false_2 by (intros [? ?]; discriminate).
      rewrite map_size_insert_None by exact Hold. lia.
Qed.

Lemma list_tools_names tools :
  keyed_by_name tools -> map td_name (list_tools tools) = map fst (map_to_list tools).
Proof.
  intros Hk. unfold list_tools. rewrite map_map. apply map_ext_in.
  intros [k t] Hin. cbn. apply Hk. apply elem_of_map_to_list. now apply list_elem_of_In.
Qed.

(** X13. [register] keeps every tool stored under its own name; in
    such a registry [list_tools] exports one descriptor per tool, with
    distinct names, and the names are exactly those that [in] accepts
    (the order of the export is not modelled). *)
Theorem X13_registry_names tools tool tools' :
  keyed_by_name tools ->
  register cleandoc tools tool = inr tools' ->
  keyed_by_name tools'
  /\ NoDup (map td_name (list_tools tools'))
  /\ Py.len (list_tools tools') = ToolRegistry__len__ tools'
  /\ (forall n, In n (map td_name (list_tools tools'))
                <-> ToolRegistry__contains__ tools' n = true).
Proof.
  intros Hk H. destruct (register_inr _ _ _ H) as (t & -> & _).
  assert (Hk' : keyed_by_name (<[name t := t]> tools)).
  { intros key tool0 Hl. destruct (decide (key = name t)) as [->|Hne].
    - rewrite lookup_insert_eq in Hl. now injection Hl as <-.
    - rewrite lookup_insert_ne in Hl by congruence. now apply Hk. }
  split; [exact Hk'|]. rewrite (list_tools_names _ Hk'). split; [|split].
  - exact (NoDup_fst_map_to_list _).
  - unfold list_tools, Py.len, ToolRegistry__len__.
    now rewrite length_map, length_map_to_list.
  - intros n. unfold ToolRegistry__contains__.
    rewrite bool_decide_eq_true, <- list_elem_of_In, list_elem_of_fmap. split.
    + intros ([k v] & -> & Hin). apply elem_of_map_to_list in Hin. cbn. eauto.
    + intros [v Hv]. exists (n, v). split; [reflexivity|]. now apply elem_of_map_to_list.
Qed.

End Registry.

(** X12, an instance: the echo tool registered into an empty registry. *)
Lemma X12_witness :
  exists t,
    get_tool (<[name echo_tool := echo_tool]> ∅) (name t) = Some t
    /\ name t = name echo_tool
    /\ ToolRegistry__contains__ (<[name echo_tool := echo_tool]> ∅) (name t) = true
    /\ (forall other, other <> name t ->
                      get_tool (<[name echo_tool := echo_tool]> ∅) other = get_tool ∅ other
                      /\ ToolRegistry__contains__ (<[name echo_tool := echo_tool]> ∅) other
                         = ToolRegistry__contains__ ∅ other)
    /\ ToolRegistry__len__ (<[name echo_tool := echo_tool]> ∅)
       = ToolRegistry__len__ ∅ + (if ToolRegistry__contains__ ∅ (name t) then 0 else 1).
Proof.
  exact (X12_register_then_lookup (fun doc => doc) ∅ (inl echo_tool) _ eq_refl).
Defined.

(** X13, an instance: the same registration, from the empty registry. *)
Lemma X13_witness :
  keyed_by_name (<[name echo_tool := echo_tool]> ∅)
  /\ NoDup (map td_name (list_tools (<[name echo_tool := echo_tool]> ∅)))
  /\ Py.len (list_tools (<[name echo_tool := echo_tool]> ∅))
     = ToolRegistry__len__ (<[name echo_tool := echo_tool]> ∅)
  /\ (forall n, In n (map td_name (list_tools (<[name echo_tool := echo_tool]> ∅)))
                <-> ToolRegistry__contains__ (<[name echo_tool := echo_tool]> ∅) n = true).
Proof.
  refine (X13_registry_names (fun doc => doc) ∅ (inl echo_tool) _ _ eq_refl).
  intros key tool Hl. rewrite lookup_empty in Hl. discriminate.
Defined.

(** ** Building and validating tools *)

Section Builder.

Variable cleandoc : string -> string.

Lemma dict_set_key_set {V} (d : list (string * V)) k v :
  (list_to_set (map fst (Py.dict_set d k v)) : gset string)
  = {[k]} ∪ list_to_set (map fst d).
Proof.
  induction d as [|[k' v'] d IH]; cbn [Py.dict_set map fst list_to_set].
  - reflexivity.
  - destruct (decide (k' = k)) as [->|Hne]; cbn [map fst list_to_set].
    + set_solver.
    + rewrite IH. set_solver.
Qed.

(** The keys that the loop of the schema builder leaves. *)
Lemma parameters_loop_keys doc ps :
  forall props req schema,
    parameters_loop cleandoc doc ps props req = inr schema ->
    schema_params schema
    = list_to_set (map fst props) ∪ (list_to_set (map p_name ps) ∖ {["self"]}).
Proof.
  induction ps as [|p ps IH]; intros props req schema; cbn [parameters_loop].
  - intros H. injection H as <-. unfold schema_params. cbn. set_solver.
  - destruct (decide (p_name p = "self")) as [Hs|Hs].
    + intros H. rewrite (IH _ _ _ H). cbn [map list_to_set]. rewrite Hs. set_solver.
    + destruct (schema_of_hint _) as [e|s]; [discriminate|].
      destruct (match truthy_doc doc with Some d => _ | None => _ end) as [e|s'];
        [discriminate|].
      intros H. rewrite (IH _ _ _ H), dict_set_key_set. cbn [map list_to_set].
      set_solver.
Qed.

Lemma validate_raises_ToolError (self : Tool) e :
  _validate_signature self = Some e -> exists msg, e = Py.ToolError msg.
Proof.
  unfold _validate_signature.
  destruct (bool_decide _); [intros H; injection H as <-; eauto|].
  destruct (_ && _); [intros H; injection H as <-; eauto | discriminate].
Qed.

(** X14. When the schema is generated from the type hints, its
    properties are the handler's parameters other than [self]; so
    [from_function] accepts the handler unless it declares a parameter named
    [self] and the text of its signature has no ["**"], and then the error
    is a [ToolError]. *)
Theorem X14_generated_schema_and_self (f : Callable) (n d : option string) (schema : Schema) :
  _parameters_from_type_hints cleandoc f = inr schema ->
  let sig := fn_signature f in
  schema_params schema = param_names sig ∖ {["self"]}
  /\ (forall t, from_function cleandoc f n d None = inr t ->
                parameters t = schema /\ func t = f /\ name t = default (fn_name f) n)
  /\ ((exists t, from_function cleandoc f n d None = inr t)
      <-> ("self" ∉ param_names sig \/ Py.contains "**" (Signature_str sig) = true))
  /\ (forall e, from_function cleandoc f n d None = inl e -> exists msg, e = Py.ToolError msg).
Proof.
  intros Hs sig.
  assert (Hkeys : schema_params schema = param_names sig ∖ {["self"]}).
  { unfold _parameters_from_type_hints in Hs.
    rewrite (parameters_loop_keys _ _ _ _ _ Hs). unfold param_names. subst sig. set_solver. }
  split; [exact Hkeys|].
  unfold from_function. rewrite Hs. unfold Tool__init__.
  set (self := {| name := default (fn_name f) n; parameters := schema; func := f |}).
  pose proof (validate_signature_spec self) as Hv. cbv zeta in Hv.
  change (func self) with f in Hv. change (parameters self) with schema in Hv.
  fold sig in Hv. rewrite Hkeys in Hv.
  destruct (_validate_signature self) as [e|] eqn:Hval.
  - split; [discriminate|]. split.
    + split; [intros [t Ht]; discriminate|].
      intros Hok. exfalso.
      destruct (proj1 Hv (ex_intro _ e eq_refl)) as [Hbad|[Hbad Hstar]].
      * apply Hbad. set_solver.
      * destruct Hok as [Hok|Hok]; [|congruence].
        apply Hbad. intros x Hx. apply elem_of_difference. split; [exact Hx|].
        intros Hself. apply elem_of_singleton in Hself. subst x. contradiction.
    + intros e' H. injection H as <-. now apply (validate_raises_ToolError self).
  - split; [intros t H; injection H as <-; auto|]. split; [|discriminate].
    split; [intros _|eauto].
    destruct (decide ("self" ∈ param_names sig)) as [Hin|Hout]; [|now left].
    destruct (Py.contains "**" (Signature_str sig)) eqn:Hstar; [now right|].
    exfalso. assert (Hsome : is_Some (@None Py.Exception)).
    { apply Hv. right. split; [|reflexivity]. intros Hsub.
      specialize (Hsub _ Hin). set_solver. }
    destruct Hsome as [? ?]. discriminate.
Qed.


(** X15. A handler that takes [**kwargs] is accepted with any schema
    whose properties are all among its declared parameters: its other
    parameters need not appear in the schema. *)
Theorem X15_var_keyword_handler (nm descr : string) (params : Schema) (f : Callable) :
  has_var_keyword (fn_signature f) = true ->
  Py.contains "**" (Signature_str (fn_signature f)) = true
  /\ ((exists t, Tool__init__ nm descr params f = inr t)
      <-> schema_params params ⊆ param_names (fn_signature f)).
Proof.
  intros Hk. pose proof (var_keyword_stars _ Hk) as Hstar. split; [exact Hstar|].
  unfold Tool__init__.
  set (self := {| name := nm; description := descr; parameters := params; func := f |}).
  pose proof (validate_signature_spec self) as Hv. cbv zeta in Hv.
  change (func self) with f in Hv. change (parameters self) with params in Hv.
  destruct (_validate_signature self) as [e|] eqn:Hval.
  - split; [intros [t Ht]; discriminate|]. intros Hsub. exfalso.
    destruct (proj1 Hv (ex_intro _ e eq_refl)) as [Hbad|[_ Hno]]; [auto | congruence].
  - split; [intros _|eauto].
    destruct (decide (schema_params params ⊆ param_names (fn_signature f))) as [Hs|Hs];
      [exact Hs|].
    exfalso. assert (Hsome : is_Some (@None Py.Exception)) by (apply Hv; now left).
    destruct Hsome as [? ?]. discriminate.
Qed.

(** X16. An [Optional[T]] annotation (a [Union] with exactly one
    member other than [None]) gets the schema of [T]; the unwrapping is done
    once, so this holds when [T] is not itself a [Union]. *)
Theorem X16_optional_is_unwrapped (h t : TypeHint) (args : list TypeHint) :
  hint_origin h = Some OriginUnion ->
  hint_args h = Some args ->
  filter (fun a => hint_is_NoneType a = false) args = [t] ->
  hint_origin t <> Some OriginUnion ->
  schema_of_hint h = schema_of_hint t.
Proof.
  intros Ho Ha Hf Hnt. unfold schema_of_hint. rewrite Ho, Ha, Hf.
  destruct (hint_origin t) as [[| | |o]|] eqn:E; try contradiction;
    cbv beta iota; rewrite ?E; reflexivity.
Qed.

End Builder.

(** X14, an instance: [def method(self: str, x: int)]. *)
Lemma X14_witness :
  exists schema,
    _parameters_from_type_hints (fun doc => doc) method = inr schema
    /\ schema_params schema = param_names (fn_signature method) ∖ {["self"]}.
Proof.
  eexists. split; [reflexivity|].
  refine (proj1 (X14_generated_schema_and_self (fun doc => doc) method None None _ _)).
  reflexivity.
Defined.

(** X15, an instance: [def configure(a, **options)]. *)
Lemma X15_witness :
  Py.contains "**" (Signature_str (fn_signature configure)) = true.
Proof.
  refine (proj1 (X15_var_keyword_handler "configure" "" schema_a_only
                   configure _)).
  reflexivity.
Defined.

(** X16, an instance: [Optional[int]] is typed as [int]. *)
Lemma X16_witness : schema_of_hint Optional_int = schema_of_hint py_int.
Proof.
  refine (X16_optional_is_unwrapped Optional_int py_int [py_int; NoneType_hint] _ _ _ _);
    [reflexivity | reflexivity | reflexivity | discriminate].
Defined.

(** ** The agent turn *)

Lemma answered_cons tools tc tcs :
  answered tools (tc :: tcs)
  = if decide (is_Some (get_tool tools (tc_function_name tc)))
    then tc :: answered tools tcs else answered tools tcs.
Proof. unfold answered. now rewrite filter_cons. Qed.

(** The dispatch loop only appends tool results: one for each call to a
    registered tool, in order, up to the call that raises. *)
Lemma dispatch_results tools tool_calls :
  forall ms tr,
    let r := dispatch tools tool_calls ms tr in
    exists new,
      r.1.1 = ms ++ new
      /\ Forall (fun m => is_ToolResult m = true) new
      /\ omap result_id new `prefix_of` map tc_id (answered tools tool_calls)
      /\ (r.2 = None -> omap result_id new = map tc_id (answered tools tool_calls)).
Proof.
  induction tool_calls as [|tc tcs IH]; intros ms tr; cbn [dispatch].
  - exists []. cbn. rewrite app_nil_r.
    split; [reflexivity|]. split; [constructor|]. split; [apply prefix_nil|].
    reflexivity.
  - assert (Hstop : forall (tr' : list Event) e,
               let r : list Message * list Event * option Py.Exception :=
                 (ms, tr', Some e) in
               exists new : list Message,
                 r.1.1 = ms ++ new
                 /\ Forall (fun m => is_ToolResult m = true) new
                 /\ omap result_id new `prefix_of` map tc_id (answered tools (tc :: tcs))
                 /\ (r.2 = None ->
                     omap result_id new = map tc_id (answered tools (tc :: tcs)))).
    { intros tr' e. exists []. cbn [fst snd omap list_omap]. rewrite app_nil_r.
      split; [reflexivity|]. split; [constructor|]. split; [apply prefix_nil|].
      discriminate. }
    rewrite answered_cons.
    destruct (json_loads (tc_function_arguments tc)) as [e|args] eqn:Hl.
    { rewrite <- answered_cons. apply Hstop. }
    unfold get_tool at 1 2. fold (get_tool tools (tc_function_name tc)).
    destruct (get_tool tools (tc_function_name tc)) as [tool|] eqn:Hg.
    + rewrite decide_True by eauto.
      assert (Hanswered : answered tools (tc :: tcs) = tc :: answered tools tcs).
      { rewrite answered_cons, Hg. now rewrite decide_True by eauto. }
      rewrite <- Hanswered.
      destruct args as [ | | | | | |kwargs]; try apply Hstop.
      destruct (Tool_run tool kwargs) as [e|response] eqn:Hr; [apply Hstop|].
      rewrite (Tool_run_inr _ _ _ Hr).
      destruct (json_dumps response) as [e|content] eqn:Hd; [apply Hstop|].
      destruct (IH (ms ++ [ToolResult (tc_id tc) (tc_function_name tc) content])
                   (tr ++ [ToolRun (tc_function_name tc) kwargs]))
        as (new & H1 & H2 & H3 & H4).
      exists (ToolResult (tc_id tc) (tc_function_name tc) content :: new).
      rewrite Hanswered. cbn zeta in *. split; [|split; [|split]].
      * rewrite H1, <- app_assoc. reflexivity.
      * constructor; [reflexivity | exact H2].
      * cbn [omap list_omap result_id map]. now apply prefix_cons.
      * intros Hn. cbn [omap list_omap result_id map]. now rewrite (H4 Hn).
    + rewrite decide_False by (intros [? ?]; discriminate). apply IH.
Qed.

(** X17. The tool-dispatch loop never removes or rewrites a message:
    it appends tool-result messages only, one for each call whose name is
    registered, in the order of the calls and carrying the id of its call
    (a name called twice is answered twice); when a call raises, the results
    appended before it stay in the history. *)
Theorem X17_dispatch_appends_results (tools : gmap string Tool)
    (tool_calls : list ToolCall) (ms : list Message) (tr : list Event) :
  let r := dispatch tools tool_calls ms tr in
  exists new,
    r.1.1 = ms ++ new
    /\ Forall (fun m => is_ToolResult m = true) new
    /\ omap result_id new `prefix_of` map tc_id (answered tools tool_calls)
    /\ (r.2 = None -> omap result_id new = map tc_id (answered tools tool_calls)).
Proof. apply dispatch_results. Qed.

Section Turn.

Variable Client : Type.
Variable create : Client -> Request -> Client * (Py.Exception + ChatCompletion).

(** X18. A turn only ever appends to the history: whatever happens,
    the history afterwards is the one before, then the user message, then
    what the turn added; the registry and the configuration are untouched.
    The user message stays in the history even when the first request
    fails.  When the turn returns, the last message of the history is the
    response whose content is returned. *)
Theorem X18_history_is_append_only (self : GPTChatAgent) (client : Client)
    (message : string) :
  let r := run create self client message in
  (exists new, messages (turn_agent r) = messages self ++ UserMessage message :: new)
  /\ tool_registry (turn_agent r) = tool_registry self
  /\ config_temperature (turn_agent r) = config_temperature self
  /\ (forall e, (create client (initial_request self message)).2 = inl e ->
                messages (turn_agent r) = messages self ++ [UserMessage message]
                /\ turn_result r = inl e)
  /\ (forall content, turn_result r = inr content ->
        exists m, last (messages (turn_agent r)) = Some (ResponseMessage m)
                  /\ msg_content m = content).
Proof.
  intros r. subst r. unfold run, initial_request.
  destruct (create client _) as [client1 [e|response]] eqn:Hc1; cbn [snd].
  { unfold turn_agent, turn_result. cbn.
    split; [exists []; reflexivity|]. split; [reflexivity|]. split; [reflexivity|].
    split; [intros e' H; injection H as <-; auto | discriminate]. }
  destruct (first_choice response) as [e|m] eqn:Hf.
  { unfold turn_agent, turn_result. cbn.
    split; [exists []; reflexivity|]. split; [reflexivity|]. split; [reflexivity|].
    split; discriminate. }
  destruct (msg_tool_calls m) as [[|tc tcs]|] eqn:Htc.
  1, 3: unfold turn_agent, turn_result; cbn;
    (split; [exists [ResponseMessage m]; now rewrite <- app_assoc|]);
    (split; [reflexivity|]); (split; [reflexivity|]); (split; [discriminate|]);
    intros content H; injection H as <-; exists m; now rewrite last_snoc.
  match goal with
  | |- context [dispatch ?tools ?tcs ?ms ?tr] =>
      destruct (dispatch_results tools tcs ms tr) as (new & Hnew & _);
      destruct (dispatch tools tcs ms tr) as [[ms' tr'] [e|]] eqn:Hd
  end; cbn [fst snd] in Hnew; subst ms'.
  { unfold turn_agent, turn_result. cbn.
    split; [eexists; rewrite <- !app_assoc; reflexivity|].
    split; [reflexivity|]. split; [reflexivity|]. split; discriminate. }
  destruct (create client1 _) as [client2 [e|second]] eqn:Hc2.
  { unfold turn_agent, turn_result. cbn.
    split; [eexists; rewrite <- !app_assoc; reflexivity|].
    split; [reflexivity|]. split; [reflexivity|]. split; discriminate. }
  destruct (first_choice second) as [e|m2] eqn:Hf2.
  { unfold turn_agent, turn_result. cbn.
    split; [eexists; rewrite <- !app_assoc; reflexivity|].
    split; [reflexivity|]. split; [reflexivity|]. split; discriminate. }
  unfold turn_agent, turn_result. cbn.
  split; [eexists; rewrite <- !app_assoc; reflexivity|].
  split; [reflexivity|]. split; [reflexivity|]. split; [discriminate|].
  intros content H. injection H as <-. exists m2. now rewrite last_snoc.
Qed.

End Turn.

(** ** The two summaries *)

Lemma fold_left_over_map {A B C} (f : C -> B -> C) (g : A -> B) l :
  forall acc, fold_left f (map g l) acc = fold_left (fun c a => f c (g a)) l acc.
Proof. induction l as [|x l IH]; intros acc; [reflexivity|]. cbn. apply IH. Qed.

Lemma by_value_get {V} (f : ActivityCategory -> V) k :
  Py.dict_get (by_value f) (value k) = Some (f k).
Proof. destruct k; reflexivity. Qed.

Lemma by_value_set {V} (f : ActivityCategory -> V) k v :
  Py.dict_set (by_value f) (value k) v
  = by_value (fun c => if decide (c = k) then v else f c).
Proof. destruct k; reflexivity. Qed.

Lemma by_value_ext {V} (f g : ActivityCategory -> V) :
  (forall c, f c = g c) -> by_value f = by_value g.
Proof. intros H. unfold by_value. cbn. now rewrite !H. Qed.

(** The second loop of [generate_activity_summary] on the records of
    entries that hold the classifier's category. *)
Lemma improved_categories_fold {datetime} lower (activities : list (ActivityEntry datetime)) :
  Forall (fun e => category e
                   = fst (_categorize_activity lower (@ActivityTracker__init__ datetime) e))
         activities ->
  forall f g,
    fold_left (fun acc (entry : ActivityEntry datetime) =>
                 let '(category_times, categorized_activities) := acc in
                 let category :=
                   fst (categorize_activity lower (user_activity entry)
                          (content_summary entry) (window_title entry)) in
                 (Py.dict_set category_times category
                    (default 0 (Py.dict_get category_times category) + SNAPSHOT_INTERVAL),
                  Py.dict_set categorized_activities category
                    (default 0 (Py.dict_get categorized_activities category) + 1)))
              activities (by_value f, by_value g)
    = (by_value (fun c => f c + 10 * Py.len (of_category c activities)),
       by_value (fun c => g c + Py.len (of_category c activities))).
Proof.
  induction 1 as [|e rest He Hrest IH]; intros f g; cbn [fold_left].
  - f_equal; apply by_value_ext; intros c; unfold of_category, Py.len; cbn; lia.
  - assert (Hcat : fst (categorize_activity lower (user_activity e) (content_summary e)
                          (window_title e))
                   = value (category e)).
    { rewrite improved_by_scores. cbv zeta. cbn [fst]. rewrite He.
      rewrite (classify_init lower _ e eq_refl). reflexivity. }
    rewrite Hcat, !by_value_get, !by_value_set, IH.
    f_equal; apply by_value_ext; intros c; rewrite of_category_cons;
      unfold SNAPSHOT_INTERVAL, Py.len; cbn [default from_option]; unfold id;
      (destruct (decide (c = category e)) as [->|Hne];
       [rewrite decide_True by reflexivity; cbn [length]; lia
       |rewrite decide_False by congruence; lia]).
Qed.

(** X19. For entries that hold the category the classifier gives
    them, [generate_activity_summary] over the raw records and the tracker's
    aggregator agree on the total minutes, on the applications and their
    minutes, and on the minutes of each category; the raw summary counts for
    each category the entries the tracker groups under it.  (The percentages
    are where the two differ.) *)
Theorem X19_summaries_agree_on_minutes {datetime : Type} (lower : string -> string)
    (today : string) (stamp : datetime -> string)
    (activities : list (ActivityEntry datetime)) :
  activities <> [] ->
  Forall (fun e => category e
                   = fst (_categorize_activity lower (@ActivityTracker__init__ datetime) e))
         activities ->
  exists summary,
    generate_activity_summary lower today (map (as_record stamp) activities) = inr summary
    /\ i_total_tracked_minutes summary = _calculate_total_minutes activities
    /\ i_apps_used summary = _calculate_apps_used activities
    /\ map (fun kv => (fst kv, minutes (snd kv))) (i_time_distribution summary)
       = map (fun kv => (fst kv, minutes (snd kv)))
             (_calculate_time_distribution activities (_calculate_total_minutes activities))
    /\ i_categorized_activities_count summary
       = by_value (fun c => Py.len (of_category c activities)).
Proof.
  intros Hne Hall. unfold generate_activity_summary.
  destruct (map (as_record stamp) activities) as [|r rs] eqn:Hrecords.
  { destruct activities; [contradiction | discriminate]. }
  rewrite <- Hrecords. clear r rs Hrecords.
  eexists. split; [reflexivity|].
  cbn [i_total_tracked_minutes i_apps_used i_time_distribution
       i_categorized_activities_count].
  rewrite !fold_left_over_map. cbn [as_record r_app_name r_user_activity
                                     r_content_summary r_window_title].
  change [("work", 0); ("communication", 0); ("breaks", 0); ("uncategorized", 0)]
    with (by_value (fun _ : ActivityCategory => 0)).
  rewrite (improved_categories_fold lower activities Hall). cbn [fst snd].
  split; [|split; [reflexivity|split]].
  - unfold _calculate_total_minutes, Py.len. rewrite length_map.
    destruct activities; [contradiction | reflexivity].
  - rewrite distribution_minutes.
    unfold by_value. cbn [map ActivityCategory_members fold_left fst snd value].
    rewrite four_keys. cbn [map fst snd minutes]. rewrite !Z.add_0_l. reflexivity.
  - apply by_value_ext. intros c. lia.
Qed.

(** X19, an instance: one entry of eight work keywords. *)
Lemma X19_witness :
  exists summary,
    generate_activity_summary Py.lower "2024-01-15"
      (map (as_record Datetime.isoformat) [busy_entry (at_9 0 0)]) = inr summary
    /\ i_total_tracked_minutes summary = _calculate_total_minutes [busy_entry (at_9 0 0)]
    /\ i_apps_used summary = _calculate_apps_used [busy_entry (at_9 0 0)]
    /\ map (fun kv => (fst kv, minutes (snd kv))) (i_time_distribution summary)
       = map (fun kv => (fst kv, minutes (snd kv)))
             (_calculate_time_distribution [busy_entry (at_9 0 0)]
                (_calculate_total_minutes [busy_entry (at_9 0 0)]))
    /\ i_categorized_activities_count summary
       = by_value (fun c => Py.len (of_category c [busy_entry (at_9 0 0)])).
Proof.
  apply (X19_summaries_agree_on_minutes Py.lower "2024-01-15" Datetime.isoformat
           [busy_entry (at_9 0 0)]).
  - discriminate.
  - constructor; [vm_compute; reflexivity | constructor].
Defined.

(** ** Loading, and the default time range *)

Lemma load_entries_file_only {datetime} fromisoformat entries :
  forall a b : ActivityTracker datetime,
    let ra := load_entries fromisoformat entries a in
    let rb := load_entries fromisoformat entries b in
    category_keywords ra.1 = category_keywords a
    /\ ra.2 = rb.2
    /\ exists loaded,
         activity_log ra.1 = activity_log a ++ loaded
         /\ activity_log rb.1 = activity_log b ++ loaded
         /\ Py.len loaded <= Py.len entries
         /\ (ra.2 = None -> Py.len loaded = Py.len entries).
Proof.
  unfold Py.len.
  induction entries as [|d entries IH]; intros a b; cbn [load_entries].
  - cbn. split; [reflexivity|]. split; [reflexivity|]. exists [].
    rewrite !app_nil_r. cbn. repeat split; auto; lia.
  - destruct (load_entry fromisoformat d) as [e|entry].
    + cbn. split; [reflexivity|]. split; [reflexivity|]. exists [].
      rewrite !app_nil_r. cbn. repeat split; auto; try lia; discriminate.
    + specialize (IH {| activity_log := activity_log a ++ [entry];
                        category_keywords := category_keywords a |}
                     {| activity_log := activity_log b ++ [entry];
                        category_keywords := category_keywords b |}).
      cbv zeta in IH. destruct IH as (Hk & He & loaded & Ha & Hb & Hlen & Hall).
      cbv zeta. split; [exact Hk|]. split; [exact He|].
      exists (entry :: loaded). rewrite Ha, Hb. cbn [activity_log].
      rewrite <- !app_assoc. cbn [app length] in *.
      repeat split; [lia|]. intros Hn. specialize (Hall Hn). lia.
Qed.

(** X20. [load_from_file] never touches the keyword table.  A
    missing file or one that is not JSON raises and leaves the tracker as it
    was.  With a JSON file the outcome depends on the file alone: the log
    and the exception, if any, are the same whatever the tracker held
    before; the log holds at most one entry per entry of the file, and
    exactly one per entry when nothing is raised (no key ["activities"]:
    an empty log). *)
Theorem X20_load_depends_on_the_file_alone {datetime : Type}
    (fromisoformat : string -> option datetime)
    (a b : ActivityTracker datetime) (filename : string) (fs : gmap string FileContent) :
  let ra := load_from_file fromisoformat a filename fs in
  let rb := load_from_file fromisoformat b filename fs in
  category_keywords ra.1 = category_keywords a
  /\ ra.2 = rb.2
  /\ match fs !! filename with
     | Some (JsonFile data) =>
         activity_log ra.1 = activity_log rb.1
         /\ Py.len (activity_log ra.1) <= Py.len (default [] (d_activities data))
         /\ (ra.2 = None ->
             Py.len (activity_log ra.1) = Py.len (default [] (d_activities data)))
     | _ => ra.1 = a /\ is_Some ra.2
     end.
Proof.
  intros ra rb. subst ra rb. unfold load_from_file.
  destruct (fs !! filename) as [[data|raw]|].
  - destruct (load_entries_file_only fromisoformat (default [] (d_activities data))
                {| activity_log := []; category_keywords := category_keywords a |}
                {| activity_log := []; category_keywords := category_keywords b |})
      as (Hk & He & loaded & Ha & Hb & Hlen & Hall).
    cbn [activity_log category_keywords app] in *.
    split; [exact Hk|]. split; [exact He|]. rewrite Ha, Hb.
    split; [reflexivity|]. split; [exact Hlen | exact Hall].
  - cbn. repeat split; eauto.
  - cbn. repeat split; eauto.
Qed.

Lemma filter_all {A} (P : A -> Prop) `{forall x, Decision (P x)} (l : list A) :
  Forall P l -> filter P l = l.
Proof.
  induction 1 as [|x l Hx Hl IH]; [reflexivity|].
  rewrite filter_cons, decide_True by exact Hx. now rewrite IH.
Qed.

(** X21. With no bounds given the range runs from the first to the
    last entry of the log, so a log in chronological order is summarised
    whole.  (Entries of an unordered log that fall outside [first, last]
    are left out.) *)
Theorem X21_chronological_log_is_kept_whole {datetime : Type}
    (dt_le : datetime -> datetime -> bool) (today : string)
    (self : ActivityTracker datetime) :
  (forall (i j : nat) a b,
      (i <= j)%nat -> activity_log self !! i = Some a -> activity_log self !! j = Some b ->
      dt_le (timestamp a) (timestamp b) = true) ->
  activity_log self <> [] ->
  _filter_activities_by_time dt_le self None None = inr (activity_log self)
  /\ exists summary,
       get_summary dt_le today self None None = inr summary
       /\ total_activities summary = Py.len (activity_log self).
Proof.
  intros Hs Hne.
  assert (Hf : _filter_activities_by_time dt_le self None None = inr (activity_log self)).
  { unfold _filter_activities_by_time.
    destruct (activity_log self) as [|x l] eqn:Hlog; [contradiction|].
    destruct (last (x :: l)) as [y|] eqn:Hl; [|apply last_None in Hl; discriminate].
    cbn [head fmap option_fmap option_map]. f_equal. apply filter_all.
    rewrite Forall_forall. intros e He.
    apply list_elem_of_lookup in He as [i Hi].
    rewrite last_lookup in Hl.
    pose proof (lookup_lt_Some _ _ _ Hi) as Hlt. split.
    - apply (Hs 0%nat i); [lia | reflexivity | exact Hi].
    - apply (Hs i (pred (length (x :: l)))); [lia | exact Hi | exact Hl]. }
  split; [exact Hf|]. unfold get_summary. rewrite Hf.
  destruct (activity_log self) as [|x l]; [contradiction|].
  eexists. split; reflexivity.
Qed.

(** X21, an instance: two entries ten seconds apart. *)
Lemma X21_witness :
  _filter_activities_by_time Datetime.le
    {| activity_log := [sample (at_9 0 0) WORK; sample (at_9 0 10) WORK];
       category_keywords := [] |} None None
  = inr [sample (at_9 0 0) WORK; sample (at_9 0 10) WORK].
Proof.
  refine (proj1 (X21_chronological_log_is_kept_whole Datetime.le "2024-01-15"
                   {| activity_log := [sample (at_9 0 0) WORK; sample (at_9 0 10) WORK];
                      category_keywords := [] |} _ _)).
  - intros i j a b Hij Hi Hj. cbn [activity_log] in Hi, Hj.
    destruct i as [|[|i]]; destruct j as [|[|j]]; try lia; try discriminate;
      cbn in Hi, Hj; injection Hi as <-; injection Hj as <-; reflexivity.
  - discriminate.
Defined.

(** ** What makes the schema builder fail *)

Section Docstring.

Variable cleandoc : string -> string.

Lemma parameters_loop_succeeds doc ps :
  forall props req,
    (exists schema, parameters_loop cleandoc doc ps props req = inr schema)
    <-> Forall (fun p => p_name p = "self"
                         \/ exists s, schema_of_hint (default Parameter_empty (p_annotation p))
                                      = inr s) ps.
Proof.
  induction ps as [|p ps IH]; intros props req; cbn [parameters_loop].
  - split; [constructor | eauto].
  - rewrite Forall_cons. destruct (decide (p_name p = "self")) as [Hs|Hs].
    + rewrite IH. tauto.
    + destruct (schema_of_hint _) as [e|s] eqn:Hh.
      * split; [intros [? ?]; discriminate|].
        intros [[?|[s Hs']] _]; [contradiction | discriminate].
      * assert (Hd : exists s', (match truthy_doc doc with
                                 | Some d => describe (Py.split Py.newline (cleandoc d))
                                                      (p_name p) s
                                 | None => inr s
                                 end) = inr s').
        { destruct (truthy_doc doc); [|eauto].
          destruct (describe_ok (Py.split Py.newline (cleandoc s0)) (p_name p) s) as [d ->].
          eauto. }
        destruct Hd as [s' ->]. rewrite IH. split; [|tauto]. eauto.
Qed.

(** X22. The docstring never makes the schema builder fail: it
    returns a schema exactly when every annotation of a parameter other than
    [self] has one, whatever the docstring holds; and an annotation without
    [__origin__] (a plain class, or none at all) always has one. *)
Theorem X22_docstring_never_fails_the_builder (f : Callable) :
  ((exists schema, _parameters_from_type_hints cleandoc f = inr schema)
   <-> Forall (fun p => p_name p = "self"
                        \/ exists s, schema_of_hint (default Parameter_empty (p_annotation p))
                                     = inr s)
              (sig_parameters (fn_signature f)))
  /\ (forall h, hint_origin h = None -> exists s, schema_of_hint h = inr s).
Proof.
  split; [apply parameters_loop_succeeds|].
  intros h Ho. unfold schema_of_hint. rewrite Ho. cbv beta iota. rewrite Ho.
  destruct (Py.dict_get type_mapping (type_name h)); eauto.
Qed.

End Docstring.
